(** * A shallow embedding of the 6502 simulator (src/index.ts) and of the
      NSF runner (src/main.tsx)

    The simulator keeps its whole state in two typed arrays: [#mem], a
    [Uint8Array] of 2^16 bytes, and [#registers], a [Uint8Array] of seven
    bytes.  Typed arrays are modelled as lists of integers, read and written
    with stdpp's list lookup and insert; every store reduces the value modulo
    2^8, as a [Uint8Array] does.  JavaScript numbers are modelled as [Z]: the
    code only ever produces integers, and the 32-bit behaviour of the bitwise
    operators is written out in module [JS]. *)

From Stdlib Require Import ZArith Lia.
From stdpp Require Import base list gmap strings.

Local Open Scope Z_scope.

(** ** JavaScript arithmetic on integers *)

Module JS.

(** [ToInt32]: the operands and the result of every bitwise operator. *)
Definition ToInt32 (z : Z) : Z := (z + 2 ^ 31) mod 2 ^ 32 - 2 ^ 31.

(** [ToUint8]: the conversion applied by a store into a [Uint8Array]. *)
Definition ToUint8 (z : Z) : Z := z mod 2 ^ 8.

(** [a & b], [a | b], [a ^ b] *)
Definition band (a b : Z) : Z := ToInt32 (Z.land (ToInt32 a) (ToInt32 b)).
Definition bor (a b : Z) : Z := ToInt32 (Z.lor (ToInt32 a) (ToInt32 b)).
Definition bxor (a b : Z) : Z := ToInt32 (Z.lxor (ToInt32 a) (ToInt32 b)).

(** [a << n] and the sign-propagating [a >> n]; the shift count is taken
    modulo 32. *)
Definition shl (a n : Z) : Z := ToInt32 (Z.shiftl (ToInt32 a) (n mod 32)).
Definition shr (a n : Z) : Z := ToInt32 (Z.shiftr (ToInt32 a) (n mod 32)).

(** Truthiness of a number: everything but zero (NaN does not occur). *)
Definition truthy (z : Z) : bool := negb (z =? 0).

(** [Number(b)] for a boolean [b]. *)
Definition Number (b : bool) : Z := if b then 1 else 0.

End JS.

Import JS.

(** ** Typed arrays *)

Module Uint8Array.

(** [new Uint8Array(n)] *)
Definition new (n : nat) : list Z := replicate n 0.

(** [a[i]]: [None] stands for [undefined], the value of a read outside the
    array. *)
Definition at_index (a : list Z) (i : Z) : option Z :=
  if 0 <=? i then a !! Z.to_nat i else None.

(** [a[i] = v]: the value is reduced modulo 256; a store outside the array
    is ignored. *)
Definition store (a : list Z) (i v : Z) : list Z :=
  if 0 <=? i then <[Z.to_nat i := ToUint8 v]> a else a.

(** [a.set(values, offset)]: [None] stands for the [RangeError] thrown
    when the offset is negative or the values do not fit; otherwise the
    values replace the elements from [offset] on, each reduced as by
    [store]. *)
Definition set_from (a : list Z) (values : list Z) (offset : Z)
  : option (list Z) :=
  if offset <? 0 then None
  else if Z.of_nat (length a) <? Z.of_nat (length values) + offset then None
  else Some (take (Z.to_nat offset) a ++ (ToUint8 <$> values)
             ++ drop (Z.to_nat offset + length values) a).

(** A relative index of [fill]: negative counts from the end, and the
    result is clamped to the array. *)
Definition relative (len k : Z) : Z :=
  if k <? 0 then Z.max (len + k) 0 else Z.min k len.

(** [a.fill(v, start, end)]: the elements from [start] up to, not
    including, [end] become [v]. *)
Definition fill (a : list Z) (v start end_ : Z) : list Z :=
  let len := Z.of_nat (length a) in
  let k := relative len start in
  let final := relative len end_ in
  let count := Z.to_nat (final - k) in
  take (Z.to_nat k) a ++ replicate count (ToUint8 v)
    ++ drop (Z.to_nat k + count) a.

End Uint8Array.

(** ** The simulator state *)

Record Simulator := mkSimulator {
  cycle : Z;
  mem : list Z;        (* #mem, 2^16 bytes *)
  registers : list Z;  (* #registers, 7 bytes: PC low, PC high, A, X, Y, SR, SP *)
}.

(** A register read.  The indices used below are 0..6, inside the array;
    [undefined] cannot occur there and is read as 0. *)
Definition reg (i : nat) (s : Simulator) : Z := default 0 (registers s !! i).

Definition set_reg (i : nat) (v : Z) (s : Simulator) : Simulator :=
  mkSimulator (cycle s) (mem s) (Uint8Array.store (registers s) (Z.of_nat i) v).

Definition set_mem (m : list Z) (s : Simulator) : Simulator :=
  mkSimulator (cycle s) m (registers s).

(** [get #pc] and [set #pc] *)
Definition pc (s : Simulator) : Z := bor (shl (reg 1 s) 8) (reg 0 s).
Definition set_pc (value : Z) (s : Simulator) : Simulator :=
  let s := set_reg 0 (band value 0xFF) s in
  set_reg 1 (shr value 8) s.

Definition ac : Simulator -> Z := reg 2.
Definition set_ac : Z -> Simulator -> Simulator := set_reg 2.
Definition x : Simulator -> Z := reg 3.
Definition set_x : Z -> Simulator -> Simulator := set_reg 3.
Definition y : Simulator -> Z := reg 4.
Definition set_y : Z -> Simulator -> Simulator := set_reg 4.
(** NV-BDIZC *)
Definition sr : Simulator -> Z := reg 5.
Definition set_sr : Z -> Simulator -> Simulator := set_reg 5.
Definition sp : Simulator -> Z := reg 6.
Definition set_sp : Z -> Simulator -> Simulator := set_reg 6.

(** The flag accessors: a getter masks SR, a setter ors the bit in when the
    value is truthy and masks it out otherwise. *)
Definition flag (mask : Z) (s : Simulator) : Z := band (sr s) mask.
Definition set_flag (on off : Z) (val : Z) (s : Simulator) : Simulator :=
  if truthy val then set_sr (bor (sr s) on) s
  else set_sr (band (sr s) off) s.

Definition zero := flag 0x02.
Definition set_zero := set_flag 0x02 0xFD.
Definition decimal := flag 0x08.
Definition set_decimal := set_flag 0x08 0xF7.
Definition interrupt := flag 0x04.
Definition set_interrupt := set_flag 0x04 0xFB.
Definition overflow := flag 0x40.
Definition set_overflow := set_flag 0x40 0xBF.
Definition carry := flag 0x01.
Definition set_carry := set_flag 0x01 0xFE.
Definition negative := flag 0x80.
Definition set_negative := set_flag 0x80 0x7F.

(** ** Memory access *)

(** The index expression [hh << 8 | ll + offset] shared by [get] and [set]:
    the sum binds tighter than the shift, which binds tighter than the or. *)
Definition address (ll hh offset : Z) : Z := bor (shl hh 8) (ll + offset).

(** [get(ll, hh = 0, offset = 0)].  A read outside the array gives
    [undefined] in the source; it is read as 0 here, and [address_in_memory]
    below shows that operand bytes never index outside the array. *)
Definition get (ll hh offset : Z) (s : Simulator) : Z :=
  default 0 (Uint8Array.at_index (mem s) (address ll hh offset)).

(** [set(ll, hh, offset, val)] (the console output for page 0x40 is not
    modelled). *)
Definition set (ll hh offset val : Z) (s : Simulator) : Simulator :=
  set_mem (Uint8Array.store (mem s) (address ll hh offset) val) s.

(** [pushStackValue]: [this.#mem[0x0100 | this.#sp--] = val] stores at the
    old stack pointer, after the decrement has been written back. *)
Definition pushStackValue (val : Z) (s : Simulator) : Simulator :=
  let old := sp s in
  let s := set_sp (old - 1) s in
  set_mem (Uint8Array.store (mem s) (bor 0x0100 old) val) s.

Definition popStackValue (s : Simulator) : Z * Simulator :=
  let s := set_sp (sp s + 1) s in
  (get (sp s) 0x01 0 s, s).

Definition getStackValue (s : Simulator) : Z :=
  default 0 (Uint8Array.at_index (mem s) (bor 0x0100 (sp s))).

(** [fill(start, end, val)] *)
Definition fill (start end_ val : Z) (s : Simulator) : Simulator :=
  set_mem (Uint8Array.fill (mem s) val start end_) s.

(** The errors the host throws. *)
Inductive Error := RangeError | TypeError.

(** How a call ends: normally, by throwing, or outside the model (a call
    that leaves a declared parameter [undefined]). *)
Inductive Completion (A : Type) : Type :=
  | Normal (a : A)
  | Throw (e : Error)
  | Unmodelled.
Arguments Normal {A} a.
Arguments Throw {A} e.
Arguments Unmodelled {A}.

#[global] Instance Completion_ret : MRet Completion := fun _ a => Normal a.
#[global] Instance Completion_bind : MBind Completion := fun _ _ k c =>
  match c with
  | Normal a => k a
  | Throw e => Throw e
  | Unmodelled => Unmodelled
  end.

#[global] Instance Completion_fmap : FMap Completion := fun _ _ f c =>
  match c with
  | Normal a => Normal (f a)
  | Throw e => Throw e
  | Unmodelled => Unmodelled
  end.

(** [write(values, targetOffset = 0)]: [#mem.set] either stores every value
    or throws. *)
Definition write (values : list Z) (targetOffset : Z) (s : Simulator)
  : Completion Simulator :=
  match Uint8Array.set_from (mem s) values targetOffset with
  | Some m => Normal (set_mem m s)
  | None => Throw RangeError
  end.

Definition incProgramCounter (s : Simulator) : Simulator := set_pc (pc s + 1) s.

(** [offsetProgramCounter]: the offset goes through an [Int8Array]. *)
Definition ToInt8 (z : Z) : Z := (z + 2 ^ 7) mod 2 ^ 8 - 2 ^ 7.
Definition offsetProgramCounter (offset : Z) (s : Simulator) : Simulator :=
  set_pc (pc s + ToInt8 offset) s.

(** ** Operation products and flag updates *)

Record OperationProduct := mkProduct {
  result : Z;
  isOverflow : bool;
  isZero : bool;
  isNegative : bool;
  isCarry : bool;
  isSetter : bool;
  before : option Z;
  after : option Z;
  byte : option Z;
}.

(** [#afterOperationActions]; [v ?? 0] is [default 0 v]. *)
Definition afterOperationActions (product : OperationProduct) (s : Simulator)
  : Simulator :=
  let s :=
    if isNegative product
    then set_negative (band (default 0 (after product)) 0x80) s else s in
  let s :=
    if isZero product
    then set_zero (Number (default 0 (after product) =? 0)) s else s in
  let s :=
    if isCarry product
    then set_carry (Number (0xFF <? result product)) s else s in
  if isOverflow product then
    let beforeSign := band (default 0 (before product)) 0x80 in
    let byteSign := band (default 0 (byte product)) 0x80 in
    let afterSign := band (default 0 (after product)) 0x80 in
    set_overflow
      (Number (truthy (band beforeSign byteSign)
               && truthy (bxor afterSign beforeSign))) s
  else s.

(** A JavaScript function of zero, one or two declared parameters. *)
Inductive Fn (R : Type) : Type :=
  | Fn0 (f : R)
  | Fn1 (f : Z -> R)
  | Fn2 (f : Z -> Z -> R).
Arguments Fn0 {R} f.
Arguments Fn1 {R} f.
Arguments Fn2 {R} f.

(** [f.length] *)
Definition Fn_length {R} (f : Fn R) : nat :=
  match f with Fn0 _ => 0 | Fn1 _ => 1 | Fn2 _ => 2 end%nat.

(** [f(...args)]: surplus arguments are dropped; a missing argument would be
    [undefined]. *)
Definition call {R} (f : Fn R) (args : list Z) : Completion R :=
  match f, args with
  | Fn0 f, _ => Normal f
  | Fn1 f, a :: _ => Normal (f a)
  | Fn2 f, a :: b :: _ => Normal (f a b)
  | _, _ => Unmodelled
  end.

(** An operation receives the operand byte and the simulator; it may change
    the simulator and returns a product or nothing. *)
Definition Operation : Type := Z -> Simulator -> option OperationProduct * Simulator.

Module Op.

Definition ADC : Operation := fun byte s =>
  let before := ac s in
  let result := ac s + byte + carry s in
  let s := set_ac result s in
  (Some {| result := result;
           isOverflow := true; isZero := true; isNegative := true;
           isCarry := true; isSetter := false;
           before := Some before; after := Some (ac s); byte := Some byte |}, s).

Definition AND : Operation := fun byte s =>
  let before := ac s in
  let result := band (ac s) byte in
  let s := set_ac (band (ac s) byte) s in
  (Some {| result := result;
           isOverflow := false; isZero := true; isNegative := true;
           isCarry := false; isSetter := false;
           before := Some before; after := Some (ac s); byte := Some byte |}, s).

(** BIT returns nothing.  Its last conditional tests bit 1 of the operand
    and writes bit 1 of SR. *)
Definition BIT : Operation := fun byte s =>
  let s := set_zero (band (ac s) byte) s in
  let s := if truthy (band byte 0x80)
           then set_sr (bor (sr s) 0x80) s
           else set_sr (band (sr s) 0x7F) s in
  let s := if truthy (band byte 0x02)
           then set_sr (bor (sr s) 0x02) s
           else set_sr (band (sr s) 0xFD) s in
  (None, s).

Definition CMP : Operation := fun byte s =>
  let before := ac s in
  let result := ac s - byte in
  let s := set_ac result s in
  (Some {| result := result;
           isOverflow := false; isZero := true; isNegative := true;
           isCarry := true; isSetter := false;
           before := Some before; after := Some (ac s); byte := Some byte |}, s).

Definition CPX : Operation := fun byte s =>
  let before := x s in
  let result := x s - byte in
  let s := set_x result s in
  (Some {| result := result;
           isOverflow := false; isZero := true; isNegative := true;
           isCarry := true; isSetter := false;
           before := Some before; after := Some (x s); byte := Some byte |}, s).

(** [after: this.#y = result]: the assignment stores into Y and has the
    unreduced [result] as its value. *)
Definition CPY : Operation := fun byte s =>
  let before := y s in
  let result := y s - byte in
  let s := set_y result s in
  (Some {| result := result;
           isOverflow := false; isZero := true; isNegative := true;
           isCarry := true; isSetter := false;
           before := Some before; after := Some result; byte := Some byte |}, s).

Definition EOR : Operation := fun byte s =>
  let before := ac s in
  let result := bxor (ac s) byte in
  let s := set_ac result s in
  (Some {| result := result;
           isOverflow := false; isZero := true; isNegative := true;
           isCarry := false; isSetter := false;
           before := Some before; after := Some result; byte := Some byte |}, s).

Definition LDA : Operation := fun byte s =>
  let before := ac s in
  let s := set_ac byte s in
  (Some {| result := byte;
           isOverflow := false; isZero := true; isNegative := true;
           isCarry := false; isSetter := false;
           before := Some before; after := Some byte; byte := Some byte |}, s).

Definition LDX : Operation := fun byte s =>
  let before := x s in
  let s := set_x byte s in
  (Some {| result := byte;
           isOverflow := false; isZero := true; isNegative := true;
           isCarry := false; isSetter := false;
           before := Some before; after := Some byte; byte := Some byte |}, s).

Definition LDY : Operation := fun byte s =>
  let before := y s in
  let s := set_y byte s in
  (Some {| result := byte;
           isOverflow := false; isZero := true; isNegative := true;
           isCarry := false; isSetter := false;
           before := Some before; after := Some byte; byte := Some byte |}, s).

(** ORA does not assign the accumulator; it marks its product a setter. *)
Definition ORA : Operation := fun byte s =>
  let before := ac s in
  let result := bor (ac s) byte in
  (Some {| result := result;
           isOverflow := false; isZero := true; isNegative := true;
           isCarry := false; isSetter := true;
           before := Some before; after := Some result; byte := Some byte |}, s).

(** SBC sets C and V itself, does not assign the accumulator and marks its
    product a setter. *)
Definition SBC : Operation := fun byte s =>
  let before := ac s in
  let result := ac s - byte - (1 - carry s) in
  let s := set_carry (Number (0 <=? result)) s in
  let s := set_overflow
             (Number (negb (band (bxor (ac s) result) 0x80 =? 0)
                      && negb (band (bxor (ac s) byte) 0x80 =? 0))) s in
  (Some {| result := result;
           isOverflow := false; isZero := true; isNegative := true;
           isCarry := false; isSetter := true;
           before := Some before; after := Some (band result 0xFF); byte := Some byte |}, s).

Definition STA : Operation := fun _ s =>
  (Some {| result := (ac s);
           isOverflow := false; isZero := false; isNegative := false;
           isCarry := false; isSetter := true;
           before := Some (ac s); after := Some (ac s); byte := None |}, s).

(** The operations registered with [#addOperation] declare their own
    parameters. *)
Definition OperationFn : Type :=
  Fn (Simulator -> option OperationProduct * Simulator).

Definition ASL : Operation := fun byte s =>
  let before := byte in
  (Some {| result := shl before 1;
           isOverflow := false; isZero := true; isNegative := true;
           isCarry := true; isSetter := true;
           before := Some byte; after := Some (band (shl before 1) 0xFF);
           byte := None |}, s).

Definition BCC : OperationFn := Fn1 (fun offset s =>
  (None, if negb (truthy (carry s)) then offsetProgramCounter offset s else s)).

Definition BCS : OperationFn := Fn1 (fun offset s =>
  (None, if truthy (carry s) then offsetProgramCounter offset s else s)).

Definition BEQ : OperationFn := Fn1 (fun offset s =>
  (None, if truthy (zero s) then offsetProgramCounter offset s else s)).

Definition BMI : OperationFn := Fn1 (fun offset s =>
  (None, if truthy (negative s) then offsetProgramCounter offset s else s)).

Definition BNE : OperationFn := Fn1 (fun offset s =>
  (None, if negb (truthy (zero s)) then offsetProgramCounter offset s else s)).

Definition BPL : OperationFn := Fn1 (fun offset s =>
  (None, if negb (truthy (negative s)) then offsetProgramCounter offset s else s)).

Definition BRK : OperationFn := Fn0 (fun s =>
  let s := set_pc (pc s + 2) s in
  let s := pushStackValue (shr (pc s) 8) s in
  let s := pushStackValue (band (pc s) 0xFF) s in
  let s := set_sr (bor (sr s) 0x04) s in
  let s := pushStackValue (sr s) s in
  (None, set_pc (bor (get 0xFFFE 0 0 s) (shl (get 0xFFFF 0 0 s) 8)) s)).

Definition BVC : OperationFn := Fn1 (fun offset s =>
  (None, if negb (truthy (overflow s)) then offsetProgramCounter offset s else s)).

Definition BVS : OperationFn := Fn1 (fun offset s =>
  (None, if truthy (overflow s) then offsetProgramCounter offset s else s)).

Definition CLC : OperationFn := Fn0 (fun s => (None, set_carry 0 s)).

Definition CLD : OperationFn := Fn0 (fun s =>
  (None, set_sr (band (sr s) 0xF7) s)).

Definition CLI : OperationFn := Fn0 (fun s =>
  (None, set_sr (band (sr s) 0xFB) s)).

Definition CLV : OperationFn := Fn0 (fun s => (None, set_overflow 0 s)).

Definition DEC : Operation := fun byte s =>
  let before := byte in
  let result := byte - 1 in
  (Some {| result := result;
           isOverflow := false; isZero := true; isNegative := true;
           isCarry := false; isSetter := true;
           before := Some before; after := Some result; byte := Some byte |}, s).

Definition DEX : OperationFn := Fn0 (fun s =>
  let before := x s in
  let result := x s - 1 in
  let s := set_x (x s - 1) s in
  (Some {| result := result;
           isOverflow := false; isZero := true; isNegative := true;
           isCarry := false; isSetter := true;
           before := Some before; after := Some (x s); byte := None |}, s)).

Definition DEY : OperationFn := Fn0 (fun s =>
  let before := y s in
  let result := y s - 1 in
  let s := set_y (y s - 1) s in
  (Some {| result := result;
           isOverflow := false; isZero := true; isNegative := true;
           isCarry := false; isSetter := true;
           before := Some before; after := Some (y s); byte := None |}, s)).

Definition INC : Operation := fun byte s =>
  let before := byte in
  let result := byte + 1 in
  (Some {| result := result;
           isOverflow := false; isZero := true; isNegative := true;
           isCarry := false; isSetter := true;
           before := Some before; after := Some result; byte := Some byte |}, s).

Definition INX : OperationFn := Fn0 (fun s =>
  let before := x s in
  let result := x s + 1 in
  let s := set_x (x s + 1) s in
  (Some {| result := result;
           isOverflow := false; isZero := true; isNegative := true;
           isCarry := false; isSetter := true;
           before := Some before; after := Some (x s); byte := None |}, s)).

Definition INY : OperationFn := Fn0 (fun s =>
  let before := y s in
  let result := y s + 1 in
  let s := set_y (y s + 1) s in
  (Some {| result := result;
           isOverflow := false; isZero := true; isNegative := true;
           isCarry := false; isSetter := true;
           before := Some before; after := Some (y s); byte := None |}, s)).

Definition JMP : OperationFn := Fn2 (fun ll hh s =>
  (None, set_pc (bor (shl hh 8) ll) s)).

Definition JMP_indirect : OperationFn := Fn2 (fun ll hh s =>
  (None, set_pc (bor (band (get ll hh 0 s) 0xFF) (shl (get ll hh 1 s) 8)) s)).

Definition JSR : OperationFn := Fn2 (fun ll hh s =>
  let s := pushStackValue (shr (pc s) 8) s in
  let s := pushStackValue (band (pc s) 0xFF) s in
  (None, set_pc (bor (shl hh 8) ll) s)).

Definition LSR : Operation := fun byte s =>
  let before := byte in
  let result := shr byte 1 in
  let s := set_carry (band byte 1) s in
  (Some {| result := result;
           isOverflow := false; isZero := true; isNegative := true;
           isCarry := false; isSetter := true;
           before := Some before; after := Some result; byte := Some byte |}, s).

Definition NOP : OperationFn := Fn0 (fun s => (None, s)).

Definition PHA : OperationFn := Fn0 (fun s =>
  (None, pushStackValue (ac s) s)).

Definition PHP : OperationFn := Fn0 (fun s =>
  (None, pushStackValue (sr s) s)).

(** The products of PLA and of the transfers have no [after] field. *)
Definition PLA : OperationFn := Fn0 (fun s =>
  let '(v, s) := popStackValue s in
  let s := set_ac v s in
  (Some {| result := ac s;
           isOverflow := false; isZero := true; isNegative := true;
           isCarry := false; isSetter := false;
           before := None; after := None; byte := None |}, s)).

Definition PLP : OperationFn := Fn0 (fun s =>
  let '(v, s) := popStackValue s in
  (None, set_sr v s)).

Definition ROL : Operation := fun byte s =>
  let before := byte in
  let result := bor (shl byte 1) (band (sr s) 1) in
  (Some {| result := result;
           isOverflow := false; isZero := true; isNegative := true;
           isCarry := true; isSetter := true;
           before := Some before; after := Some (band result 0xFF);
           byte := Some byte |}, s).

Definition ROR : Operation := fun byte s =>
  let before := byte in
  let result := bor (shr byte 1) (shl (band (sr s) 1) 7) in
  let s := set_carry (band byte 1) s in
  (Some {| result := result;
           isOverflow := false; isZero := true; isNegative := true;
           isCarry := false; isSetter := true;
           before := Some before; after := Some (band result 0xFF);
           byte := Some byte |}, s).

Definition RTI : OperationFn := Fn0 (fun s =>
  let '(v, s) := popStackValue s in
  let s := set_sr v s in
  let '(lo, s) := popStackValue s in
  let '(hi, s) := popStackValue s in
  (None, set_pc (bor lo (shl hi 8)) s)).

Definition RTS : OperationFn := Fn0 (fun s =>
  let '(lo, s) := popStackValue s in
  let '(hi, s) := popStackValue s in
  (None, set_pc (bor lo (shl hi 8)) s)).

Definition SEC : OperationFn := Fn0 (fun s => (None, set_carry 1 s)).

Definition SED : OperationFn := Fn0 (fun s => (None, set_decimal 1 s)).

Definition SEI : OperationFn := Fn0 (fun s => (None, set_interrupt 1 s)).

Definition STX : Operation := fun _ s =>
  (Some {| result := x s;
           isOverflow := false; isZero := false; isNegative := false;
           isCarry := false; isSetter := true;
           before := Some (x s); after := Some (x s); byte := None |}, s).

Definition STY : Operation := fun _ s =>
  (Some {| result := y s;
           isOverflow := false; isZero := false; isNegative := false;
           isCarry := false; isSetter := true;
           before := Some (y s); after := Some (y s); byte := None |}, s).

Definition TAX : OperationFn := Fn0 (fun s =>
  let s := set_x (ac s) s in
  (Some {| result := x s;
           isOverflow := false; isZero := true; isNegative := true;
           isCarry := false; isSetter := false;
           before := None; after := None; byte := None |}, s)).

Definition TAY : OperationFn := Fn0 (fun s =>
  let s := set_y (ac s) s in
  (Some {| result := y s;
           isOverflow := false; isZero := true; isNegative := true;
           isCarry := false; isSetter := false;
           before := None; after := None; byte := None |}, s)).

Definition TSX : OperationFn := Fn0 (fun s =>
  let s := set_x (sp s) s in
  (Some {| result := x s;
           isOverflow := false; isZero := true; isNegative := true;
           isCarry := false; isSetter := false;
           before := None; after := None; byte := None |}, s)).

Definition TXA : OperationFn := Fn0 (fun s =>
  let s := set_ac (x s) s in
  (Some {| result := ac s;
           isOverflow := false; isZero := true; isNegative := true;
           isCarry := false; isSetter := false;
           before := None; after := None; byte := None |}, s)).

Definition TXS : OperationFn := Fn0 (fun s => (None, set_sp (x s) s)).

Definition TYA : OperationFn := Fn0 (fun s =>
  let s := set_ac (y s) s in
  (Some {| result := ac s;
           isOverflow := false; isZero := true; isNegative := true;
           isCarry := false; isSetter := false;
           before := None; after := None; byte := None |}, s)).


End Op.

(** ** The opcode table *)

Definition Handler : Type := Fn (Simulator -> Simulator).

Record BaseOperationSpec := {
  name : string;
  accumulatorCode : option Z;
  immediateCode : option Z;
  zeropageCode : option Z;
  zeropageXCode : option Z;
  zeropageYCode : option Z;
  absoluteCode : option Z;
  absoluteXCode : option Z;
  absoluteYCode : option Z;
  indirectXCode : option Z;
  indirectYCode : option Z;
  operation : Operation;
}.

Definition inc_cycle (s : Simulator) : Simulator :=
  mkSimulator (cycle s + 1) (mem s) (registers s).

(** The ten closures installed by [#addOperationWithByte], one per addressing
    mode.  Each runs the operation on the operand byte, applies the flag
    updates and, except in immediate mode, stores [product.result] when the
    product is a setter. *)
Module Mode.
Section Closures.
Variable op : Operation.

(** What follows the operation in every closure but the immediate one;
    [store] is the closure's write-back. *)
Definition finish (store : Z -> Simulator -> Simulator)
    (r : option OperationProduct * Simulator) : Simulator :=
  match r with
  | (None, s) => s
  | (Some product, s) =>
      let s := afterOperationActions product s in
      if isSetter product then store (result product) s else s
  end.

Definition accumulator (s : Simulator) : Simulator :=
  let s := inc_cycle s in
  finish set_ac (op (ac s) s).

Definition immediate (val : Z) (s : Simulator) : Simulator :=
  let s := inc_cycle s in
  match op val s with
  | (None, s) => s
  | (Some product, s) => afterOperationActions product s
  end.

Definition zeropage (ll : Z) (s : Simulator) : Simulator :=
  let s := inc_cycle s in
  finish (fun r s => set ll 0 0 r s) (op (get ll 0 0 s) s).

Definition zeropageX (ll : Z) (s : Simulator) : Simulator :=
  let s := inc_cycle s in
  finish (fun r s => set ll 0 (x s) r s) (op (get ll 0 (x s) s) s).

Definition zeropageY (ll : Z) (s : Simulator) : Simulator :=
  let s := inc_cycle s in
  finish (fun r s => set ll 0 (y s) r s) (op (get ll 0 (y s) s) s).

Definition absolute (ll hh : Z) (s : Simulator) : Simulator :=
  let s := inc_cycle s in
  finish (fun r s => set ll hh 0 r s) (op (get ll hh 0 s) s).

Definition absoluteX (ll hh : Z) (s : Simulator) : Simulator :=
  let s := inc_cycle s in
  finish (fun r s => set ll hh (x s) r s) (op (get ll hh (x s) s) s).

Definition absoluteY (ll hh : Z) (s : Simulator) : Simulator :=
  let s := inc_cycle s in
  finish (fun r s => set ll hh (y s) r s) (op (get ll hh (y s) s) s).

Definition indirectX (ll : Z) (s : Simulator) : Simulator :=
  let s := inc_cycle s in
  finish
    (fun r s => set (get ll 0 (x s) s) (get ll 0 (x s + 1) s) 0 r s)
    (op (get (get ll 0 (x s) s) (get ll 0 (x s + 1) s) 0 s) s).

(** The read adds Y to the low pointer byte before [get] shifts and ors;
    the write passes Y as the offset of [set]. *)
Definition indirectY (ll : Z) (s : Simulator) : Simulator :=
  let s := inc_cycle s in
  finish
    (fun r s => set (get ll 0 0 s) (get ll 0 1 s) (y s) r s)
    (op (get (get ll 0 0 s + y s) (get ll 0 1 s) 0 s) s).

End Closures.
End Mode.

Record Dispatch := mkDispatch {
  codeToName : gmap Z string;
  ops : gmap Z Handler;
}.

(** [if (code) { codeToName[code] = ...; ops[code] = ... }]: an absent code
    and the code 0 are both falsy. *)
Definition register (code : option Z) (label : string) (h : Handler)
    (d : Dispatch) : Dispatch :=
  match code with
  | Some c =>
      if truthy c
      then mkDispatch (<[c := label]> (codeToName d)) (<[c := h]> (ops d))
      else d
  | None => d
  end.

Definition addOperationWithByte (spec : BaseOperationSpec) (d : Dispatch)
  : Dispatch :=
  let op := operation spec in
  let d := register (accumulatorCode spec) (name spec +:+ " A")
             (Fn0 (Mode.accumulator op)) d in
  let d := register (immediateCode spec) (name spec +:+ " #")
             (Fn1 (Mode.immediate op)) d in
  let d := register (zeropageCode spec) (name spec +:+ " zpg")
             (Fn1 (Mode.zeropage op)) d in
  let d := register (zeropageXCode spec) (name spec +:+ " zpg, X")
             (Fn1 (Mode.zeropageX op)) d in
  let d := register (zeropageYCode spec) (name spec +:+ " zpg, Y")
             (Fn1 (Mode.zeropageY op)) d in
  let d := register (absoluteCode spec) (name spec +:+ " abs")
             (Fn2 (Mode.absolute op)) d in
  let d := register (absoluteXCode spec) (name spec +:+ " abs, X")
             (Fn2 (Mode.absoluteX op)) d in
  let d := register (absoluteYCode spec) (name spec +:+ " abs, Y")
             (Fn2 (Mode.absoluteY op)) d in
  let d := register (indirectXCode spec) (name spec +:+ " (ind, X)")
             (Fn1 (Mode.indirectX op)) d in
  register (indirectYCode spec) (name spec +:+ " (ind), Y")
    (Fn1 (Mode.indirectY op)) d.

(** [#addOperation]: the operation has its own parameters; the installed
    function reports the operation's [length] (through the proxy). *)
Record OperationSpec := {
  op_name : string;
  code : Z;
  op_operation : Op.OperationFn;
}.

Definition run_operation (r : option OperationProduct * Simulator) : Simulator :=
  match r with
  | (Some product, s) => afterOperationActions product s
  | (None, s) => s
  end.

Definition addOperation (spec : OperationSpec) (d : Dispatch) : Dispatch :=
  let h : Handler :=
    match op_operation spec with
    | Fn0 f => Fn0 (fun s => run_operation (f (inc_cycle s)))
    | Fn1 f => Fn1 (fun a s => run_operation (f a (inc_cycle s)))
    | Fn2 f => Fn2 (fun a b s => run_operation (f a b (inc_cycle s)))
    end in
  mkDispatch (<[code spec := op_name spec]> (codeToName d))
             (<[code spec := h]> (ops d)).

(** ** The constructor

    The registrations, in the order of the source.  The table does not depend
    on the state, so it is kept apart from [Simulator]. *)

Local Open Scope string_scope.

Module Spec.

Definition ADC : BaseOperationSpec := {|
  name := "ADC"; accumulatorCode := None;
  immediateCode := Some 0x69; zeropageCode := Some 0x65;
  zeropageXCode := Some 0x75; zeropageYCode := None;
  absoluteCode := Some 0x6D; absoluteXCode := Some 0x7D;
  absoluteYCode := Some 0x79;
  indirectXCode := Some 0x61; indirectYCode := Some 0x71;
  operation := Op.ADC |}.

Definition AND : BaseOperationSpec := {|
  name := "AND"; accumulatorCode := None;
  immediateCode := Some 0x29; zeropageCode := Some 0x25;
  zeropageXCode := Some 0x35; zeropageYCode := None;
  absoluteCode := Some 0x2D; absoluteXCode := Some 0x3D;
  absoluteYCode := Some 0x39;
  indirectXCode := Some 0x21; indirectYCode := Some 0x31;
  operation := Op.AND |}.

Definition ASL : BaseOperationSpec := {|
  name := "ASL"; accumulatorCode := Some 0x0A;
  immediateCode := None; zeropageCode := Some 0x06;
  zeropageXCode := Some 0x16; zeropageYCode := None;
  absoluteCode := Some 0x0E; absoluteXCode := Some 0x1E;
  absoluteYCode := None;
  indirectXCode := None; indirectYCode := None;
  operation := Op.ASL |}.

Definition BCC : OperationSpec := {|
  op_name := "BCC"; code := 0x90; op_operation := Op.BCC |}.

Definition BCS : OperationSpec := {|
  op_name := "BCS"; code := 0xB0; op_operation := Op.BCS |}.

Definition BEQ : OperationSpec := {|
  op_name := "BEQ"; code := 0xF0; op_operation := Op.BEQ |}.

Definition BIT : BaseOperationSpec := {|
  name := "BIT"; accumulatorCode := None;
  immediateCode := None; zeropageCode := Some 0x24;
  zeropageXCode := None; zeropageYCode := None;
  absoluteCode := Some 0x2C; absoluteXCode := None;
  absoluteYCode := None;
  indirectXCode := None; indirectYCode := None;
  operation := Op.BIT |}.

Definition BMI : OperationSpec := {|
  op_name := "BMI"; code := 0x30; op_operation := Op.BMI |}.

Definition BNE : OperationSpec := {|
  op_name := "BNE"; code := 0xD0; op_operation := Op.BNE |}.

Definition BPL : OperationSpec := {|
  op_name := "BPL"; code := 0x10; op_operation := Op.BPL |}.

Definition BRK : OperationSpec := {|
  op_name := "BRK"; code := 0x00; op_operation := Op.BRK |}.

Definition BVC : OperationSpec := {|
  op_name := "BVC"; code := 0x50; op_operation := Op.BVC |}.

Definition BVS : OperationSpec := {|
  op_name := "BVS"; code := 0x70; op_operation := Op.BVS |}.

Definition CLC : OperationSpec := {|
  op_name := "CLC"; code := 0x18; op_operation := Op.CLC |}.

Definition CLD : OperationSpec := {|
  op_name := "CLD"; code := 0xD8; op_operation := Op.CLD |}.

Definition CLI : OperationSpec := {|
  op_name := "CLI"; code := 0x58; op_operation := Op.CLI |}.

Definition CLV : OperationSpec := {|
  op_name := "CLV"; code := 0xB8; op_operation := Op.CLV |}.

Definition CMP : BaseOperationSpec := {|
  name := "CMP"; accumulatorCode := None;
  immediateCode := Some 0xC9; zeropageCode := Some 0xC5;
  zeropageXCode := Some 0xD5; zeropageYCode := None;
  absoluteCode := Some 0xCD; absoluteXCode := Some 0xDD;
  absoluteYCode := Some 0xD9;
  indirectXCode := Some 0xC1; indirectYCode := Some 0xD1;
  operation := Op.CMP |}.

Definition CPX : BaseOperationSpec := {|
  name := "CPX"; accumulatorCode := None;
  immediateCode := Some 0xE0; zeropageCode := Some 0xE4;
  zeropageXCode := None; zeropageYCode := None;
  absoluteCode := Some 0xEC; absoluteXCode := None;
  absoluteYCode := None;
  indirectXCode := None; indirectYCode := None;
  operation := Op.CPX |}.

Definition CPY : BaseOperationSpec := {|
  name := "CPY"; accumulatorCode := None;
  immediateCode := Some 0xC0; zeropageCode := Some 0xC4;
  zeropageXCode := None; zeropageYCode := None;
  absoluteCode := Some 0xCC; absoluteXCode := None;
  absoluteYCode := None;
  indirectXCode := None; indirectYCode := None;
  operation := Op.CPY |}.

Definition DEC : BaseOperationSpec := {|
  name := "DEC"; accumulatorCode := None;
  immediateCode := None; zeropageCode := Some 0xC6;
  zeropageXCode := Some 0xD6; zeropageYCode := None;
  absoluteCode := Some 0xCE; absoluteXCode := Some 0xDE;
  absoluteYCode := None;
  indirectXCode := None; indirectYCode := None;
  operation := Op.DEC |}.

Definition DEX : OperationSpec := {|
  op_name := "DEX"; code := 0xCA; op_operation := Op.DEX |}.

Definition DEY : OperationSpec := {|
  op_name := "DEY"; code := 0x88; op_operation := Op.DEY |}.

Definition EOR : BaseOperationSpec := {|
  name := "EOR"; accumulatorCode := None;
  immediateCode := Some 0x49; zeropageCode := Some 0x45;
  zeropageXCode := Some 0x55; zeropageYCode := None;
  absoluteCode := Some 0x4D; absoluteXCode := Some 0x5D;
  absoluteYCode := Some 0x59;
  indirectXCode := Some 0x41; indirectYCode := Some 0x51;
  operation := Op.EOR |}.

Definition INC : BaseOperationSpec := {|
  name := "INC"; accumulatorCode := None;
  immediateCode := None; zeropageCode := Some 0xE6;
  zeropageXCode := Some 0xF6; zeropageYCode := None;
  absoluteCode := Some 0xEE; absoluteXCode := Some 0xFE;
  absoluteYCode := None;
  indirectXCode := None; indirectYCode := None;
  operation := Op.INC |}.

Definition INX : OperationSpec := {|
  op_name := "INX"; code := 0xE8; op_operation := Op.INX |}.

Definition INY : OperationSpec := {|
  op_name := "INY"; code := 0xC8; op_operation := Op.INY |}.

Definition JMP : OperationSpec := {|
  op_name := "JMP"; code := 0x4C; op_operation := Op.JMP |}.

Definition JMP_indirect : OperationSpec := {|
  op_name := "JMP"; code := 0x6C; op_operation := Op.JMP_indirect |}.

Definition JSR : OperationSpec := {|
  op_name := "JSR"; code := 0x20; op_operation := Op.JSR |}.

Definition LDA : BaseOperationSpec := {|
  name := "LDA"; accumulatorCode := None;
  immediateCode := Some 0xA9; zeropageCode := Some 0xA5;
  zeropageXCode := Some 0xB5; zeropageYCode := None;
  absoluteCode := Some 0xAD; absoluteXCode := Some 0xBD;
  absoluteYCode := Some 0xB9;
  indirectXCode := Some 0xA1; indirectYCode := Some 0xB1;
  operation := Op.LDA |}.

Definition LDX : BaseOperationSpec := {|
  name := "LDX"; accumulatorCode := None;
  immediateCode := Some 0xA2; zeropageCode := Some 0xA6;
  zeropageXCode := None; zeropageYCode := Some 0xB6;
  absoluteCode := Some 0xAE; absoluteXCode := None;
  absoluteYCode := Some 0xBE;
  indirectXCode := None; indirectYCode := None;
  operation := Op.LDX |}.

Definition LDY : BaseOperationSpec := {|
  name := "LDY"; accumulatorCode := None;
  immediateCode := Some 0xA0; zeropageCode := Some 0xA4;
  zeropageXCode := Some 0xB4; zeropageYCode := None;
  absoluteCode := Some 0xAC; absoluteXCode := Some 0xBC;
  absoluteYCode := None;
  indirectXCode := None; indirectYCode := None;
  operation := Op.LDY |}.

Definition LSR : BaseOperationSpec := {|
  name := "LSR"; accumulatorCode := Some 0x4A;
  immediateCode := None; zeropageCode := Some 0x46;
  zeropageXCode := Some 0x56; zeropageYCode := None;
  absoluteCode := Some 0x4E; absoluteXCode := Some 0x5E;
  absoluteYCode := None;
  indirectXCode := None; indirectYCode := None;
  operation := Op.LSR |}.

Definition NOP : OperationSpec := {|
  op_name := "NOP"; code := 0xEA; op_operation := Op.NOP |}.

Definition ORA : BaseOperationSpec := {|
  name := "ORA"; accumulatorCode := None;
  immediateCode := Some 0x09; zeropageCode := Some 0x05;
  zeropageXCode := Some 0x15; zeropageYCode := None;
  absoluteCode := Some 0x0D; absoluteXCode := Some 0x1D;
  absoluteYCode := Some 0x19;
  indirectXCode := Some 0x01; indirectYCode := Some 0x11;
  operation := Op.ORA |}.

Definition PHA : OperationSpec := {|
  op_name := "PHA"; code := 0x48; op_operation := Op.PHA |}.

Definition PHP : OperationSpec := {|
  op_name := "PHP"; code := 0x08; op_operation := Op.PHP |}.

Definition PLA : OperationSpec := {|
  op_name := "PLA"; code := 0x68; op_operation := Op.PLA |}.

Definition PLP : OperationSpec := {|
  op_name := "PLP"; code := 0x28; op_operation := Op.PLP |}.

Definition ROL : BaseOperationSpec := {|
  name := "ROL"; accumulatorCode := Some 0x2A;
  immediateCode := None; zeropageCode := Some 0x26;
  zeropageXCode := Some 0x36; zeropageYCode := None;
  absoluteCode := Some 0x2E; absoluteXCode := Some 0x3E;
  absoluteYCode := None;
  indirectXCode := None; indirectYCode := None;
  operation := Op.ROL |}.

Definition ROR : BaseOperationSpec := {|
  name := "ROR"; accumulatorCode := Some 0x6A;
  immediateCode := None; zeropageCode := Some 0x66;
  zeropageXCode := Some 0x76; zeropageYCode := None;
  absoluteCode := Some 0x6E; absoluteXCode := Some 0x7E;
  absoluteYCode := None;
  indirectXCode := None; indirectYCode := None;
  operation := Op.ROR |}.

Definition RTI : OperationSpec := {|
  op_name := "RTI"; code := 0x40; op_operation := Op.RTI |}.

Definition RTS : OperationSpec := {|
  op_name := "RTS"; code := 0x60; op_operation := Op.RTS |}.

Definition SBC : BaseOperationSpec := {|
  name := "SBC"; accumulatorCode := None;
  immediateCode := Some 0xE9; zeropageCode := Some 0xE5;
  zeropageXCode := Some 0xF5; zeropageYCode := None;
  absoluteCode := Some 0xED; absoluteXCode := Some 0xFD;
  absoluteYCode := Some 0xF9;
  indirectXCode := Some 0xE1; indirectYCode := Some 0xF1;
  operation := Op.SBC |}.

Definition SEC : OperationSpec := {|
  op_name := "SEC"; code := 0x38; op_operation := Op.SEC |}.

Definition SED : OperationSpec := {|
  op_name := "SED"; code := 0xF8; op_operation := Op.SED |}.

Definition SEI : OperationSpec := {|
  op_name := "SEI"; code := 0x78; op_operation := Op.SEI |}.

Definition STA : BaseOperationSpec := {|
  name := "STA"; accumulatorCode := None;
  immediateCode := None; zeropageCode := Some 0x85;
  zeropageXCode := Some 0x95; zeropageYCode := None;
  absoluteCode := Some 0x8D; absoluteXCode := Some 0x9D;
  absoluteYCode := Some 0x99;
  indirectXCode := Some 0x81; indirectYCode := Some 0x91;
  operation := Op.STA |}.

Definition STX : BaseOperationSpec := {|
  name := "STX"; accumulatorCode := None;
  immediateCode := None; zeropageCode := Some 0x86;
  zeropageXCode := None; zeropageYCode := Some 0x96;
  absoluteCode := Some 0x8E; absoluteXCode := None;
  absoluteYCode := None;
  indirectXCode := None; indirectYCode := None;
  operation := Op.STX |}.

Definition STY : BaseOperationSpec := {|
  name := "STY"; accumulatorCode := None;
  immediateCode := None; zeropageCode := Some 0x84;
  zeropageXCode := Some 0x94; zeropageYCode := None;
  absoluteCode := Some 0x8C; absoluteXCode := None;
  absoluteYCode := None;
  indirectXCode := None; indirectYCode := None;
  operation := Op.STY |}.

Definition TAX : OperationSpec := {|
  op_name := "TAX"; code := 0xAA; op_operation := Op.TAX |}.

Definition TAY : OperationSpec := {|
  op_name := "TAY"; code := 0xA8; op_operation := Op.TAY |}.

Definition TSX : OperationSpec := {|
  op_name := "TSX"; code := 0xBA; op_operation := Op.TSX |}.

Definition TXA : OperationSpec := {|
  op_name := "TXA"; code := 0x8A; op_operation := Op.TXA |}.

Definition TXS : OperationSpec := {|
  op_name := "TXS"; code := 0x9A; op_operation := Op.TXS |}.

Definition TYA : OperationSpec := {|
  op_name := "TYA"; code := 0x98; op_operation := Op.TYA |}.

End Spec.

Local Close Scope string_scope.

Definition dispatch : Dispatch :=
  foldl (fun d add => add d) (mkDispatch ∅ ∅)
    [ addOperationWithByte Spec.ADC;
      addOperationWithByte Spec.AND;
      addOperationWithByte Spec.ASL;
      addOperation Spec.BCC;
      addOperation Spec.BCS;
      addOperation Spec.BEQ;
      addOperationWithByte Spec.BIT;
      addOperation Spec.BMI;
      addOperation Spec.BNE;
      addOperation Spec.BPL;
      addOperation Spec.BRK;
      addOperation Spec.BVC;
      addOperation Spec.BVS;
      addOperation Spec.CLC;
      addOperation Spec.CLD;
      addOperation Spec.CLI;
      addOperation Spec.CLV;
      addOperationWithByte Spec.CMP;
      addOperationWithByte Spec.CPX;
      addOperationWithByte Spec.CPY;
      addOperationWithByte Spec.DEC;
      addOperation Spec.DEX;
      addOperation Spec.DEY;
      addOperationWithByte Spec.EOR;
      addOperationWithByte Spec.INC;
      addOperation Spec.INX;
      addOperation Spec.INY;
      addOperation Spec.JMP;
      addOperation Spec.JMP_indirect;
      addOperation Spec.JSR;
      addOperationWithByte Spec.LDA;
      addOperationWithByte Spec.LDX;
      addOperationWithByte Spec.LDY;
      addOperationWithByte Spec.LSR;
      addOperation Spec.NOP;
      addOperationWithByte Spec.ORA;
      addOperation Spec.PHA;
      addOperation Spec.PHP;
      addOperation Spec.PLA;
      addOperation Spec.PLP;
      addOperationWithByte Spec.ROL;
      addOperationWithByte Spec.ROR;
      addOperation Spec.RTI;
      addOperation Spec.RTS;
      addOperationWithByte Spec.SBC;
      addOperation Spec.SEC;
      addOperation Spec.SED;
      addOperation Spec.SEI;
      addOperationWithByte Spec.STA;
      addOperationWithByte Spec.STX;
      addOperationWithByte Spec.STY;
      addOperation Spec.TAX;
      addOperation Spec.TAY;
      addOperation Spec.TSX;
      addOperation Spec.TXA;
      addOperation Spec.TXS;
      addOperation Spec.TYA ].

(** [new Simulator()]: zeroed arrays, then [this.#sp = 0xFF]. *)
Definition new_Simulator : Simulator :=
  set_sp 0xFF
    (mkSimulator 0 (Uint8Array.new (Z.to_nat (2 ^ 16))) (Uint8Array.new 7)).

(** [sim.ops[opcode](...args)]: calling [undefined] is a [TypeError]. *)
Definition exec (opcode : Z) (args : list Z) (s : Simulator)
  : Completion Simulator :=
  match ops dispatch !! opcode with
  | None => Throw TypeError
  | Some h => f ← call h args; mret (f s)
  end.

(** A sequence of calls [sim.ops[c1](...).ops[c2](...)...]. *)
Fixpoint exec_all (calls : list (Z * list Z)) (s : Simulator)
  : Completion Simulator :=
  match calls with
  | [] => Normal s
  | (opcode, args) :: rest => s ← exec opcode args s; exec_all rest s
  end.

(** ** The runner (src/main.tsx) *)

(** The subscriber map and [notify] are left out: subscribers only receive
    references to the two arrays. *)
Record Runner := mkRunner {
  simulator : Simulator;
  inited : bool;
  data : option (list Z);
}.

Definition new_Runner : Runner := mkRunner new_Simulator false None.

(** [data[i]] on the file's [Uint8Array].  [undefined] is read as 0; [run] is
    only reached through [loadend], which has already thrown when the bytes
    at 0x7A and 0x7B are missing. *)
Definition byte_at (d : list Z) (i : Z) : Z :=
  default 0 (Uint8Array.at_index d i).

(** [Runner.run(data)] *)
Definition run (d : list Z) (r : Runner) : Completion Runner :=
  let initialSong := byte_at d 7 + 15 in
  s ← exec 0xA9 [initialSong - 1] (simulator r);
  s ← exec 0xA2 [if truthy (band (byte_at d 0x7A) 0x80) then 0x01 else 0x00] s;
  let s := fill 0x0000 0x0800 0 s in
  let s := fill 0x6000 0x8000 0 s in
  let s := fill 0x4000 0x4014 0 s in
  s ← write [0x0F] 0x4015 s;
  let s := set 0x17 0x40 0 0x40 s in
  let loadAddress := bor (byte_at d 8) (shl (byte_at d 9) 8) in
  s ← exec 0x4C [byte_at d 10; byte_at d 11] s;
  s ← write (drop (Z.to_nat 0x0080) d) loadAddress s;
  mret (mkRunner s (inited r) (Some d)).

(** The file reader's [loadend] listener: a file without the magic is
    reported and ignored; the header dump calls [toString] on the bytes at
    0x7A and 0x7B, a [TypeError] when the file ends before them. *)
Definition loadend (d : list Z) (r : Runner) : Completion Runner :=
  if negb (bool_decide (take 4 d = [0x4E; 0x45; 0x53; 0x4D])) then Normal r
  else if Z.of_nat (length d) <=? 0x7B then Throw TypeError
  else run d r.

(** The operand fetch loop of [step]: read the byte at PC, advance PC. *)
Fixpoint fetch_args (n : nat) (s : Simulator) : list Z * Simulator :=
  match n with
  | O => ([], s)
  | S k =>
      let pc0 := pc s in
      let arg := get (band pc0 0xFF) (shr pc0 8) 0 s in
      let s := incProgramCounter s in
      let '(args, s) := fetch_args k s in
      (arg :: args, s)
  end.

(** [Runner.step()]: reading [length] of a missing table entry is a
    [TypeError].  The first RTS met after a load is not executed; it is
    replaced by a jump to the play address. *)
Definition step (r : Runner) : Completion Runner :=
  let s := simulator r in
  let pc0 := pc s in
  let opcode := get (band pc0 0xFF) (shr pc0 8) 0 s in
  match ops dispatch !! opcode with
  | None => Throw TypeError
  | Some h =>
      let argsLength := Fn_length h in
      let s := incProgramCounter s in
      match data r with
      | Some d =>
          if bool_decide (codeToName dispatch !! opcode = Some "RTS"%string)
             && negb (inited r)
          then
            s ← exec 0x4C [byte_at d 12; byte_at d 13] s;
            mret (mkRunner s true (data r))
          else
            let '(args, s) := fetch_args argsLength s in
            s ← exec opcode args s;
            mret (mkRunner s (inited r) (data r))
      | None =>
          let '(args, s) := fetch_args argsLength s in
          s ← exec opcode args s;
          mret (mkRunner s (inited r) (data r))
      end
  end.

(** [n] calls of [step]. *)
Fixpoint steps (n : nat) (r : Runner) : Completion Runner :=
  match n with
  | O => Normal r
  | S k => r ← step r; steps k r
  end.

(** * Definitions used by the properties *)

(** Well-formed states: both arrays keep their length, and a [Uint8Array]
    only holds bytes.  The theorems need this of the register file and the
    length of the memory. *)
Definition is_byte (z : Z) : bool := (0 <=? z) && (z <? 256).

Definition well_formed (s : Simulator) : bool :=
  (Z.of_nat (length (mem s)) =? 2 ^ 16)
  && (Z.of_nat (length (registers s)) =? 7)
  && forallb is_byte (registers s).

(** A property of bytes that a boolean function decides holds of every byte
    once it has been evaluated on the 256 of them. *)
Fixpoint all_below (n : nat) (P : Z -> bool) : bool :=
  match n with
  | O => true
  | S k => P (Z.of_nat k) && all_below k P
  end.

(** The state in which [run] starts to copy the body, given the memory [m]
    left by the write to $4015. *)
Definition before_body_copy (d : list Z) (m : list Z) (s0 : Simulator)
  : Simulator :=
  let s1 := Mode.immediate Op.LDA (byte_at d 7 + 15 - 1) s0 in
  let s2 :=
    Mode.immediate Op.LDX
      (if truthy (band (byte_at d 0x7A) 0x80) then 0x01 else 0x00) s1 in
  set_pc (bor (shl (byte_at d 11) 8) (byte_at d 10))
    (inc_cycle (set 0x17 0x40 0 0x40 (set_mem m s2))).

(** A minimal NSF file: the magic, version 1, one song, the starting song,
    the load address, init at $8000, play at $8003, zeros up to the mode
    bits at offset $7A, zeros up to $7F, then the body. *)
Definition nsf_file (song mode load_lo load_hi : Z) (body : list Z) : list Z :=
  [0x4E; 0x45; 0x53; 0x4D; 0x1A; 0x01; 0x01; song;
   load_lo; load_hi; 0x00; 0x80; 0x03; 0x80]
  ++ replicate 108 0x00
  ++ [mode; 0x00; 0x00; 0x00; 0x00; 0x00]
  ++ body.

(** ** Definitions used by the further properties *)

(** Every byte of memory is a byte. *)
Definition memory_bytes (s : Simulator) : bool := forallb is_byte (mem s).

(** A property [J] of states that the writes of the operations keep: a write
    to one of the registers A, X, Y, SR and SP, a store into memory, the
    cycle count and, when [withpc] is set, a write to the program counter. *)
Record Kept (withpc : bool) (J : Simulator -> Prop) : Prop := {
  kept_set_reg : forall i v s, (2 <= i)%nat -> J s -> J (set_reg i v s);
  kept_store : forall i v s,
    J s -> J (set_mem (Uint8Array.store (mem s) i v) s);
  kept_inc_cycle : forall s, J s -> J (inc_cycle s);
  kept_set_pc : withpc = true -> forall v s, J s -> J (set_pc v s);
}.

(** The cycle count is [c] and [J] holds. *)
Definition InvC (J : Simulator -> Prop) (c : Z) (s : Simulator) : Prop :=
  cycle s = c /\ J s.

(** An operation keeps the count and every such property. *)
Definition keeps (withpc : bool)
    (f : Simulator -> option OperationProduct * Simulator) : Prop :=
  forall J c s, Kept withpc J -> InvC J c s -> InvC J c (snd (f s)).

Definition OperationOk (withpc : bool) (op : Operation) : Prop :=
  forall b, keeps withpc (op b).

Definition OperationFnOk (withpc : bool) (op : Op.OperationFn) : Prop :=
  match op with
  | Fn0 f => keeps withpc f
  | Fn1 f => forall a, keeps withpc (f a)
  | Fn2 f => forall a b, keeps withpc (f a b)
  end.

(** A table function keeps every such property and counts one cycle. *)
Definition counts (withpc : bool) (f : Simulator -> Simulator) : Prop :=
  forall J c s, Kept withpc J -> InvC J c s -> InvC J (c + 1) (f s).

Definition HandlerOk (withpc : bool) (h : Handler) : Prop :=
  match h with
  | Fn0 f => counts withpc f
  | Fn1 f => forall a, counts withpc (f a)
  | Fn2 f => forall a b, counts withpc (f a b)
  end.

(** The opcodes whose operation assigns the program counter: the eight
    branches, BRK, the two JMP, JSR, RTI and RTS. *)
Definition control_flow : list Z :=
  [0x90; 0xB0; 0xF0; 0x30; 0xD0; 0x10; 0x50; 0x70;
   0x00; 0x4C; 0x6C; 0x20; 0x40; 0x60].

Definition is_control_flow (opcode : Z) : bool :=
  bool_decide (opcode ∈ control_flow).

Definition TableOk (d : Dispatch) : Prop :=
  map_Forall (fun opcode h => HandlerOk (is_control_flow opcode) h) (ops d).

(** The byte the program counter points to. *)
Definition opcode_at_pc (s : Simulator) : Z :=
  get (band (pc s) 0xFF) (shr (pc s) 8) 0 s.

(** The function [#addOperation] installs for an operation. *)
Definition handler_of (op : Op.OperationFn) : Fn (Simulator -> Simulator) :=
  match op with
  | Fn0 f => Fn0 (fun s => run_operation (f (inc_cycle s)))
  | Fn1 f => Fn1 (fun a s => run_operation (f a (inc_cycle s)))
  | Fn2 f => Fn2 (fun a b s => run_operation (f a b (inc_cycle s)))
  end.

(** The branches: opcode, mask of the flag tested, and whether the branch is
    taken when the flag is set. *)
Definition branches : list (Z * Z * bool) :=
  [ (0x90, 0x01, false); (0xB0, 0x01, true);
    (0xF0, 0x02, true);  (0x30, 0x80, true);
    (0xD0, 0x02, false); (0x10, 0x80, false);
    (0x50, 0x40, false); (0x70, 0x40, true) ].

(** The bytes of memory at [w], [w + 1], ..., wrapping at the end of the
    address space. *)
Definition bytes_from (s : Simulator) (w : Z) (n : nat) : list Z :=
  (fun k => default 0 (mem s !! Z.to_nat ((w + Z.of_nat k) mod 2 ^ 16)))
    <$> seq 0 n.

(** [step] once the table has given the function of the opcode. *)
Definition step_with (r : Runner) (opcode : Z) (h : Handler)
  : Completion Runner :=
  let s := incProgramCounter (simulator r) in
  match data r with
  | Some d =>
      if bool_decide (codeToName dispatch !! opcode = Some "RTS"%string)
         && negb (inited r)
      then
        s ← exec 0x4C [byte_at d 12; byte_at d 13] s;
        mret (mkRunner s true (data r))
      else
        let '(args, s) := fetch_args (Fn_length h) s in
        s ← exec opcode args s;
        mret (mkRunner s (inited r) (data r))
  | None =>
      let '(args, s) := fetch_args (Fn_length h) s in
      s ← exec opcode args s;
      mret (mkRunner s (inited r) (data r))
  end.

(** What a step keeps of a runner [r0]: the file, the well-formed arrays,
    bytes in memory. *)
Definition step_keeps (r0 r : Runner) : Prop :=
  data r = data r0
  /\ well_formed (simulator r) = true
  /\ (memory_bytes (simulator r0) = true -> memory_bytes (simulator r) = true).

(** What a flag setter stores in the status register [r]: the bits [on]
    ored in when the value is truthy, and the mask [off] applied otherwise. *)
Definition flag_update (on off : Z) (b : bool) (r : Z) : Z :=
  ToUint8 (if b then bor r on else band r off).

(** The byte [r] with the bits of [mask] set or cleared. *)
Definition with_bit (mask : Z) (v : bool) (r : Z) : Z :=
  if v then Z.lor r mask else Z.land r (255 - mask).

(** [f] is the status register [old] with the flags Z and N set from the
    byte [v], and the other six bits as they were. *)
Definition flags_NZ (f old v : Z) : Prop :=
  0 <= f < 256
  /\ truthy (band f 0x02) = (v =? 0)
  /\ truthy (band f 0x80) = (128 <=? v)
  /\ band f 0x7D = band old 0x7D.

(** The immediate loads: opcode and index of the register loaded. *)
Definition loads : list (Z * nat) := [(0xA9, 2%nat); (0xA2, 3%nat); (0xA0, 4%nat)].

(** The transfers that set flags: opcode, source and destination. *)
Definition transfers : list (Z * nat * nat) :=
  [(0xAA, 2%nat, 3%nat); (0xA8, 2%nat, 4%nat); (0xBA, 6%nat, 3%nat);
   (0x8A, 3%nat, 2%nat); (0x98, 4%nat, 2%nat)].

(** The register increments and decrements: opcode, register, step. *)
Definition steppers : list (Z * nat * Z) :=
  [(0xE8, 3%nat, 1); (0xC8, 4%nat, 1); (0xCA, 3%nat, -1); (0x88, 4%nat, -1)].

(** The flag instructions: opcode, mask of the flag, value given. *)
Definition flag_instructions : list (Z * Z * bool) :=
  [(0x18, 0x01, false); (0x38, 0x01, true); (0xD8, 0x08, false);
   (0xF8, 0x08, true); (0x58, 0x04, false); (0x78, 0x04, true);
   (0xB8, 0x40, false)].

(** The operation of a parameterless instruction. *)
Definition fn0 (op : Op.OperationFn)
  : Simulator -> option OperationProduct * Simulator :=
  match op with
  | Fn0 f => f
  | _ => fun s => (None, s)
  end.

(** The cell [j] of memory after a load, outside the body of the file: the
    two bytes for the sound registers, zeros in the three regions cleared,
    and the cell of the memory [m] before the load elsewhere. *)
Definition cell_after_load (m : list Z) (j : Z) : option Z :=
  if j =? 0x4017 then Some 0x40
  else if j =? 0x4015 then Some 0x0F
  else if (0x4000 <=? j) && (j <? 0x4014) then Some 0
  else if (0x6000 <=? j) && (j <? 0x8000) then Some 0
  else if (0x0000 <=? j) && (j <? 0x0800) then Some 0
  else Uint8Array.at_index m j.

(** The stores to a zero-page or an absolute address: opcode, index of the
    register stored, and whether the address is absolute. *)
Definition stores : list (Z * nat * bool) :=
  [(0x85, 2%nat, false); (0x86, 3%nat, false); (0x84, 4%nat, false);
   (0x8D, 2%nat, true); (0x8E, 3%nat, true); (0x8C, 4%nat, true)].

(** The operands of such a store. *)
Definition store_operands (absolute : bool) (ll hh : Z) : list Z :=
  if absolute then [ll; hh] else [ll].

(** The address it writes to. *)
Definition store_address (absolute : bool) (ll hh : Z) : Z :=
  if absolute then hh * 256 + ll else ll.

(** The shifts and rotations of the accumulator: opcode, whether the shift
    is to the left, and whether the carry is shifted in. *)
Definition shifts : list (Z * bool * bool) :=
  [(0x0A, true, false); (0x4A, false, false);
   (0x2A, true, true); (0x6A, false, true)].

(** The byte a shift leaves, given the byte [a] and the bit [c] shifted in. *)
Definition shifted (left : bool) (a c : Z) : Z :=
  if left then (2 * a + c) mod 256 else (a + 256 * c) / 2.

(** The bit it shifts out. *)
Definition shifted_out (left : bool) (a c : Z) : bool :=
  if left then 255 <? 2 * a + c else a mod 2 =? 1.

(** The increments and decrements of a zero-page cell: opcode and step. *)
Definition cell_steppers : list (Z * Z) := [(0xE6, 1); (0xC6, -1)].

(** The routine CLC; LDA #a0; ADC #b0; STA z0; LDA #a1; ADC #b1; STA z1, which
    adds the words a1:a0 and b1:b0 and stores the sum in z0 and z1. *)
Definition add_words (a0 a1 b0 b1 z0 z1 : Z) : list (Z * list Z) :=
  [(0x18, []); (0xA9, [a0]); (0x69, [b0]); (0x85, [z0]);
   (0xA9, [a1]); (0x69, [b1]); (0x85, [z1])].

(** ** The subscribers of the runner (src/main.tsx)

    [subs] is a [Map]: it keeps its entries in insertion order, [set] on a
    key it holds replaces the value in place and [delete] removes the
    entry.  The callbacks are kept abstract. *)
Module Subscribers.
Section Callbacks.
Variable C : Type.

Record t := mk {
  subId : Z;
  subs : list (Z * C);
}.

(** [subId = 0; subs = new Map()] *)
Definition new : t := mk 0 [].

(** [Map.prototype.set] *)
Fixpoint Map_set (k : Z) (v : C) (m : list (Z * C)) : list (Z * C) :=
  match m with
  | [] => [(k, v)]
  | (k', v') :: rest =>
      if k' =? k then (k', v) :: rest else (k', v') :: Map_set k v rest
  end.

(** [Map.prototype.delete] *)
Definition Map_delete (k : Z) (m : list (Z * C)) : list (Z * C) :=
  filter (fun e => e.1 <> k) m.

(** [onChange(cb)]: [this.subs.set(this.subId++, cb); return this.subId - 1]. *)
Definition onChange (cb : C) (r : t) : Z * t :=
  let r := mk (subId r + 1) (Map_set (subId r) cb (subs r)) in
  (subId r - 1, r).

(** [offChange(id)] *)
Definition offChange (id : Z) (r : t) : t :=
  mk (subId r) (Map_delete id (subs r)).

(** [notify()] calls the callbacks of [this.subs.values()], in the order of
    the map, on the state: the callbacks called. *)
Definition notify (r : t) : list C := (subs r).*2.

(** A call of [onChange] or of [offChange]. *)
Inductive call := Subscribe (cb : C) | Unsubscribe (id : Z).

Definition do_call (c : call) (r : t) : t :=
  match c with
  | Subscribe cb => (onChange cb r).2
  | Unsubscribe id => offChange id r
  end.

(** The callbacks subscribed by a sequence of calls. *)
Definition subscribed (calls : list call) : list C :=
  omap (fun c => match c with
                 | Subscribe cb => Some cb
                 | Unsubscribe _ => None
                 end) calls.

(** The identifiers in the map are below [subId]. *)
Definition bounded (r : t) : Prop :=
  0 <= subId r /\ Forall (fun e => 0 <= e.1 < subId r) (subs r).

End Callbacks.
End Subscribers.

(** * Properties *)

(** ** Well-formed states *)

Lemma is_byte_spec z : is_byte z = true <-> 0 <= z < 256.
Proof. unfold is_byte. rewrite andb_true_iff, Z.leb_le, Z.ltb_lt. tauto. Qed.

Lemma well_formed_inv s :
  well_formed s = true ->
  exists c m r0 r1 r2 r3 r4 r5 r6,
    s = mkSimulator c m [r0; r1; r2; r3; r4; r5; r6]
    /\ Z.of_nat (length m) = 2 ^ 16
    /\ (0 <= r0 < 256) /\ (0 <= r1 < 256) /\ (0 <= r2 < 256)
    /\ (0 <= r3 < 256) /\ (0 <= r4 < 256) /\ (0 <= r5 < 256)
    /\ (0 <= r6 < 256).
Proof.
  destruct s as [c m rs]. unfold well_formed. cbn [mem registers].
  rewrite !andb_true_iff, !Z.eqb_eq. intros [[Hm Hlen] Hb].
  do 8 (destruct rs as [|? rs]; cbn [length] in Hlen; try lia).
  cbn [forallb] in Hb. rewrite !andb_true_iff, !is_byte_spec in Hb.
  repeat eexists; try apply Hm; tauto.
Qed.

(** ** Arithmetic on bytes *)

Lemma ToInt32_small z : - 2 ^ 31 <= z < 2 ^ 31 -> ToInt32 z = z.
Proof. intros H. unfold ToInt32. rewrite Z.mod_small; lia. Qed.

Lemma ToUint8_byte z : 0 <= z < 256 -> ToUint8 z = z.
Proof. intros H. unfold ToUint8. apply Z.mod_small. lia. Qed.

Lemma all_below_spec n P :
  all_below n P = true -> forall z, 0 <= z < Z.of_nat n -> P z = true.
Proof.
  induction n as [|k IH]; intros H z Hz; [lia|].
  cbn [all_below] in H. apply andb_true_iff in H as [Hk Hrest].
  destruct (Z.eq_dec z (Z.of_nat k)) as [->|Hne]; [exact Hk|].
  apply IH; [exact Hrest | lia].
Qed.

Lemma all_bytes P :
  all_below 256 P = true -> forall z, 0 <= z < 256 -> P z = true.
Proof. intros H z Hz. apply (all_below_spec 256 P H). lia. Qed.

(** The or of two numbers below [2 ^ n] is below [2 ^ n]. *)
Lemma lor_below_pow2 a b n :
  0 < n -> 0 <= a < 2 ^ n -> 0 <= b < 2 ^ n -> 0 <= Z.lor a b < 2 ^ n.
Proof.
  intros Hn Ha Hb.
  assert (Hnn : 0 <= Z.lor a b) by (apply Z.lor_nonneg; lia).
  split; [exact Hnn|].
  destruct (Z.eq_dec (Z.lor a b) 0) as [->|Hne]; [lia|].
  apply Z.log2_lt_pow2; [lia|].
  rewrite Z.log2_lor by lia.
  apply Z.max_lub_lt.
  - destruct (Z.eq_dec a 0) as [->|]; [exact Hn|]. apply Z.log2_lt_pow2; lia.
  - destruct (Z.eq_dec b 0) as [->|]; [exact Hn|]. apply Z.log2_lt_pow2; lia.
Qed.

(** Operand bytes, with an index of at most two bytes' sum, never address
    outside the memory array: [get] never reads [undefined] for them. *)
Lemma address_in_memory ll hh offset :
  0 <= hh < 256 -> 0 <= ll + offset < 512 ->
  0 <= address ll hh offset < 2 ^ 16.
Proof.
  intros Hhh Hlo. unfold address, bor, shl.
  change (8 mod 32) with 8.
  rewrite (ToInt32_small hh) by lia.
  rewrite Z.shiftl_mul_pow2 by lia. change (2 ^ 8) with 256.
  rewrite (ToInt32_small (hh * 256)) by lia.
  rewrite (ToInt32_small (hh * 256)) by lia.
  rewrite (ToInt32_small (ll + offset)) by lia.
  assert (H : 0 <= Z.lor (hh * 256) (ll + offset) < 2 ^ 16)
    by (apply lor_below_pow2; lia).
  rewrite ToInt32_small; lia.
Qed.

(** Page 0 contributes no bits, so the index expression of a zero-page
    access is the plain sum of the operand and the index register. *)
Lemma address_zeropage zp i :
  0 <= zp < 256 -> 0 <= i < 256 -> address zp 0 i = zp + i.
Proof.
  intros Hzp Hi. unfold address, bor.
  replace (shl 0 8) with 0 by (vm_compute; reflexivity).
  replace (ToInt32 0) with 0 by (vm_compute; reflexivity).
  rewrite (ToInt32_small (zp + i)) by lia.
  rewrite Z.lor_0_l. apply ToInt32_small. lia.
Qed.

(** [0x0100 | b] is the address of byte [b] of the stack page. *)
Lemma bor_stack_page b : 0 <= b < 256 -> bor 0x0100 b = 256 + b.
Proof.
  intros H. apply Z.eqb_eq.
  apply (all_bytes (fun b => bor 0x0100 b =? 256 + b)); [|exact H].
  vm_compute. reflexivity.
Qed.

Lemma address_stack_page b : 0 <= b < 256 -> address b 0x01 0 = 256 + b.
Proof.
  intros H. apply Z.eqb_eq.
  apply (all_bytes (fun b => address b 0x01 0 =? 256 + b)); [|exact H].
  vm_compute. reflexivity.
Qed.

(** Decrementing and then incrementing a byte register gives it back. *)
Lemma ToUint8_pred_succ b : 0 <= b < 256 -> ToUint8 (ToUint8 (b - 1) + 1) = b.
Proof.
  intros H. apply Z.eqb_eq.
  apply (all_bytes (fun b => ToUint8 (ToUint8 (b - 1) + 1) =? b)); [|exact H].
  vm_compute. reflexivity.
Qed.

#[local] Arguments ToUint8 : simpl never.
#[local] Arguments ToInt32 : simpl never.
#[local] Arguments band : simpl never.
#[local] Arguments bor : simpl never.
#[local] Arguments bxor : simpl never.
#[local] Arguments shl : simpl never.
#[local] Arguments shr : simpl never.
#[local] Arguments address : simpl never.

(** ** Typed arrays *)

Lemma at_index_store_same (a : list Z) i v :
  0 <= i < Z.of_nat (length a) ->
  Uint8Array.at_index (Uint8Array.store a i v) i = Some (ToUint8 v).
Proof.
  intros H. unfold Uint8Array.at_index, Uint8Array.store.
  destruct (Z.leb_spec 0 i); [|lia].
  apply list_lookup_insert_eq. lia.
Qed.

Lemma length_store (a : list Z) i v :
  length (Uint8Array.store a i v) = length a.
Proof.
  unfold Uint8Array.store. destruct (0 <=? i); [apply length_insert|reflexivity].
Qed.

Lemma length_fill (a : list Z) v start end_ :
  length (Uint8Array.fill a v start end_) = length a.
Proof.
  unfold Uint8Array.fill, Uint8Array.relative.
  rewrite !length_app, length_take, length_replicate, length_drop.
  destruct (Z.ltb_spec start 0), (Z.ltb_spec end_ 0); lia.
Qed.

Lemma set_from_past_end (a values : list Z) offset :
  Z.of_nat (length a) < offset + Z.of_nat (length values) ->
  Uint8Array.set_from a values offset = None.
Proof.
  intros H. unfold Uint8Array.set_from.
  destruct (offset <? 0); [reflexivity|].
  destruct (Z.ltb_spec (Z.of_nat (length a)) (Z.of_nat (length values) + offset));
    [reflexivity|lia].
Qed.

Lemma set_from_fits (a values : list Z) offset :
  0 <= offset ->
  offset + Z.of_nat (length values) <= Z.of_nat (length a) ->
  exists a',
    Uint8Array.set_from a values offset = Some a'
    /\ length a' = length a
    /\ (forall k v, values !! k = Some v ->
          Uint8Array.at_index a' (offset + Z.of_nat k) = Some (ToUint8 v))
    /\ (forall j, j < offset \/ offset + Z.of_nat (length values) <= j ->
          Uint8Array.at_index a' j = Uint8Array.at_index a j).
Proof.
  intros Hoff Hfit. unfold Uint8Array.set_from.
  destruct (Z.ltb_spec offset 0); [lia|].
  destruct (Z.ltb_spec (Z.of_nat (length a)) (Z.of_nat (length values) + offset));
    [lia|].
  eexists. split; [reflexivity|].
  assert (Htake : length (take (Z.to_nat offset) a) = Z.to_nat offset)
    by (rewrite length_take; lia).
  split; [|split].
  - rewrite !length_app, Htake, length_fmap, length_drop. lia.
  - intros k v Hk. unfold Uint8Array.at_index.
    destruct (Z.leb_spec 0 (offset + Z.of_nat k)); [|lia].
    replace (Z.to_nat (offset + Z.of_nat k))
      with (length (take (Z.to_nat offset) a) + k)%nat by lia.
    rewrite lookup_app_r by lia.
    replace (length (take (Z.to_nat offset) a) + k
             - length (take (Z.to_nat offset) a))%nat with k by lia.
    rewrite lookup_app_l
      by (rewrite length_fmap; apply lookup_lt_Some in Hk; exact Hk).
    rewrite list_lookup_fmap, Hk. reflexivity.
  - intros j Hj. unfold Uint8Array.at_index.
    destruct (Z.leb_spec 0 j); [|reflexivity].
    destruct Hj as [Hj|Hj].
    + rewrite lookup_app_l by lia.
      apply lookup_take_lt. lia.
    + rewrite lookup_app_r by lia.
      rewrite lookup_app_r by (rewrite length_fmap; lia).
      rewrite lookup_drop. f_equal. rewrite length_fmap, Htake. lia.
Qed.

(** ** Frame lemmas: what register writes and flag updates leave alone *)

Lemma reg_set_reg_ne i j v s : i <> j -> reg i (set_reg j v s) = reg i s.
Proof.
  intros Hne. unfold reg, set_reg, Uint8Array.store. cbn [registers].
  destruct (Z.leb_spec 0 (Z.of_nat j)); [|lia].
  rewrite Nat2Z.id, list_lookup_insert_ne by congruence. reflexivity.
Qed.

Lemma reg_set_reg_eq i v s :
  (i < length (registers s))%nat -> reg i (set_reg i v s) = ToUint8 v.
Proof.
  intros Hlt. unfold reg, set_reg, Uint8Array.store. cbn [registers].
  destruct (Z.leb_spec 0 (Z.of_nat i)); [|lia].
  rewrite Nat2Z.id, list_lookup_insert_eq by exact Hlt. reflexivity.
Qed.

Lemma mem_set_reg j v s : mem (set_reg j v s) = mem s.
Proof. reflexivity. Qed.

Lemma reg_set_mem i m s : reg i (set_mem m s) = reg i s.
Proof. reflexivity. Qed.

Lemma reg_inc_cycle i s : reg i (inc_cycle s) = reg i s.
Proof. reflexivity. Qed.

Lemma reg_set i ll hh offset val s : reg i (set ll hh offset val s) = reg i s.
Proof. reflexivity. Qed.

Lemma length_registers_set_reg j v s :
  length (registers (set_reg j v s)) = length (registers s).
Proof. unfold set_reg. cbn [registers]. apply length_store. Qed.

Lemma reg_set_flag i on off v s :
  i <> 5%nat -> reg i (set_flag on off v s) = reg i s.
Proof.
  intros Hne. unfold set_flag, set_sr.
  destruct (truthy v); apply reg_set_reg_ne; exact Hne.
Qed.

Lemma mem_set_flag on off v s : mem (set_flag on off v s) = mem s.
Proof. unfold set_flag. destruct (truthy v); reflexivity. Qed.

Lemma length_registers_set_flag on off v s :
  length (registers (set_flag on off v s)) = length (registers s).
Proof.
  unfold set_flag, set_sr.
  destruct (truthy v); apply length_registers_set_reg.
Qed.

Lemma reg_afterOperationActions i p s :
  i <> 5%nat -> reg i (afterOperationActions p s) = reg i s.
Proof.
  intros Hne. unfold afterOperationActions,
    set_negative, set_zero, set_carry, set_overflow.
  destruct (isNegative p), (isZero p), (isCarry p), (isOverflow p);
    rewrite ?reg_set_flag by exact Hne; reflexivity.
Qed.

Lemma mem_afterOperationActions p s : mem (afterOperationActions p s) = mem s.
Proof.
  unfold afterOperationActions,
    set_negative, set_zero, set_carry, set_overflow.
  destruct (isNegative p), (isZero p), (isCarry p), (isOverflow p);
    rewrite ?mem_set_flag; reflexivity.
Qed.

Lemma length_registers_afterOperationActions p s :
  length (registers (afterOperationActions p s)) = length (registers s).
Proof.
  unfold afterOperationActions,
    set_negative, set_zero, set_carry, set_overflow.
  destruct (isNegative p), (isZero p), (isCarry p), (isOverflow p);
    rewrite ?length_registers_set_flag; reflexivity.
Qed.

(** ** The opcode table *)

Lemma dispatch_PHP :
  ops dispatch !! 0x08
  = Some (Fn0 (fun s => run_operation (None, pushStackValue (sr (inc_cycle s)) (inc_cycle s)))).
Proof. reflexivity. Qed.

Lemma dispatch_PLP :
  ops dispatch !! 0x28
  = Some (Fn0 (fun s =>
      run_operation
        (let '(v, s) := popStackValue (inc_cycle s) in (None, set_sr v s)))).
Proof. reflexivity. Qed.

Lemma dispatch_LDA_zeropageX :
  ops dispatch !! 0xB5 = Some (Fn1 (Mode.zeropageX Op.LDA)).
Proof. reflexivity. Qed.

Lemma dispatch_STA_zeropageX :
  ops dispatch !! 0x95 = Some (Fn1 (Mode.zeropageX Op.STA)).
Proof. reflexivity. Qed.

Lemma dispatch_LDX_zeropageY :
  ops dispatch !! 0xB6 = Some (Fn1 (Mode.zeropageY Op.LDX)).
Proof. reflexivity. Qed.

Lemma dispatch_LDA_immediate :
  ops dispatch !! 0xA9 = Some (Fn1 (Mode.immediate Op.LDA)).
Proof. reflexivity. Qed.

Lemma dispatch_LDX_immediate :
  ops dispatch !! 0xA2 = Some (Fn1 (Mode.immediate Op.LDX)).
Proof. reflexivity. Qed.

Lemma dispatch_JMP :
  ops dispatch !! 0x4C
  = Some (Fn2 (fun ll hh s =>
      run_operation (None, set_pc (bor (shl hh 8) ll) (inc_cycle s)))).
Proof. reflexivity. Qed.

Lemma bind_Normal {A B} (a : A) (k : A -> Completion B) :
  (Normal a ≫= k) = k a.
Proof. reflexivity. Qed.

Lemma exec_LDA_immediate v s :
  exec 0xA9 [v] s = Normal (Mode.immediate Op.LDA v s).
Proof. unfold exec. rewrite dispatch_LDA_immediate. reflexivity. Qed.

Lemma exec_LDX_immediate v s :
  exec 0xA2 [v] s = Normal (Mode.immediate Op.LDX v s).
Proof. unfold exec. rewrite dispatch_LDX_immediate. reflexivity. Qed.

Lemma exec_JMP ll hh s :
  exec 0x4C [ll; hh] s = Normal (set_pc (bor (shl hh 8) ll) (inc_cycle s)).
Proof. unfold exec. rewrite dispatch_JMP. reflexivity. Qed.

(** ** The tests of the repository (src/index.spec.ts) *)

(** The embedding gives the values the tests expect. *)
Example index_spec_ts :
  (* Logical / AND *)
  negative <$> exec_all [(0xA9, [0xAA])] new_Simulator = Normal 0x80
  /\ (fun s => (negative s, ac s))
       <$> exec_all [(0xA9, [0xAA]); (0x29, [0x4C])] new_Simulator
     = Normal (0x00, 0x08)
  (* Accumulator / immediate, indirect,X and indirect,Y *)
  /\ ac <$> exec_all [(0xA9, [0x42])] new_Simulator = Normal 0x42
  /\ ac <$> (s ← write [0xA5] 0x3032 new_Simulator;
             s ← write [0x32; 0x30] 0x0075 s;
             exec_all [(0xA2, [0x05]); (0xA1, [0x70])] s) = Normal 0xA5
  /\ ac <$> (s ← write [0x23] 0x3553 new_Simulator;
             s ← write [0x43; 0x35] 0x0070 s;
             exec_all [(0xA0, [0x10]); (0xB1, [0x70])] s) = Normal 0x23
  (* Decrement / absolute *)
  /\ ac <$> exec_all [(0xA9, [0x42]); (0x8D, [0x00; 0x06]);
                      (0xCE, [0x00; 0x06]); (0xAD, [0x00; 0x06])]
              new_Simulator = Normal 0x41
  (* Without carry / Decrement X *)
  /\ (fun s => (sr s, x s))
       <$> exec_all [(0xA2, [0x00]); (0xCA, [])] new_Simulator
     = Normal (0x80, 0xFF)
  (* Jump / indirect *)
  /\ pc <$> exec_all [(0xA9, [0x42]); (0x8D, [0x42; 0x00]);
                      (0xA9, [0x43]); (0x8D, [0x43; 0x00]);
                      (0x6C, [0x42; 0x00])]
              new_Simulator = Normal 0x4342.
Proof. repeat split; vm_compute; reflexivity. Qed.

(** ** The operations on every operand

    Every closure of [#addOperationWithByte] hands the operand byte to the
    operation and ends in [Mode.finish] (in immediate mode, in the flag
    updates alone).  The lemmas of this part that speak of [Mode.finish] hold
    for every write-back [store], so for every addressing mode.  The
    theorems evaluate concrete programs: each starts from [new Simulator()],
    primes memory with [write] where it needs to, and calls the opcode
    functions in sequence, as the tests of the repository do. *)

Lemma finish_no_setter store p s :
  isSetter p = false ->
  Mode.finish store (Some p, s) = afterOperationActions p s.
Proof. intros H. unfold Mode.finish. rewrite H. reflexivity. Qed.

(** ** The runner stepping through a loaded file *)

(** After the load of a file whose body is LDA #$05; CMP #$03; RTS at $8000,
    two steps run the load and the compare, and the third, the first RTS,
    jumps to the play address $8003 instead of returning. *)
Example steps_after_load :
  (fun r => (pc (simulator r), ac (simulator r), inited r))
    <$> (r ← loadend (nsf_file 0x01 0x00 0x00 0x80
                        [0xA9; 0x05; 0xC9; 0x03; 0x60]) new_Runner;
         steps 1 r) = Normal (0x8002, 0x05, false)
  /\ (fun r => (pc (simulator r), ac (simulator r), inited r))
       <$> (r ← loadend (nsf_file 0x01 0x00 0x00 0x80
                           [0xA9; 0x05; 0xC9; 0x03; 0x60]) new_Runner;
            steps 2 r) = Normal (0x8004, 0x02, false)
  /\ (fun r => (pc (simulator r), ac (simulator r), inited r))
       <$> (r ← loadend (nsf_file 0x01 0x00 0x00 0x80
                           [0xA9; 0x05; 0xC9; 0x03; 0x60]) new_Runner;
            steps 3 r) = Normal (0x8003, 0x02, true).
Proof. repeat split; vm_compute; reflexivity. Qed.

(** ** Compare: CMP, CPX, CPY *)

(** A compare leaves [reg - M], reduced to a byte, in its register and does
    not touch memory. *)
Lemma CMP_overwrites_A store M s :
  (2 < length (registers s))%nat ->
  ac (Mode.finish store (Op.CMP M s)) = ToUint8 (ac s - M)
  /\ mem (Mode.finish store (Op.CMP M s)) = mem s.
Proof.
  intros Hlen. unfold Op.CMP. rewrite finish_no_setter by reflexivity.
  rewrite mem_afterOperationActions. split; [|reflexivity].
  unfold ac. rewrite reg_afterOperationActions by discriminate.
  unfold set_ac. apply reg_set_reg_eq. exact Hlen.
Qed.

Lemma CPX_overwrites_X store M s :
  (3 < length (registers s))%nat ->
  x (Mode.finish store (Op.CPX M s)) = ToUint8 (x s - M)
  /\ mem (Mode.finish store (Op.CPX M s)) = mem s.
Proof.
  intros Hlen. unfold Op.CPX. rewrite finish_no_setter by reflexivity.
  rewrite mem_afterOperationActions. split; [|reflexivity].
  unfold x at 1. rewrite reg_afterOperationActions by discriminate.
  unfold set_x. apply reg_set_reg_eq. exact Hlen.
Qed.

Lemma CPY_overwrites_Y store M s :
  (4 < length (registers s))%nat ->
  y (Mode.finish store (Op.CPY M s)) = ToUint8 (y s - M)
  /\ mem (Mode.finish store (Op.CPY M s)) = mem s.
Proof.
  intros Hlen. unfold Op.CPY. rewrite finish_no_setter by reflexivity.
  rewrite mem_afterOperationActions. split; [|reflexivity].
  unfold y at 1. rewrite reg_afterOperationActions by discriminate.
  unfold set_y. apply reg_set_reg_eq. exact Hlen.
Qed.

(** The register survives a compare only against a multiple of 256, that is,
    against the byte 0. *)
Lemma compare_keeps_register_iff a M :
  0 <= a < 256 -> (ToUint8 (a - M) = a <-> M mod 256 = 0).
Proof.
  intros Ha. unfold ToUint8. change (2 ^ 8) with 256.
  rewrite Zminus_mod. split; intros H.
  - rewrite (Z.mod_small a 256) in H by lia.
    pose proof (Z.mod_pos_bound M 256 ltac:(lia)) as HM.
    destruct (Z.eq_dec (M mod 256) 0) as [|Hne]; [assumption|].
    rewrite <- (Z.mod_add _ 1 256) in H by lia.
    destruct (Z_lt_le_dec a (M mod 256)).
    + rewrite Z.mod_small in H; lia.
    + rewrite <- (Z.mod_add _ (-1) 256), Z.mod_small in H; lia.
  - rewrite H, Z.sub_0_r, Z.mod_mod by lia. apply Z.mod_small. lia.
Qed.

(** C1: LDA #$05 then CMP #$03 leaves 2 in the accumulator, not 5; LDX/CPX and
    LDY/CPY do the same to X and Y.  The compared register is overwritten
    with the difference. *)
Theorem compare_overwrites_register :
  ac <$> exec_all [(0xA9, [0x05])] new_Simulator = Normal 0x05
  /\ ac <$> exec_all [(0xA9, [0x05]); (0xC9, [0x03])] new_Simulator = Normal 0x02
  /\ x <$> exec_all [(0xA2, [0x05])] new_Simulator = Normal 0x05
  /\ x <$> exec_all [(0xA2, [0x05]); (0xE0, [0x03])] new_Simulator = Normal 0x02
  /\ y <$> exec_all [(0xA0, [0x05])] new_Simulator = Normal 0x05
  /\ y <$> exec_all [(0xA0, [0x05]); (0xC0, [0x03])] new_Simulator = Normal 0x02.
Proof. repeat split; vm_compute; reflexivity. Qed.

(** ** Subtract with carry: SBC *)

(** SBC does not assign the accumulator either: in immediate mode it only
    changes SR. *)
Lemma SBC_immediate_keeps_A M s :
  ac (Mode.immediate Op.SBC M s) = ac s
  /\ mem (Mode.immediate Op.SBC M s) = mem s.
Proof.
  unfold Mode.immediate, Op.SBC.
  rewrite mem_afterOperationActions.
  unfold set_overflow, set_carry. rewrite !mem_set_flag.
  split; [|reflexivity].
  unfold ac. rewrite reg_afterOperationActions by discriminate.
  rewrite !reg_set_flag by discriminate. reflexivity.
Qed.

(** C2: with A = 5, C = 0 and operand 3, raw = 5 - 3 - 1 = 1.  SBC #$03 sets
    the carry (raw >= 0) but leaves 5 in the accumulator; SBC $10 also
    leaves 5 there and stores raw over the operand byte at $0010. *)
Theorem SBC_keeps_accumulator_and_stores_to_memory :
  ac <$> exec_all [(0xA9, [0x05]); (0xE9, [0x03])] new_Simulator = Normal 0x05
  /\ carry <$> exec_all [(0xA9, [0x05]); (0xE9, [0x03])] new_Simulator = Normal 1
  /\ (fun s => (ac s, get 0x10 0 0 s))
       <$> (s ← write [0x03] 0x0010 new_Simulator;
            exec_all [(0xA9, [0x05])] s) = Normal (0x05, 0x03)
  /\ (fun s => (ac s, get 0x10 0 0 s))
       <$> (s ← write [0x03] 0x0010 new_Simulator;
            exec_all [(0xA9, [0x05]); (0xE5, [0x10])] s) = Normal (0x05, 0x01).
Proof. repeat split; vm_compute; reflexivity. Qed.

(** ** Logical operations: AND, EOR, ORA *)

(** AND and EOR leave the result in the accumulator and do not touch
    memory. *)
Lemma AND_result store M s :
  (2 < length (registers s))%nat ->
  ac (Mode.finish store (Op.AND M s)) = ToUint8 (band (ac s) M)
  /\ mem (Mode.finish store (Op.AND M s)) = mem s.
Proof.
  intros Hlen. unfold Op.AND. rewrite finish_no_setter by reflexivity.
  rewrite mem_afterOperationActions. split; [|reflexivity].
  unfold ac at 1. rewrite reg_afterOperationActions by discriminate.
  unfold set_ac. apply reg_set_reg_eq. exact Hlen.
Qed.

Lemma EOR_result store M s :
  (2 < length (registers s))%nat ->
  ac (Mode.finish store (Op.EOR M s)) = ToUint8 (bxor (ac s) M)
  /\ mem (Mode.finish store (Op.EOR M s)) = mem s.
Proof.
  intros Hlen. unfold Op.EOR. rewrite finish_no_setter by reflexivity.
  rewrite mem_afterOperationActions. split; [|reflexivity].
  unfold ac at 1. rewrite reg_afterOperationActions by discriminate.
  unfold set_ac. apply reg_set_reg_eq. exact Hlen.
Qed.

(** ORA hands its result to the write-back and leaves the accumulator to it;
    the immediate closure has no write-back, so the accumulator keeps its
    value. *)
Lemma ORA_result_goes_to_store store M s :
  Mode.finish store (Op.ORA M s)
  = store (bor (ac s) M)
      (set_zero (Number (bor (ac s) M =? 0))
         (set_negative (band (bor (ac s) M) 0x80) s)).
Proof. reflexivity. Qed.

Lemma ORA_immediate_keeps_A M s :
  ac (Mode.immediate Op.ORA M s) = ac s
  /\ mem (Mode.immediate Op.ORA M s) = mem s.
Proof.
  unfold Mode.immediate, Op.ORA.
  rewrite mem_afterOperationActions. split; [|reflexivity].
  unfold ac. rewrite reg_afterOperationActions by discriminate. reflexivity.
Qed.

(** C3: AND #$4C on $AA gives $08 and EOR #$FF on $0F gives $F0, but
    ORA #$F0 on $0F leaves $0F in the accumulator (the N flag is set from
    $FF all the same), and ORA $10 stores $FF over the operand byte at
    $0010. *)
Theorem ORA_keeps_accumulator_and_stores_to_memory :
  ac <$> exec_all [(0xA9, [0xAA]); (0x29, [0x4C])] new_Simulator = Normal 0x08
  /\ ac <$> exec_all [(0xA9, [0x0F]); (0x49, [0xFF])] new_Simulator = Normal 0xF0
  /\ (fun s => (ac s, negative s))
       <$> exec_all [(0xA9, [0x0F]); (0x09, [0xF0])] new_Simulator
     = Normal (0x0F, 0x80)
  /\ (fun s => (ac s, get 0x10 0 0 s))
       <$> (s ← write [0xF0] 0x0010 new_Simulator;
            exec_all [(0xA9, [0x0F])] s) = Normal (0x0F, 0xF0)
  /\ (fun s => (ac s, get 0x10 0 0 s))
       <$> (s ← write [0xF0] 0x0010 new_Simulator;
            exec_all [(0xA9, [0x0F]); (0x05, [0x10])] s) = Normal (0x0F, 0xFF).
Proof. repeat split; vm_compute; reflexivity. Qed.

(** ** Bit test: BIT *)

(** C4: with A = $FF, BIT on the byte $40 leaves V clear although bit 6 of
    the operand is set, and BIT on the byte $02 sets Z although A & M is not
    zero; this holds in zero-page and in absolute mode. *)
Theorem BIT_sets_Z_from_bit_1_and_never_V :
  (fun s => (overflow s, zero s, negative s))
    <$> (s ← write [0x40] 0x0010 new_Simulator;
         exec_all [(0xA9, [0xFF]); (0x24, [0x10])] s) = Normal (0, 0, 0)
  /\ (fun s => (overflow s, zero s, negative s))
       <$> (s ← write [0x02] 0x0010 new_Simulator;
            exec_all [(0xA9, [0xFF]); (0x24, [0x10])] s) = Normal (0, 0x02, 0)
  /\ (fun s => (overflow s, zero s, negative s))
       <$> (s ← write [0x40] 0x0310 new_Simulator;
            exec_all [(0xA9, [0xFF]); (0x2C, [0x10; 0x03])] s) = Normal (0, 0, 0)
  /\ (fun s => (overflow s, zero s, negative s))
       <$> (s ← write [0x02] 0x0310 new_Simulator;
            exec_all [(0xA9, [0xFF]); (0x2C, [0x10; 0x03])] s)
     = Normal (0, 0x02, 0).
Proof. repeat split; vm_compute; reflexivity. Qed.

(** ** Add with carry: the overflow flag *)

(** C5: $40 + $40 = $80 turns two non-negative operands into a negative
    result, yet ADC leaves V clear; V is set for $80 + $80 = $00, two
    negative operands with a non-negative result. *)
Theorem ADC_misses_positive_overflow :
  (fun s => (ac s, overflow s))
    <$> exec_all [(0xA9, [0x40]); (0x69, [0x40])] new_Simulator
  = Normal (0x80, 0)
  /\ (fun s => (ac s, overflow s))
       <$> exec_all [(0xA9, [0x80]); (0x69, [0x80])] new_Simulator
     = Normal (0x00, 0x40).
Proof. repeat split; vm_compute; reflexivity. Qed.

(** ** Indexed addressing across a page boundary *)

(** C6: with $BB at $0100 and $AA at $0200, base $01FF indexed by 1 reads
    $0100: LDA $01FF,X, LDA $01FF,Y and LDA ($70),Y (pointer $01FF at $0070)
    all load $BB.  The carry out of the low byte is ored into bit 8, which
    the odd page number has already set.  From the even page of base $02FF
    the same index reaches $0300. *)
Theorem indexed_carry_is_ored_into_the_page :
  address 0xFF 0x01 1 = 0x0100
  /\ address 0xFF 0x02 1 = 0x0300
  /\ ac <$> (s ← write [0xBB] 0x0100 new_Simulator;
             s ← write [0xAA] 0x0200 s;
             exec_all [(0xA2, [0x01]); (0xBD, [0xFF; 0x01])] s) = Normal 0xBB
  /\ ac <$> (s ← write [0xBB] 0x0100 new_Simulator;
             s ← write [0xAA] 0x0200 s;
             exec_all [(0xA0, [0x01]); (0xB9, [0xFF; 0x01])] s) = Normal 0xBB
  /\ ac <$> (s ← write [0xBB] 0x0100 new_Simulator;
             s ← write [0xAA] 0x0200 s;
             s ← write [0xFF; 0x01] 0x0070 s;
             exec_all [(0xA0, [0x01]); (0xB1, [0x70])] s) = Normal 0xBB.
Proof. repeat split; vm_compute; reflexivity. Qed.

(** ** Zero-page indexed addressing *)

(** C7, as the code has it: a zero-page indexed access goes to the address
    [zp + index], which is not reduced modulo 256.  It lies in $0000..$01FE,
    agrees with [(zp + index) mod 256] exactly when the sum stays below
    $0100, and is an address of page 1 otherwise.  LDA zp,X and LDX zp,Y read
    that address and STA zp,X writes it. *)
Theorem zeropage_indexed_address_is_the_plain_sum (s : Simulator) (zp : Z) :
  well_formed s = true ->
  0 <= zp < 256 ->
  address zp 0 (x s) = zp + x s
  /\ address zp 0 (y s) = zp + y s
  /\ 0 <= zp + x s <= 0x01FE
  /\ 0 <= zp + y s <= 0x01FE
  /\ (zp + x s = (zp + x s) mod 256 <-> zp + x s < 0x0100)
  /\ (zp + y s = (zp + y s) mod 256 <-> zp + y s < 0x0100)
  /\ (exists s', exec 0xB5 [zp] s = Normal s'
        /\ ac s' = ToUint8 (default 0 (Uint8Array.at_index (mem s) (zp + x s))))
  /\ (exists s', exec 0xB6 [zp] s = Normal s'
        /\ x s' = ToUint8 (default 0 (Uint8Array.at_index (mem s) (zp + y s))))
  /\ (exists s', exec 0x95 [zp] s = Normal s'
        /\ mem s' = Uint8Array.store (mem s) (zp + x s) (ac s)).
Proof.
  intros Hwf Hzp.
  destruct (well_formed_inv s Hwf)
    as (c & m & r0 & r1 & r2 & r3 & r4 & r5 & r6 & ->
        & Hm & H0 & H1 & H2 & H3 & H4 & H5 & H6).
  assert (Hx : x (mkSimulator c m [r0; r1; r2; r3; r4; r5; r6]) = r3)
    by reflexivity.
  assert (Hy : y (mkSimulator c m [r0; r1; r2; r3; r4; r5; r6]) = r4)
    by reflexivity.
  rewrite Hx, Hy.
  split; [apply address_zeropage; lia|].
  split; [apply address_zeropage; lia|].
  split; [lia|]. split; [lia|].
  split.
  { split; intros H.
    - pose proof (Z.mod_pos_bound (zp + r3) 256). lia.
    - symmetry. apply Z.mod_small. lia. }
  split.
  { split; intros H.
    - pose proof (Z.mod_pos_bound (zp + r4) 256). lia.
    - symmetry. apply Z.mod_small. lia. }
  split; [|split].
  - unfold exec. rewrite dispatch_LDA_zeropageX.
    cbn [call mbind mret Completion_bind Completion_ret].
    eexists. split; [reflexivity|].
    unfold Mode.zeropageX, Mode.finish, Op.LDA. cbn [isSetter].
    unfold ac. rewrite reg_afterOperationActions by discriminate.
    unfold set_ac. rewrite reg_set_reg_eq by (cbn; lia).
    unfold get. cbn [mem inc_cycle].
    change (x (inc_cycle _)) with r3.
    rewrite address_zeropage by lia. reflexivity.
  - unfold exec. rewrite dispatch_LDX_zeropageY.
    cbn [call mbind mret Completion_bind Completion_ret].
    eexists. split; [reflexivity|].
    unfold Mode.zeropageY, Mode.finish, Op.LDX. cbn [isSetter].
    unfold x at 1. rewrite reg_afterOperationActions by discriminate.
    unfold set_x. rewrite reg_set_reg_eq by (cbn; lia).
    unfold get. cbn [mem inc_cycle].
    change (y (inc_cycle _)) with r4.
    rewrite address_zeropage by lia. reflexivity.
  - unfold exec. rewrite dispatch_STA_zeropageX.
    cbn [call mbind mret Completion_bind Completion_ret].
    eexists. split; [reflexivity|].
    unfold Mode.zeropageX, Mode.finish, Op.STA. cbn [isSetter result].
    unfold set. cbn [mem set_mem].
    rewrite mem_afterOperationActions. cbn [mem inc_cycle].
    match goal with |- context [address zp 0 ?e] => change e with r3 end.
    rewrite address_zeropage by lia.
    reflexivity.
Qed.

Lemma zeropage_indexed_address_is_the_plain_sum_witness :
  let s := Mode.immediate Op.LDX 0x01 new_Simulator in
  well_formed s = true
  /\ 0 <= 0xFF < 256
  /\ address 0xFF 0 (x s) = 0xFF + x s.
Proof.
  intros s.
  assert (Hwf : well_formed s = true) by (vm_compute; reflexivity).
  assert (Hzp : 0 <= 0xFF < 256) by lia.
  split; [exact Hwf|]. split; [exact Hzp|].
  exact (proj1 (zeropage_indexed_address_is_the_plain_sum s 0xFF Hwf Hzp)).
Defined.

(** C7 fails as stated: with X = 1 the zero-page operand $FF addresses $0100,
    not ($FF + 1) mod 256 = $00, and LDA $FF,X loads the byte stored at
    $0100. *)
Lemma zeropage_indexed_reaches_page_1 :
  address 0xFF 0 1 <> (0xFF + 1) mod 256
  /\ 0x0100 <= address 0xFF 0 1
  /\ ac <$> (s ← write [0xAA] 0x0000 new_Simulator;
             s ← write [0xBB] 0x0100 s;
             exec_all [(0xA2, [0x01]); (0xB5, [0xFF])] s) = Normal 0xBB.
Proof.
  split; [vm_compute; discriminate|].
  split; [vm_compute; discriminate|].
  vm_compute; reflexivity.
Qed.

(** ** The registers handed to init by the NSF load *)

(** An immediate load changes its register and SR only. *)
Lemma immediate_LDA v s :
  (2 < length (registers s))%nat ->
  mem (Mode.immediate Op.LDA v s) = mem s
  /\ length (registers (Mode.immediate Op.LDA v s)) = length (registers s)
  /\ ac (Mode.immediate Op.LDA v s) = ToUint8 v.
Proof.
  intros Hlen. unfold Mode.immediate, Op.LDA.
  rewrite mem_afterOperationActions, length_registers_afterOperationActions.
  split; [reflexivity|]. split.
  - unfold set_ac. rewrite length_registers_set_reg. reflexivity.
  - unfold ac. rewrite reg_afterOperationActions by discriminate.
    unfold set_ac. apply reg_set_reg_eq. exact Hlen.
Qed.

Lemma immediate_LDX v s :
  (3 < length (registers s))%nat ->
  mem (Mode.immediate Op.LDX v s) = mem s
  /\ length (registers (Mode.immediate Op.LDX v s)) = length (registers s)
  /\ ac (Mode.immediate Op.LDX v s) = ac s
  /\ x (Mode.immediate Op.LDX v s) = ToUint8 v.
Proof.
  intros Hlen. unfold Mode.immediate, Op.LDX.
  rewrite mem_afterOperationActions, length_registers_afterOperationActions.
  split; [reflexivity|]. split; [|split].
  - unfold set_x. rewrite length_registers_set_reg. reflexivity.
  - unfold ac. rewrite reg_afterOperationActions by discriminate.
    unfold set_x. rewrite reg_set_reg_ne by discriminate. reflexivity.
  - unfold x at 1. rewrite reg_afterOperationActions by discriminate.
    unfold set_x. apply reg_set_reg_eq. exact Hlen.
Qed.

Lemma mem_immediate_LDA v s : mem (Mode.immediate Op.LDA v s) = mem s.
Proof.
  unfold Mode.immediate, Op.LDA. rewrite mem_afterOperationActions. reflexivity.
Qed.

Lemma mem_immediate_LDX v s : mem (Mode.immediate Op.LDX v s) = mem s.
Proof.
  unfold Mode.immediate, Op.LDX. rewrite mem_afterOperationActions. reflexivity.
Qed.

(** [run] reaches the copy of the body, in a state whose memory has kept its
    length, for every file. *)
Lemma run_reaches_body_copy (d : list Z) (r : Runner) :
  Z.of_nat (length (mem (simulator r))) = 0x10000 ->
  exists m,
    length m = length (mem (simulator r))
    /\ run d r
      = (s' ← write (drop (Z.to_nat 0x0080) d)
                    (bor (byte_at d 8) (shl (byte_at d 9) 8))
                    (before_body_copy d m (simulator r));
         mret (mkRunner s' (inited r) (Some d))).
Proof.
  intros Hm.
  unfold run. rewrite exec_LDA_immediate, bind_Normal.
  rewrite exec_LDX_immediate, bind_Normal.
  cbv zeta.
  match goal with |- context [write [0x0F] 0x4015 ?s] => set (s3 := s) end.
  assert (Hm3 : length (mem s3) = length (mem (simulator r))).
  { unfold s3, fill. cbn [mem set_mem]. rewrite !length_fill.
    rewrite mem_immediate_LDX, mem_immediate_LDA. reflexivity. }
  destruct (set_from_fits (mem s3) [0x0F] 0x4015) as (m & Hset & Hlen & _);
    [lia | cbn [length]; lia |].
  assert (Hw : write [0x0F] 0x4015 s3 = Normal (set_mem m s3))
    by (unfold write; rewrite Hset; reflexivity).
  rewrite Hw, bind_Normal, exec_JMP, bind_Normal.
  exists m. split; [congruence|]. reflexivity.
Qed.

(** For a file that has the bytes read (as [loadend] has checked), the
    accumulator receives the starting-song byte plus 14 (reduced modulo 256)
    and X receives bit 7 of the mode byte. *)
Lemma run_A_and_X (d : list Z) (r r' : Runner) :
  well_formed (simulator r) = true ->
  0x7B < Z.of_nat (length d) ->
  run d r = Normal r' ->
  ac (simulator r') = ToUint8 (byte_at d 7 + 14)
  /\ x (simulator r')
     = if truthy (band (byte_at d 0x7A) 0x80) then 0x01 else 0x00.
Proof.
  intros Hwf _ Hrun.
  unfold well_formed in Hwf. rewrite !andb_true_iff, !Z.eqb_eq in Hwf.
  destruct Hwf as [[Hm Hr] _]. change (2 ^ 16) with 0x10000 in Hm.
  destruct (run_reaches_body_copy d r Hm) as (m & Hlen & Heq).
  rewrite Heq in Hrun. clear Heq. unfold write in Hrun.
  destruct (Uint8Array.set_from _ _ _) as [m'|]; [|discriminate].
  rewrite bind_Normal in Hrun. injection Hrun as <-.
  cbn [simulator]. unfold before_body_copy, set_pc.
  set (v := if truthy (band (byte_at d 0x7A) 0x80) then 0x01 else 0x00).
  set (s1 := Mode.immediate Op.LDA (byte_at d 7 + 15 - 1) (simulator r)).
  destruct (immediate_LDA (byte_at d 7 + 15 - 1) (simulator r))
    as (_ & Hr1 & Ha1); [lia|].
  destruct (immediate_LDX v s1) as (_ & _ & Ha2 & Hx2); [unfold s1; lia|].
  split.
  - unfold ac. rewrite reg_set_mem, !reg_set_reg_ne by discriminate.
    rewrite reg_inc_cycle, reg_set, reg_set_mem.
    fold (ac (Mode.immediate Op.LDX v s1)). rewrite Ha2. unfold s1.
    rewrite Ha1. f_equal. lia.
  - unfold x at 1. rewrite reg_set_mem, !reg_set_reg_ne by discriminate.
    rewrite reg_inc_cycle, reg_set, reg_set_mem.
    fold (x (Mode.immediate Op.LDX v s1)). rewrite Hx2.
    unfold v. destruct (truthy _); reflexivity.
Qed.

(** C8: for a file whose starting song is 1 and whose mode byte is $01 (bit 0
    set), the load leaves A = 15 and X = 0, not A = 0 and X = 1; with the
    mode byte $80 (bit 0 clear) it leaves X = 1. *)
Theorem run_adds_14_to_the_song_and_tests_mode_bit_7 :
  (fun r => (ac (simulator r), x (simulator r), pc (simulator r)))
    <$> loadend (nsf_file 0x01 0x01 0x00 0x80 [0x60; 0xEA; 0x60]) new_Runner
  = Normal (15, 0, 0x8000)
  /\ (fun r => (ac (simulator r), x (simulator r), pc (simulator r)))
       <$> loadend (nsf_file 0x01 0x80 0x00 0x80 [0x60; 0xEA; 0x60]) new_Runner
     = Normal (15, 1, 0x8000).
Proof. repeat split; vm_compute; reflexivity. Qed.

(** ** Writes past the end of memory *)

(** C9, as the code has it: [write] throws a [RangeError] when the values
    reach past the last byte of memory, and otherwise stores them at
    consecutive addresses and changes nothing else (no other cell, no
    register, not the cycle counter); [run] throws a [RangeError] when the
    load address plus the length of the body exceeds $10000.  Nothing wraps
    around. *)
Theorem over_long_write_throws
    (values : list Z) (offset : Z) (s : Simulator) (d : list Z) (r : Runner) :
  (Z.of_nat (length (mem s)) < offset + Z.of_nat (length values) ->
   write values offset s = Throw RangeError)
  /\ (0 <= offset ->
      offset + Z.of_nat (length values) <= Z.of_nat (length (mem s)) ->
      exists s',
        write values offset s = Normal s'
        /\ registers s' = registers s
        /\ cycle s' = cycle s
        /\ length (mem s') = length (mem s)
        /\ (forall k v, values !! k = Some v ->
              Uint8Array.at_index (mem s') (offset + Z.of_nat k)
              = Some (ToUint8 v))
        /\ (forall j, j < offset \/ offset + Z.of_nat (length values) <= j ->
              Uint8Array.at_index (mem s') j = Uint8Array.at_index (mem s) j))
  /\ (Z.of_nat (length (mem (simulator r))) = 0x10000 ->
      0x10000 < bor (byte_at d 8) (shl (byte_at d 9) 8)
                + Z.of_nat (length (drop (Z.to_nat 0x0080) d)) ->
      run d r = Throw RangeError).
Proof.
  split; [|split].
  - intros H. unfold write. rewrite set_from_past_end by exact H. reflexivity.
  - intros Hoff Hfit.
    destruct (set_from_fits (mem s) values offset Hoff Hfit)
      as (a' & Hset & Hlen & Hin & Hout).
    exists (set_mem a' s). unfold write. rewrite Hset.
    split; [reflexivity|]. split; [reflexivity|]. split; [reflexivity|].
    split; [exact Hlen|]. split; assumption.
  - intros Hm Hlong.
    destruct (run_reaches_body_copy d r Hm) as (m & Hlen & ->).
    unfold write. rewrite set_from_past_end; [reflexivity|].
    unfold before_body_copy, set_pc. rewrite !mem_set_reg.
    unfold inc_cycle, set, set_mem. cbn [mem].
    rewrite length_store. lia.
Qed.

Lemma over_long_write_throws_witness :
  Z.of_nat (length (mem new_Simulator)) < 0xFFFF + Z.of_nat (length [0x11; 0x22])
  /\ write [0x11; 0x22] 0xFFFF new_Simulator = Throw RangeError
  /\ run (nsf_file 1 0 0xFF 0xFF [0x11; 0x22]) new_Runner = Throw RangeError.
Proof.
  destruct (over_long_write_throws [0x11; 0x22] 0xFFFF new_Simulator
              (nsf_file 1 0 0xFF 0xFF [0x11; 0x22]) new_Runner)
    as (Hwrite & _ & Hrun).
  split; [vm_compute; reflexivity|].
  split; [apply Hwrite; vm_compute; reflexivity|].
  apply Hrun; vm_compute; reflexivity.
Defined.

(** C9 fails as stated: two bytes written at $FFFF are not stored at $FFFF
    and $0000, the write throws; one byte written at $FFFF is stored there
    and the cell at $0000 keeps its zero.  A file whose two-byte body loads
    at $FFFF makes the load throw. *)
Lemma write_at_FFFF_does_not_wrap :
  write [0x11; 0x22] 0xFFFF new_Simulator = Throw RangeError
  /\ (fun s => (get 0xFF 0xFF 0 s, get 0x00 0x00 0 s))
       <$> write [0x11] 0xFFFF new_Simulator = Normal (0x11, 0x00)
  /\ loadend (nsf_file 1 0 0xFF 0xFF [0x11; 0x22]) new_Runner
     = Throw RangeError.
Proof. repeat split; vm_compute; reflexivity. Qed.

(** ** Stack round trip of the status register *)

(** C10: from any well-formed state, whatever SR and SP hold, PHP followed by
    PLP runs to completion and leaves SR with all eight bits as they were
    (bits 4 and 5 included, nothing is masked) and SP at its first value. *)
Theorem PHP_PLP_restores_SR_and_SP (s : Simulator) :
  well_formed s = true ->
  exists s',
    exec_all [(0x08, []); (0x28, [])] s = Normal s'
    /\ sr s' = sr s /\ sp s' = sp s.
Proof.
  intros Hwf.
  destruct (well_formed_inv s Hwf)
    as (c & m & r0 & r1 & r2 & r3 & r4 & r5 & r6 & ->
        & Hm & H0 & H1 & H2 & H3 & H4 & H5 & H6).
  change (2 ^ 16) with 65536 in Hm.
  unfold exec_all, exec.
  rewrite dispatch_PHP. cbn [call mbind mret Completion_bind Completion_ret].
  rewrite dispatch_PLP. cbn [call mbind mret Completion_bind Completion_ret].
  eexists. split; [reflexivity|].
  unfold run_operation, popStackValue, pushStackValue, inc_cycle,
    set_sr, set_sp, sr, sp, set_reg, reg, set_mem, get.
  simpl.
  rewrite (ToUint8_pred_succ r6 H6), (address_stack_page r6 H6),
    (bor_stack_page r6 H6).
  rewrite at_index_store_same by lia.
  simpl. rewrite !(ToUint8_byte r5) by lia. split; reflexivity.
Qed.

Lemma PHP_PLP_restores_SR_and_SP_witness :
  let s := set_sp 0x00 (set_sr 0x30 new_Simulator) in
  well_formed s = true
  /\ exists s',
       exec_all [(0x08, []); (0x28, [])] s = Normal s'
       /\ sr s' = sr s /\ sp s' = sp s.
Proof.
  intros s.
  assert (Hwf : well_formed s = true) by (vm_compute; reflexivity).
  split; [exact Hwf|].
  exact (PHP_PLP_restores_SR_and_SP s Hwf).
Defined.

(** * Further properties *)

Lemma ToUint8_range z : 0 <= ToUint8 z < 256.
Proof. unfold ToUint8. apply Z.mod_pos_bound. lia. Qed.

Lemma Forall_store (a : list Z) i v :
  Forall (fun b => 0 <= b < 256) a ->
  Forall (fun b => 0 <= b < 256) (Uint8Array.store a i v).
Proof.
  intros H. unfold Uint8Array.store. destruct (0 <=? i); [|exact H].
  apply Forall_insert; [exact H|apply ToUint8_range].
Qed.

Lemma Forall_is_byte (l : list Z) :
  forallb is_byte l = true <-> Forall (fun b => 0 <= b < 256) l.
Proof.
  rewrite forallb_forall, Forall_forall. split; intros H b Hb.
  - apply is_byte_spec, H, list_elem_of_In, Hb.
  - apply is_byte_spec, H, list_elem_of_In, Hb.
Qed.

Lemma is_byte_store (a : list Z) i v :
  forallb is_byte a = true -> forallb is_byte (Uint8Array.store a i v) = true.
Proof. rewrite !Forall_is_byte. apply Forall_store. Qed.

Lemma well_formed_set_reg i v s :
  well_formed s = true -> well_formed (set_reg i v s) = true.
Proof.
  unfold well_formed, set_reg. cbn [mem registers].
  rewrite !andb_true_iff, length_store. intros [[Hm Hr] Hb].
  split; [split; assumption|]. apply is_byte_store, Hb.
Qed.

Lemma well_formed_store i v s :
  well_formed s = true ->
  well_formed (set_mem (Uint8Array.store (mem s) i v) s) = true.
Proof.
  unfold well_formed, set_mem. cbn [mem registers].
  rewrite length_store. auto.
Qed.

(** ** Properties kept by every table function *)

(** The lengths of the arrays and the bytes of the register file are kept by
    every write. *)
Lemma Kept_well_formed : Kept true (fun s => well_formed s = true).
Proof.
  split.
  - intros i v s _ H. apply well_formed_set_reg, H.
  - intros i v s H. apply well_formed_store, H.
  - intros s H. exact H.
  - intros _ v s H. unfold set_pc. apply well_formed_set_reg, well_formed_set_reg, H.
Qed.

(** So are the bytes of memory. *)
Lemma Kept_memory_bytes : Kept true (fun s => memory_bytes s = true).
Proof.
  split.
  - intros i v s _ H. exact H.
  - intros i v s H. unfold memory_bytes, set_mem. cbn [mem].
    apply is_byte_store, H.
  - intros s H. exact H.
  - intros _ v s H. exact H.
Qed.

(** The two registers of the program counter are kept by every write but
    the one to the program counter. *)
Lemma Kept_pc (w : list Z) : Kept false (fun s => take 2 (registers s) = w).
Proof.
  split.
  - intros i v s Hi H. unfold set_reg, Uint8Array.store. cbn [registers].
    destruct (Z.leb_spec 0 (Z.of_nat i)); [|lia].
    rewrite Nat2Z.id, take_insert_ge by exact Hi. exact H.
  - intros i v s H. exact H.
  - intros s H. exact H.
  - discriminate.
Qed.

Lemma Kept_True withpc : Kept withpc (fun _ => True).
Proof. split; auto. Qed.

Lemma Kept_and withpc J1 J2 :
  Kept withpc J1 -> Kept withpc J2 -> Kept withpc (fun s => J1 s /\ J2 s).
Proof.
  intros [A1 A2 A3 A4] [B1 B2 B3 B4]. split.
  - intros i v s Hi [H1 H2]. auto.
  - intros i v s [H1 H2]. auto.
  - intros s [H1 H2]. auto.
  - intros E v s [H1 H2]. auto.
Qed.

Lemma Kept_impl withpc (P : Prop) J :
  Kept withpc J -> Kept withpc (fun s => P -> J s).
Proof.
  intros [A1 A2 A3 A4]. split.
  - intros i v s Hi H p. auto.
  - intros i v s H p. auto.
  - intros s H p. auto.
  - intros E v s H p. auto.
Qed.

Lemma Kept_weaken withpc J : Kept true J -> Kept withpc J.
Proof.
  intros [H1 H2 H3 H4]. split; auto.
Qed.

Lemma Kept_false withpc J : Kept withpc J -> Kept false J.
Proof.
  intros [H1 H2 H3 H4]. split; auto. discriminate.
Qed.

Section Frame.
Context (withpc : bool) (J : Simulator -> Prop) (HK : Kept withpc J) (c : Z).

Lemma InvC_set_reg i v s :
  (2 <= i)%nat -> InvC J c s -> InvC J c (set_reg i v s).
Proof.
  intros Hi [E H]. split; [exact E|]. apply (kept_set_reg _ _ HK); assumption.
Qed.

Lemma InvC_set ll hh o v s : InvC J c s -> InvC J c (set ll hh o v s).
Proof.
  intros [E H]. split; [exact E|]. unfold set. apply (kept_store _ _ HK), H.
Qed.

Lemma InvC_set_flag on off v s : InvC J c s -> InvC J c (set_flag on off v s).
Proof.
  intros H. unfold set_flag, set_sr.
  destruct (truthy v); apply InvC_set_reg; auto.
Qed.

Lemma InvC_pushStackValue v s : InvC J c s -> InvC J c (pushStackValue v s).
Proof.
  intros H. unfold pushStackValue. cbv zeta.
  assert (H' : InvC J c (set_sp (sp s - 1) s))
    by (apply InvC_set_reg; [lia|exact H]).
  destruct H' as [E H']. split; [exact E|].
  apply (kept_store _ _ HK), H'.
Qed.

Lemma InvC_popStackValue s : InvC J c s -> InvC J c (snd (popStackValue s)).
Proof.
  intros H. unfold popStackValue. cbn [snd]. apply InvC_set_reg; [lia|exact H].
Qed.

Lemma InvC_afterOperationActions p s :
  InvC J c s -> InvC J c (afterOperationActions p s).
Proof.
  intros H.
  unfold afterOperationActions, set_negative, set_zero, set_carry, set_overflow.
  destruct (isNegative p), (isZero p), (isCarry p), (isOverflow p);
    repeat apply InvC_set_flag; exact H.
Qed.

Lemma InvC_if (b : bool) s1 s2 :
  InvC J c s1 -> InvC J c s2 -> InvC J c (if b then s1 else s2).
Proof. destruct b; auto. Qed.

Lemma InvC_let (e : Simulator) (k : Simulator -> Simulator) :
  InvC J c e -> (forall s, InvC J c s -> InvC J c (k s)) ->
  InvC J c (let s := e in k s).
Proof. intros H K. apply K, H. Qed.

Lemma InvC_inc_cycle s : InvC J c s -> InvC J (c + 1) (inc_cycle s).
Proof.
  intros [E H]. split; [cbn; lia|]. apply (kept_inc_cycle _ _ HK), H.
Qed.

End Frame.

Lemma InvC_set_pc J (HK : Kept true J) c v s :
  InvC J c s -> InvC J c (set_pc v s).
Proof.
  intros [E H]. split; [exact E|].
  apply (kept_set_pc _ _ HK); [reflexivity|exact H].
Qed.

Ltac invc :=
  repeat lazymatch goal with
  | H : InvC ?J ?c ?s |- InvC ?J ?c ?s => exact H
  | HK : Kept _ ?J |- InvC ?J _ (set_reg _ _ _) =>
      apply (InvC_set_reg _ _ HK); [lia|]
  | HK : Kept _ ?J |- InvC ?J _ (set_ac _ _) =>
      apply (InvC_set_reg _ _ HK); [lia|]
  | HK : Kept _ ?J |- InvC ?J _ (set_x _ _) =>
      apply (InvC_set_reg _ _ HK); [lia|]
  | HK : Kept _ ?J |- InvC ?J _ (set_y _ _) =>
      apply (InvC_set_reg _ _ HK); [lia|]
  | HK : Kept _ ?J |- InvC ?J _ (set_sr _ _) =>
      apply (InvC_set_reg _ _ HK); [lia|]
  | HK : Kept _ ?J |- InvC ?J _ (set_sp _ _) =>
      apply (InvC_set_reg _ _ HK); [lia|]
  | HK : Kept _ ?J |- InvC ?J _ (set _ _ _ _ _) => apply (InvC_set _ _ HK)
  | HK : Kept _ ?J |- InvC ?J _ (set_flag _ _ _ _) =>
      apply (InvC_set_flag _ _ HK)
  | HK : Kept _ ?J |- InvC ?J _ (set_zero _ _) => apply (InvC_set_flag _ _ HK)
  | HK : Kept _ ?J |- InvC ?J _ (set_carry _ _) => apply (InvC_set_flag _ _ HK)
  | HK : Kept _ ?J |- InvC ?J _ (set_overflow _ _) =>
      apply (InvC_set_flag _ _ HK)
  | HK : Kept _ ?J |- InvC ?J _ (set_negative _ _) =>
      apply (InvC_set_flag _ _ HK)
  | HK : Kept _ ?J |- InvC ?J _ (set_decimal _ _) =>
      apply (InvC_set_flag _ _ HK)
  | HK : Kept _ ?J |- InvC ?J _ (set_interrupt _ _) =>
      apply (InvC_set_flag _ _ HK)
  | HK : Kept true ?J |- InvC ?J _ (set_pc _ _) => apply (InvC_set_pc _ HK)
  | HK : Kept true ?J |- InvC ?J _ (incProgramCounter _) =>
      unfold incProgramCounter; apply (InvC_set_pc _ HK)
  | HK : Kept true ?J |- InvC ?J _ (offsetProgramCounter _ _) =>
      unfold offsetProgramCounter; apply (InvC_set_pc _ HK)
  | HK : Kept _ ?J |- InvC ?J _ (pushStackValue _ _) =>
      apply (InvC_pushStackValue _ _ HK)
  | HK : Kept _ ?J |- InvC ?J _ (afterOperationActions _ _) =>
      apply (InvC_afterOperationActions _ _ HK)
  | |- InvC _ _ (if _ then _ else _) => apply InvC_if
  | HK : Kept _ ?J |- InvC ?J _ (snd (popStackValue _)) =>
      apply (InvC_popStackValue _ _ HK)
  | |- InvC _ _ (snd (_, _)) => cbn [snd]
  | |- InvC ?J ?c (snd (let x := ?e in @?k x)) =>
      apply (InvC_let J c e (fun x => snd (k x))); [|intros ? ?]; cbv beta
  | HK : Kept _ ?J
    |- InvC ?J ?c (snd (let '(v, x) := popStackValue ?s in @?k v x)) =>
      change (InvC J c (snd (k (fst (popStackValue s)) (snd (popStackValue s)))));
      cbv beta;
      let H := fresh "H" in
      assert (H : InvC J c (snd (popStackValue s)))
        by (apply (InvC_popStackValue _ _ HK); invc);
      generalize dependent (snd (popStackValue s));
      generalize (fst (popStackValue s)); intros ? ? ?
  end.

Ltac operation_ok :=
  lazymatch goal with
  | |- OperationOk ?b ?o =>
      let o' := eval hnf in o in
      change (OperationOk b o'); unfold OperationOk, keeps; intros; cbv beta; invc
  | |- OperationFnOk ?b ?o =>
      let b' := eval vm_compute in b in
      let o' := eval hnf in o in
      change (OperationFnOk b' o'); cbn [OperationFnOk]; unfold keeps;
      intros; cbv beta; invc
  end.

Section KeptClosures.
Context (op : Operation) (Hop : OperationOk false op).

Lemma finish_counts withpc J (HK : Kept withpc J) c store r :
  (forall v s, InvC J c s -> InvC J c (store v s)) ->
  InvC J c (snd r) -> InvC J c (Mode.finish store r).
Proof.
  intros Hstore H. destruct r as [[p|] s]; cbn [snd] in H; cbn [Mode.finish].
  - destruct (isSetter p).
    + apply Hstore, (InvC_afterOperationActions _ _ HK), H.
    + apply (InvC_afterOperationActions _ _ HK), H.
  - exact H.
Qed.

Ltac closure :=
  intros J c s HK H; apply (finish_counts _ _ HK);
  [intros v s' H'; invc
  | apply Hop; [exact HK|]; apply (InvC_inc_cycle _ _ HK), H].

Lemma accumulator_counts : counts false (Mode.accumulator op).
Proof. unfold Mode.accumulator. closure. Qed.

Lemma immediate_counts v : counts false (Mode.immediate op v).
Proof.
  intros J c s HK H. unfold Mode.immediate.
  pose proof (Hop v J (c + 1) (inc_cycle s) HK (InvC_inc_cycle _ _ HK c s H))
    as H'.
  destruct (op v (inc_cycle s)) as [[p|] s']; cbn [snd] in H'.
  - apply (InvC_afterOperationActions _ _ HK), H'.
  - exact H'.
Qed.

Lemma zeropage_counts ll : counts false (Mode.zeropage op ll).
Proof. unfold Mode.zeropage. closure. Qed.
Lemma zeropageX_counts ll : counts false (Mode.zeropageX op ll).
Proof. unfold Mode.zeropageX. closure. Qed.
Lemma zeropageY_counts ll : counts false (Mode.zeropageY op ll).
Proof. unfold Mode.zeropageY. closure. Qed.
Lemma absolute_counts ll hh : counts false (Mode.absolute op ll hh).
Proof. unfold Mode.absolute. closure. Qed.
Lemma absoluteX_counts ll hh : counts false (Mode.absoluteX op ll hh).
Proof. unfold Mode.absoluteX. closure. Qed.
Lemma absoluteY_counts ll hh : counts false (Mode.absoluteY op ll hh).
Proof. unfold Mode.absoluteY. closure. Qed.
Lemma indirectX_counts ll : counts false (Mode.indirectX op ll).
Proof. unfold Mode.indirectX. closure. Qed.
Lemma indirectY_counts ll : counts false (Mode.indirectY op ll).
Proof. unfold Mode.indirectY. closure. Qed.

End KeptClosures.

Lemma HandlerOk_weaken withpc h : HandlerOk false h -> HandlerOk withpc h.
Proof.
  destruct h as [f|f|f]; cbn [HandlerOk]; unfold counts; intros H.
  - intros J c s HK. apply H, (Kept_false withpc), HK.
  - intros a J c s HK. apply H, (Kept_false withpc), HK.
  - intros a b J c s HK. apply H, (Kept_false withpc), HK.
Qed.

Lemma register_ok code label h d :
  HandlerOk false h -> TableOk d -> TableOk (register code label h d).
Proof.
  intros Hh Hd. unfold register. destruct code as [c|]; [|exact Hd].
  destruct (truthy c); [|exact Hd].
  unfold TableOk. cbn [ops]. apply map_Forall_insert_2; [|exact Hd].
  apply HandlerOk_weaken, Hh.
Qed.

Lemma addOperationWithByte_ok spec d :
  OperationOk false (operation spec) -> TableOk d ->
  TableOk (addOperationWithByte spec d).
Proof.
  intros Hop Hd. unfold addOperationWithByte.
  repeat apply register_ok; try exact Hd; cbn [HandlerOk]; intros.
  - apply indirectY_counts, Hop.
  - apply indirectX_counts, Hop.
  - apply absoluteY_counts, Hop.
  - apply absoluteX_counts, Hop.
  - apply absolute_counts, Hop.
  - apply zeropageY_counts, Hop.
  - apply zeropageX_counts, Hop.
  - apply zeropage_counts, Hop.
  - apply immediate_counts, Hop.
  - apply accumulator_counts, Hop.
Qed.

Lemma addOperation_ok spec d :
  OperationFnOk (is_control_flow (code spec)) (op_operation spec) ->
  TableOk d -> TableOk (addOperation spec d).
Proof.
  intros Hop Hd. unfold addOperation, TableOk. cbn [ops].
  apply map_Forall_insert_2; [|exact Hd].
  destruct (op_operation spec) as [f|f|f]; cbn [OperationFnOk HandlerOk] in *;
    intros; intros J c s HK H; unfold run_operation.
  - specialize (Hop J (c + 1) (inc_cycle s) HK (InvC_inc_cycle _ _ HK c s H)).
    destruct (f (inc_cycle s)) as [[p|] s']; cbn [snd] in Hop;
      [apply (InvC_afterOperationActions _ _ HK)|]; exact Hop.
  - specialize (Hop a J (c + 1) (inc_cycle s) HK (InvC_inc_cycle _ _ HK c s H)).
    destruct (f a (inc_cycle s)) as [[p|] s']; cbn [snd] in Hop;
      [apply (InvC_afterOperationActions _ _ HK)|]; exact Hop.
  - specialize (Hop a b J (c + 1) (inc_cycle s) HK (InvC_inc_cycle _ _ HK c s H)).
    destruct (f a b (inc_cycle s)) as [[p|] s']; cbn [snd] in Hop;
      [apply (InvC_afterOperationActions _ _ HK)|]; exact Hop.
Qed.

Lemma dispatch_ok : TableOk dispatch.
Proof.
  unfold dispatch. cbn [foldl].
  repeat first
    [ apply addOperationWithByte_ok; [operation_ok|]
    | apply addOperation_ok; [operation_ok|] ].
  unfold TableOk. cbn [ops]. apply map_Forall_empty.
Qed.

Lemma band_255 v : - 2 ^ 31 <= v < 2 ^ 31 -> band v 0xFF = v mod 256.
Proof.
  intros H. unfold band. rewrite (ToInt32_small v) by exact H.
  replace (ToInt32 255) with (Z.ones 8) by (vm_compute; reflexivity).
  rewrite Z.land_ones by lia. change (2 ^ 8) with 256.
  apply ToInt32_small. pose proof (Z.mod_pos_bound v 256). lia.
Qed.

Lemma shr_8 v : - 2 ^ 31 <= v < 2 ^ 31 -> shr v 8 = v / 256.
Proof.
  intros H. unfold shr. rewrite (ToInt32_small v) by exact H.
  change (8 mod 32) with 8. rewrite Z.shiftr_div_pow2 by lia.
  change (2 ^ 8) with 256. apply ToInt32_small.
  Z.to_euclidean_division_equations; lia.
Qed.

Lemma land_shifted_byte hi lo : 0 <= lo < 256 -> Z.land (hi * 256) lo = 0.
Proof.
  intros Hlo. apply Z.bits_inj'. intros n Hn.
  rewrite Z.land_spec, Z.bits_0. change 256 with (2 ^ 8).
  destruct (Z.lt_ge_cases n 8) as [Hlt|Hge].
  - rewrite Z.mul_pow2_bits_low by lia. reflexivity.
  - replace (Z.testbit lo n) with false; [apply andb_false_r|].
    symmetry. destruct (Z.eq_dec lo 0) as [->|Hne]; [apply Z.bits_0|].
    apply Z.bits_above_log2; [lia|].
    assert (Z.log2 lo < 8) by (apply Z.log2_lt_pow2; lia). lia.
Qed.

Lemma lor_shifted_byte hi lo :
  0 <= lo < 256 -> Z.lor (hi * 256) lo = hi * 256 + lo.
Proof.
  intros Hlo. pose proof (land_shifted_byte hi lo Hlo) as H.
  rewrite <- Z.lxor_lor by exact H. symmetry. apply Z.add_nocarry_lxor, H.
Qed.

Lemma shl_8_byte hi : 0 <= hi < 256 -> shl hi 8 = hi * 256.
Proof.
  intros H. unfold shl. change (8 mod 32) with 8.
  rewrite (ToInt32_small hi) by lia.
  rewrite Z.shiftl_mul_pow2 by lia. change (2 ^ 8) with 256.
  apply ToInt32_small. lia.
Qed.

(** [hi << 8 | lo] of two bytes is the 16-bit word they spell. *)
Lemma bor_shl_bytes hi lo :
  0 <= hi < 256 -> 0 <= lo < 256 -> bor (shl hi 8) lo = hi * 256 + lo.
Proof.
  intros Hhi Hlo. rewrite shl_8_byte by exact Hhi. unfold bor.
  rewrite (ToInt32_small (hi * 256)), (ToInt32_small lo) by lia.
  rewrite lor_shifted_byte by exact Hlo. apply ToInt32_small. lia.
Qed.

Lemma bor_bytes_shl lo hi :
  0 <= hi < 256 -> 0 <= lo < 256 -> bor lo (shl hi 8) = hi * 256 + lo.
Proof.
  intros Hhi Hlo. rewrite shl_8_byte by exact Hhi. unfold bor.
  rewrite (ToInt32_small (hi * 256)), (ToInt32_small lo) by lia.
  rewrite Z.lor_comm, lor_shifted_byte by exact Hlo. apply ToInt32_small. lia.
Qed.


(** The program counter of a well-formed state is the word in registers 0
    and 1. *)
Lemma pc_word c m r0 r1 r2 r3 r4 r5 r6 :
  0 <= r0 < 256 -> 0 <= r1 < 256 ->
  pc (mkSimulator c m [r0; r1; r2; r3; r4; r5; r6]) = r1 * 256 + r0.
Proof. intros H0 H1. unfold pc, reg. cbn. apply bor_shl_bytes; assumption. Qed.

Lemma set_pc_word (v : Z) (s : Simulator) :
  well_formed s = true ->
  - 2 ^ 31 <= v < 2 ^ 31 ->
  pc (set_pc v s) = v mod 2 ^ 16
  /\ ac (set_pc v s) = ac s /\ x (set_pc v s) = x s /\ y (set_pc v s) = y s
  /\ sr (set_pc v s) = sr s /\ sp (set_pc v s) = sp s
  /\ mem (set_pc v s) = mem s.
Proof.
  intros Hwf Hv.
  destruct (well_formed_inv s Hwf)
    as (c & m & r0 & r1 & r2 & r3 & r4 & r5 & r6 & ->
        & Hm & H0 & H1 & H2 & H3 & H4 & H5 & H6).
  split; [|repeat split].
  unfold set_pc, set_reg, pc, reg. simpl.
  rewrite bor_shl_bytes by apply ToUint8_range.
  rewrite band_255, shr_8 by exact Hv.
  unfold ToUint8. change (2 ^ 8) with 256. change (2 ^ 16) with 65536.
  Z.to_euclidean_division_equations; lia.
Qed.

(** X1: writing a word to the program counter and reading it back gives the word
    reduced modulo 2^16, and touches nothing but the two registers of the
    program counter. *)
Theorem set_pc_keeps_16_bits (v : Z) (s : Simulator) :
  well_formed s = true ->
  - 2 ^ 31 <= v < 2 ^ 31 ->
  pc (set_pc v s) = v mod 2 ^ 16
  /\ ac (set_pc v s) = ac s /\ x (set_pc v s) = x s /\ y (set_pc v s) = y s
  /\ sr (set_pc v s) = sr s /\ sp (set_pc v s) = sp s
  /\ mem (set_pc v s) = mem s.
Proof. apply set_pc_word. Qed.

Lemma set_pc_keeps_16_bits_witness :
  pc (set_pc 0x12345 new_Simulator) = 0x12345 mod 2 ^ 16
  /\ ac (set_pc 0x12345 new_Simulator) = ac new_Simulator
  /\ x (set_pc 0x12345 new_Simulator) = x new_Simulator
  /\ y (set_pc 0x12345 new_Simulator) = y new_Simulator
  /\ sr (set_pc 0x12345 new_Simulator) = sr new_Simulator
  /\ sp (set_pc 0x12345 new_Simulator) = sp new_Simulator
  /\ mem (set_pc 0x12345 new_Simulator) = mem new_Simulator.
Proof.
  apply (set_pc_keeps_16_bits 0x12345 new_Simulator).
  - vm_compute. reflexivity.
  - lia.
Defined.

(** ** Branches *)

Lemma ToInt8_byte o :
  0 <= o < 256 -> ToInt8 o = if o <? 128 then o else o - 256.
Proof.
  intros H. unfold ToInt8. change (2 ^ 7) with 128. change (2 ^ 8) with 256.
  destruct (Z.ltb_spec o 128).
  - rewrite Z.mod_small; lia.
  - rewrite <- (Z.mod_add _ (-1) 256), Z.mod_small; lia.
Qed.

Lemma pc_inc_cycle s : pc (inc_cycle s) = pc s.
Proof. unfold pc, reg, inc_cycle. cbn [registers]. reflexivity. Qed.

Lemma branch_step (b : bool) offset s :
  well_formed s = true -> 0 <= offset < 256 ->
  let s' := if b then offsetProgramCounter offset (inc_cycle s) else inc_cycle s in
  pc s' = (if b
           then (pc s + (if offset <? 128 then offset else offset - 256)) mod 2 ^ 16
           else pc s)
  /\ drop 2 (registers s') = drop 2 (registers s)
  /\ mem s' = mem s.
Proof.
  intros Hwf Ho. destruct b; cbv zeta.
  - assert (Hwf' : well_formed (inc_cycle s) = true) by exact Hwf.
    assert (Hpc : - 2 ^ 31 <= pc (inc_cycle s) + ToInt8 offset < 2 ^ 31).
    { rewrite ToInt8_byte, pc_inc_cycle by exact Ho.
      destruct (well_formed_inv s Hwf)
        as (c & m & r0 & r1 & r2 & r3 & r4 & r5 & r6 & ->
            & Hm & H0 & H1 & H2 & H3 & H4 & H5 & H6).
      rewrite pc_word by assumption. destruct (offset <? 128); lia. }
    unfold offsetProgramCounter.
    destruct (set_pc_word _ _ Hwf' Hpc) as (E & _).
    rewrite E, ToInt8_byte, pc_inc_cycle by exact Ho.
    split; [reflexivity|].
    destruct (well_formed_inv s Hwf)
      as (c & m & r0 & r1 & r2 & r3 & r4 & r5 & r6 & -> & _).
    unfold set_pc, set_reg, inc_cycle. cbn [registers mem cycle].
    split; reflexivity.
  - split; [apply pc_inc_cycle|]. split; reflexivity.
Qed.

Lemma eqb_false_negb (t : bool) : Bool.eqb t false = negb t.
Proof. destruct t; reflexivity. Qed.

Lemma eqb_true_id (t : bool) : Bool.eqb t true = t.
Proof. destruct t; reflexivity. Qed.

Lemma exec_BCC offset s :
  exec 0x90 [offset] s
  = Normal (if negb (truthy (flag 1 s))
            then offsetProgramCounter offset (inc_cycle s) else inc_cycle s).
Proof. reflexivity. Qed.

Lemma exec_BCS offset s :
  exec 0xB0 [offset] s
  = Normal (if truthy (flag 1 s)
            then offsetProgramCounter offset (inc_cycle s) else inc_cycle s).
Proof. reflexivity. Qed.

Lemma exec_BEQ offset s :
  exec 0xF0 [offset] s
  = Normal (if truthy (flag 2 s)
            then offsetProgramCounter offset (inc_cycle s) else inc_cycle s).
Proof. reflexivity. Qed.

Lemma exec_BMI offset s :
  exec 0x30 [offset] s
  = Normal (if truthy (flag 128 s)
            then offsetProgramCounter offset (inc_cycle s) else inc_cycle s).
Proof. reflexivity. Qed.

Lemma exec_BNE offset s :
  exec 0xD0 [offset] s
  = Normal (if negb (truthy (flag 2 s))
            then offsetProgramCounter offset (inc_cycle s) else inc_cycle s).
Proof. reflexivity. Qed.

Lemma exec_BPL offset s :
  exec 0x10 [offset] s
  = Normal (if negb (truthy (flag 128 s))
            then offsetProgramCounter offset (inc_cycle s) else inc_cycle s).
Proof. reflexivity. Qed.

Lemma exec_BVC offset s :
  exec 0x50 [offset] s
  = Normal (if negb (truthy (flag 64 s))
            then offsetProgramCounter offset (inc_cycle s) else inc_cycle s).
Proof. reflexivity. Qed.

Lemma exec_BVS offset s :
  exec 0x70 [offset] s
  = Normal (if truthy (flag 64 s)
            then offsetProgramCounter offset (inc_cycle s) else inc_cycle s).
Proof. reflexivity. Qed.

(** X2: A branch is taken exactly when its flag has the value the instruction
    tests; taken, it adds the operand, read as a signed byte, to the program
    counter modulo 2^16; not taken, it leaves the program counter alone.
    Either way the other registers and memory are untouched. *)
Theorem branch_adds_the_signed_offset opcode mask on offset (s : Simulator) :
  (opcode, mask, on) ∈ branches ->
  well_formed s = true ->
  0 <= offset < 256 ->
  exists s',
    exec opcode [offset] s = Normal s'
    /\ pc s' = (if Bool.eqb (truthy (flag mask s)) on
                then (pc s + (if offset <? 128 then offset else offset - 256))
                     mod 2 ^ 16
                else pc s)
    /\ drop 2 (registers s') = drop 2 (registers s)
    /\ mem s' = mem s.
Proof.
  intros Hin Hwf Ho. unfold branches in Hin.
  repeat (apply elem_of_cons in Hin as [Hin|Hin]);
    [..|apply elem_of_nil in Hin; destruct Hin];
    injection Hin as -> -> ->.
  - rewrite exec_BCC, eqb_false_negb. eexists. split; [reflexivity|].
    exact (branch_step _ offset s Hwf Ho).
  - rewrite exec_BCS, eqb_true_id. eexists. split; [reflexivity|].
    exact (branch_step _ offset s Hwf Ho).
  - rewrite exec_BEQ, eqb_true_id. eexists. split; [reflexivity|].
    exact (branch_step _ offset s Hwf Ho).
  - rewrite exec_BMI, eqb_true_id. eexists. split; [reflexivity|].
    exact (branch_step _ offset s Hwf Ho).
  - rewrite exec_BNE, eqb_false_negb. eexists. split; [reflexivity|].
    exact (branch_step _ offset s Hwf Ho).
  - rewrite exec_BPL, eqb_false_negb. eexists. split; [reflexivity|].
    exact (branch_step _ offset s Hwf Ho).
  - rewrite exec_BVC, eqb_false_negb. eexists. split; [reflexivity|].
    exact (branch_step _ offset s Hwf Ho).
  - rewrite exec_BVS, eqb_true_id. eexists. split; [reflexivity|].
    exact (branch_step _ offset s Hwf Ho).
Qed.

Lemma branch_adds_the_signed_offset_witness :
  let s := set_pc 0x0010 new_Simulator in
  exists s',
    exec 0xD0 [0xF0] s = Normal s'
    /\ pc s' = (if Bool.eqb (truthy (flag 0x02 s)) false
                then (pc s + (if 0xF0 <? 128 then 0xF0 else 0xF0 - 256))
                     mod 2 ^ 16
                else pc s)
    /\ drop 2 (registers s') = drop 2 (registers s)
    /\ mem s' = mem s.
Proof.
  intros s. apply (branch_adds_the_signed_offset 0xD0 0x02 false 0xF0 s).
  - unfold branches. repeat constructor.
  - vm_compute. reflexivity.
  - lia.
Defined.

(** ** Calls of table functions *)

Lemma call_enough {R} (h : Fn R) args :
  (Fn_length h <= length args)%nat -> exists f, call h args = Normal f.
Proof.
  destruct h as [g|g|g]; cbn [Fn_length call]; intros H.
  - eauto.
  - destruct args as [|a args]; [cbn in H; lia|]. eauto.
  - destruct args as [|a [|b args]]; try (cbn in H; lia). eauto.
Qed.

Lemma call_counts withpc h args f :
  HandlerOk withpc h -> call h args = Normal f -> counts withpc f.
Proof.
  intros Hh. destruct h as [g|g|g]; cbn [HandlerOk] in Hh.
  - intros [= <-]. exact Hh.
  - destruct args as [|a args]; [discriminate|]. intros [= <-]. apply Hh.
  - destruct args as [|a [|b args]]; try discriminate. intros [= <-]. apply Hh.
Qed.

(** A registered opcode called with the arguments its function declares
    returns, counts one cycle and keeps every kept property. *)
Lemma exec_frame opcode h args s J c :
  ops dispatch !! opcode = Some h ->
  (Fn_length h <= length args)%nat ->
  Kept (is_control_flow opcode) J -> InvC J c s ->
  exists s', exec opcode args s = Normal s' /\ InvC J (c + 1) s'.
Proof.
  intros Hh Hargs HK Hs.
  destruct (call_enough h args Hargs) as [f Hf].
  exists (f s). split.
  - unfold exec. rewrite Hh, Hf. reflexivity.
  - apply (call_counts (is_control_flow opcode) h args f);
      [|exact Hf|exact HK|exact Hs].
    exact (map_Forall_lookup_1 _ _ _ _ dispatch_ok Hh).
Qed.

(** X3: every table function keeps the two arrays well formed: their lengths, and
    bytes in the register file; and it keeps bytes in memory. *)
Theorem exec_keeps_the_arrays_well_formed opcode h args (s : Simulator) :
  ops dispatch !! opcode = Some h ->
  (Fn_length h <= length args)%nat ->
  well_formed s = true ->
  exists s',
    exec opcode args s = Normal s'
    /\ well_formed s' = true
    /\ (memory_bytes s = true -> memory_bytes s' = true).
Proof.
  intros Hh Hargs Hwf.
  destruct (exec_frame opcode h args s
              (fun s' => well_formed s' = true
                         /\ (memory_bytes s = true -> memory_bytes s' = true))
              (cycle s) Hh Hargs)
    as (s' & E & _ & H).
  - apply Kept_weaken, Kept_and; [apply Kept_well_formed|].
    apply Kept_impl, Kept_memory_bytes.
  - split; [reflexivity|]. split; [exact Hwf|auto].
  - exists s'. split; [exact E|exact H].
Qed.

Lemma exec_keeps_the_arrays_well_formed_witness :
  exists s',
    exec 0x69 [0xFF; 0x00] new_Simulator = Normal s'
    /\ well_formed s' = true
    /\ (memory_bytes new_Simulator = true -> memory_bytes s' = true).
Proof.
  apply (exec_keeps_the_arrays_well_formed 0x69 (Fn1 (Mode.immediate Op.ADC))).
  - reflexivity.
  - simpl. lia.
  - vm_compute. reflexivity.
Defined.

(** X4: every table function counts exactly one cycle, whatever the instruction
    and its addressing mode. *)
Theorem exec_counts_one_cycle opcode h args (s : Simulator) :
  ops dispatch !! opcode = Some h ->
  (Fn_length h <= length args)%nat ->
  exists s', exec opcode args s = Normal s' /\ cycle s' = cycle s + 1.
Proof.
  intros Hh Hargs.
  destruct (exec_frame opcode h args s (fun _ => True) (cycle s) Hh Hargs)
    as (s' & E & Hc & _).
  - apply Kept_True.
  - split; [reflexivity|exact I].
  - exists s'. split; [exact E|exact Hc].
Qed.

Lemma exec_counts_one_cycle_witness :
  exists s',
    exec 0xBD [0x00; 0x02] new_Simulator = Normal s'
    /\ cycle s' = cycle new_Simulator + 1.
Proof.
  apply (exec_counts_one_cycle 0xBD (Fn2 (Mode.absoluteX Op.LDA))).
  - reflexivity.
  - simpl. lia.
Defined.

Lemma pc_take (s s' : Simulator) :
  take 2 (registers s') = take 2 (registers s) -> pc s' = pc s.
Proof.
  intros H. unfold pc, reg.
  rewrite <- (lookup_take_lt (registers s') 2 0) by lia.
  rewrite <- (lookup_take_lt (registers s') 2 1) by lia.
  rewrite H, !lookup_take_lt by lia. reflexivity.
Qed.

Lemma exec_pc_kept opcode h args (s : Simulator) :
  ops dispatch !! opcode = Some h ->
  (Fn_length h <= length args)%nat ->
  is_control_flow opcode = false ->
  exists s', exec opcode args s = Normal s' /\ pc s' = pc s.
Proof.
  intros Hh Hargs Hc.
  destruct (exec_frame opcode h args s
              (fun s' => take 2 (registers s') = take 2 (registers s))
              (cycle s) Hh Hargs)
    as (s' & E & _ & H).
  - rewrite Hc. apply Kept_pc.
  - split; reflexivity.
  - exists s'. split; [exact E|]. apply pc_take, H.
Qed.

(** X5: only the branches, BRK, JMP, JSR, RTI and RTS assign the program
    counter: every other table function leaves it as it was. *)
Theorem exec_keeps_the_program_counter opcode h args (s : Simulator) :
  ops dispatch !! opcode = Some h ->
  (Fn_length h <= length args)%nat ->
  is_control_flow opcode = false ->
  exists s', exec opcode args s = Normal s' /\ pc s' = pc s.
Proof. apply exec_pc_kept. Qed.

Lemma exec_keeps_the_program_counter_witness :
  exists s',
    exec 0x91 [0x10] (set_pc 0x8000 new_Simulator) = Normal s'
    /\ pc s' = pc (set_pc 0x8000 new_Simulator).
Proof.
  apply (exec_keeps_the_program_counter 0x91 (Fn1 (Mode.indirectY Op.STA))).
  - reflexivity.
  - simpl. lia.
  - vm_compute. reflexivity.
Defined.

(** ** The runner's steps *)

Lemma pc_range s : well_formed s = true -> 0 <= pc s < 2 ^ 16.
Proof.
  intros Hwf.
  destruct (well_formed_inv s Hwf)
    as (c & m & r0 & r1 & r2 & r3 & r4 & r5 & r6 & ->
        & Hm & H0 & H1 & H2 & H3 & H4 & H5 & H6).
  rewrite pc_word by assumption. lia.
Qed.

(** [get(pc & 0xFF, pc >> 8)] reads the byte the word [pc] addresses. *)
Lemma get_word w s :
  0 <= w < 2 ^ 16 ->
  get (band w 0xFF) (shr w 8) 0 s = default 0 (mem s !! Z.to_nat w).
Proof.
  intros Hw. unfold get, address.
  rewrite band_255, shr_8, Z.add_0_r by lia.
  rewrite bor_shl_bytes
    by (change (2 ^ 16) with 65536 in Hw;
        Z.to_euclidean_division_equations; lia).
  replace (w / 256 * 256 + w mod 256) with w
    by (Z.to_euclidean_division_equations; lia).
  unfold Uint8Array.at_index. destruct (Z.leb_spec 0 w); [reflexivity|lia].
Qed.

Lemma drop_2_set_pc v s :
  drop 2 (registers (set_pc v s)) = drop 2 (registers s).
Proof.
  unfold set_pc, set_reg, Uint8Array.store. cbn [registers].
  change (0 <=? Z.of_nat 0) with true. change (0 <=? Z.of_nat 1) with true.
  cbv iota. rewrite !Nat2Z.id, !drop_insert_lt by lia. reflexivity.
Qed.

Lemma incProgramCounter_spec s :
  well_formed s = true ->
  pc (incProgramCounter s) = (pc s + 1) mod 2 ^ 16
  /\ well_formed (incProgramCounter s) = true
  /\ mem (incProgramCounter s) = mem s
  /\ drop 2 (registers (incProgramCounter s)) = drop 2 (registers s)
  /\ cycle (incProgramCounter s) = cycle s.
Proof.
  intros Hwf. pose proof (pc_range s Hwf) as Hpc.
  change (2 ^ 16) with 65536 in Hpc.
  unfold incProgramCounter.
  destruct (set_pc_word (pc s + 1) s Hwf) as (E & _); [lia|].
  split; [exact E|]. split.
  - unfold set_pc. apply well_formed_set_reg, well_formed_set_reg, Hwf.
  - split; [reflexivity|]. split; [apply drop_2_set_pc|reflexivity].
Qed.

(** The operand fetch reads the bytes that follow, wrapping from $FFFF to
    $0000, and advances the program counter past them; it changes nothing
    else. *)
Lemma fetch_args_spec n s :
  well_formed s = true ->
  fst (fetch_args n s) = bytes_from s (pc s) n
  /\ pc (snd (fetch_args n s)) = (pc s + Z.of_nat n) mod 2 ^ 16
  /\ well_formed (snd (fetch_args n s)) = true
  /\ mem (snd (fetch_args n s)) = mem s
  /\ drop 2 (registers (snd (fetch_args n s))) = drop 2 (registers s)
  /\ cycle (snd (fetch_args n s)) = cycle s.
Proof.
  revert s. induction n as [|n IH]; intros s Hwf.
  - cbn [fetch_args fst snd]. change (Z.of_nat 0) with 0. rewrite Z.add_0_r.
    rewrite Z.mod_small by (apply pc_range, Hwf).
    split; [reflexivity|]. split; [reflexivity|]. split; [exact Hwf|].
    split; [reflexivity|]. split; reflexivity.
  - cbn [fetch_args].
    destruct (incProgramCounter_spec s Hwf) as (Ep & Hwf' & Em & Ed & Ec).
    specialize (IH (incProgramCounter s) Hwf').
    destruct (fetch_args n (incProgramCounter s)) as [args s'].
    cbn [fst snd] in *. destruct IH as (Ia & Ip & Iw & Im & Id & Ic).
    split; [|split; [|split; [exact Iw|split; [congruence|split; congruence]]]].
    + unfold bytes_from. cbn [seq fmap list_fmap]. f_equal.
      * rewrite Z.add_0_r, Z.mod_small by (apply pc_range, Hwf).
        apply get_word, pc_range, Hwf.
      * rewrite Ia. unfold bytes_from. rewrite Em, Ep.
        rewrite <- seq_shift, <- list_fmap_compose.
        apply list_fmap_ext. intros i k _. cbn. f_equal. f_equal. f_equal.
        rewrite Zplus_mod_idemp_l. f_equal. lia.
    + rewrite Ip, Ep, Zplus_mod_idemp_l. f_equal. lia.
Qed.

Lemma length_fetch_args n s : length (fst (fetch_args n s)) = n.
Proof.
  revert s. induction n as [|n IH]; intros s; cbn [fetch_args].
  - reflexivity.
  - specialize (IH (incProgramCounter s)).
    destruct (fetch_args n (incProgramCounter s)) as [args s'].
    cbn [fst snd length] in *. congruence.
Qed.

Lemma name_RTS opcode :
  codeToName dispatch !! opcode = Some "RTS"%string -> opcode = 0x60.
Proof.
  intros H. apply elem_of_map_to_list in H.
  assert (Hall :
    forallb (fun p : Z * string => implb (String.eqb p.2 "RTS") (p.1 =? 0x60))
      (map_to_list (codeToName dispatch)) = true)
    by (vm_compute; reflexivity).
  rewrite forallb_forall in Hall.
  apply list_elem_of_In in H. specialize (Hall _ H). cbn in Hall.
  apply Z.eqb_eq, Hall.
Qed.

Lemma step_eq r :
  step r = match ops dispatch !! opcode_at_pc (simulator r) with
           | None => Throw TypeError
           | Some h => step_with r (opcode_at_pc (simulator r)) h
           end.
Proof. unfold step, step_with, opcode_at_pc. cbv zeta. reflexivity. Qed.

(** What a step of the runner amounts to, when it is not the jump that
    replaces the first RTS: the opcode function on the fetched operands. *)
Lemma step_fetches r h :
  ops dispatch !! opcode_at_pc (simulator r) = Some h ->
  codeToName dispatch !! opcode_at_pc (simulator r) <> Some "RTS"%string
  \/ inited r = true \/ data r = None ->
  step r
  = (s ← exec (opcode_at_pc (simulator r))
            (fst (fetch_args (Fn_length h) (incProgramCounter (simulator r))))
            (snd (fetch_args (Fn_length h) (incProgramCounter (simulator r))));
     mret (mkRunner s (inited r) (data r))).
Proof.
  intros Hh Hc. rewrite step_eq. unfold Handler in *. rewrite Hh.
  unfold step_with. cbv zeta.
  destruct (fetch_args (Fn_length h) (incProgramCounter (simulator r)))
    as [args s'].
  cbn [fst snd].
  destruct (data r) as [d|]; [|reflexivity].
  destruct Hc as [Hc|[Hc|Hc]]; [| |discriminate].
  - rewrite bool_decide_eq_false_2 by exact Hc. reflexivity.
  - rewrite Hc, andb_false_r. reflexivity.
Qed.

Lemma step_replaces_RTS r h d :
  ops dispatch !! opcode_at_pc (simulator r) = Some h ->
  data r = Some d -> inited r = false ->
  codeToName dispatch !! opcode_at_pc (simulator r) = Some "RTS"%string ->
  step r
  = Normal (mkRunner
              (set_pc (bor (shl (byte_at d 13) 8) (byte_at d 12))
                 (inc_cycle (incProgramCounter (simulator r))))
              true (Some d)).
Proof.
  intros Hh Hd Hi Hn. rewrite step_eq. unfold Handler in *. rewrite Hh.
  unfold step_with. cbv zeta. rewrite Hd, Hi.
  rewrite bool_decide_eq_true_2 by exact Hn. cbn [andb negb].
  rewrite exec_JMP, bind_Normal. reflexivity.
Qed.

Lemma bytes_from_mod s s' w w' n :
  mem s' = mem s -> w' mod 2 ^ 16 = w mod 2 ^ 16 ->
  bytes_from s' w' n = bytes_from s w n.
Proof.
  intros Hm Hw. unfold bytes_from. rewrite Hm.
  apply list_fmap_ext. intros i k _. cbn.
  rewrite <- (Zplus_mod_idemp_l w'), Hw, Zplus_mod_idemp_l. reflexivity.
Qed.

Lemma Kept_step (s : Simulator) :
  Kept true (fun s' => well_formed s' = true
                       /\ (memory_bytes s = true -> memory_bytes s' = true)).
Proof.
  apply Kept_and; [apply Kept_well_formed|].
  apply Kept_impl, Kept_memory_bytes.
Qed.

Lemma step_total (r : Runner) :
  well_formed (simulator r) = true ->
  match ops dispatch !! opcode_at_pc (simulator r) with
  | None => step r = Throw TypeError
  | Some _ =>
      exists r',
        step r = Normal r'
        /\ cycle (simulator r') = cycle (simulator r) + 1
        /\ step_keeps r r'
  end.
Proof.
  intros Hwf.
  destruct (ops dispatch !! opcode_at_pc (simulator r)) as [h|] eqn:Hh.
  2:{ rewrite step_eq. unfold Handler in *. rewrite Hh. reflexivity. }
  set (s := simulator r) in *.
  set (J := fun s' => well_formed s' = true
                      /\ (memory_bytes s = true -> memory_bytes s' = true)).
  pose proof (Kept_step s) as HK. fold J in HK.
  assert (H0 : InvC J (cycle s) (incProgramCounter s)).
  { unfold incProgramCounter. apply (InvC_set_pc _ HK).
    split; [reflexivity|]. split; [exact Hwf|auto]. }
  assert (Hfetch :
    codeToName dispatch !! opcode_at_pc s <> Some "RTS"%string
    \/ inited r = true \/ data r = None ->
    exists r',
      step r = Normal r' /\ cycle (simulator r') = cycle s + 1
      /\ step_keeps r r').
  { intros Hcase. rewrite (step_fetches r h Hh Hcase). fold s.
    destruct (fetch_args_spec (Fn_length h) (incProgramCounter s))
      as (_ & _ & Hw & Hm & _ & Hc); [apply H0|].
    destruct (exec_frame (opcode_at_pc s) h
                (fst (fetch_args (Fn_length h) (incProgramCounter s)))
                (snd (fetch_args (Fn_length h) (incProgramCounter s)))
                J (cycle s) Hh)
      as (s' & E & Hc' & Hw' & Hb').
    - rewrite length_fetch_args. lia.
    - apply Kept_weaken, HK.
    - split; [rewrite Hc; apply H0|]. split; [exact Hw|].
      unfold memory_bytes. rewrite Hm. apply H0.
    - rewrite E, bind_Normal. eexists. split; [reflexivity|].
      cbn [simulator]. split; [exact Hc'|].
      split; [reflexivity|]. split; assumption. }
  destruct (decide (codeToName dispatch !! opcode_at_pc s = Some "RTS"%string))
    as [Hn|Hn]; [|auto].
  destruct (inited r) eqn:Hi; [auto|].
  destruct (data r) as [d|] eqn:Hd; [|auto].
  (* the jump that replaces the first RTS *)
  rewrite (step_replaces_RTS r h d Hh Hd Hi Hn). fold s.
  eexists. split; [reflexivity|]. cbn [simulator].
  assert (H1 : InvC J (cycle s + 1)
                 (set_pc (bor (shl (byte_at d 13) 8) (byte_at d 12))
                    (inc_cycle (incProgramCounter s))))
    by (apply (InvC_set_pc _ HK), (InvC_inc_cycle _ _ HK), H0).
  destruct H1 as (Hc' & Hw' & Hb').
  split; [exact Hc'|]. split; [exact (eq_sym Hd)|]. split; assumption.
Qed.

(** X6: A step either finds no function for the byte at the program counter and
    throws a [TypeError], or runs one table function: it returns, counts one
    cycle, and keeps the file and the well-formed arrays. *)
Theorem step_runs_one_table_function (r : Runner) :
  well_formed (simulator r) = true ->
  match ops dispatch !! opcode_at_pc (simulator r) with
  | None => step r = Throw TypeError
  | Some _ =>
      exists r',
        step r = Normal r'
        /\ cycle (simulator r') = cycle (simulator r) + 1
        /\ step_keeps r r'
  end.
Proof. apply step_total. Qed.

Lemma step_runs_one_table_function_witness :
  match ops dispatch !! opcode_at_pc (simulator new_Runner) with
  | None => step new_Runner = Throw TypeError
  | Some _ =>
      exists r',
        step new_Runner = Normal r'
        /\ cycle (simulator r') = cycle (simulator new_Runner) + 1
        /\ step_keeps new_Runner r'
  end.
Proof.
  apply (step_runs_one_table_function new_Runner).
  vm_compute. reflexivity.
Defined.

Lemma step_keeps_refl (r : Runner) :
  well_formed (simulator r) = true -> step_keeps r r.
Proof. intros Hwf. split; [reflexivity|]. split; [exact Hwf|auto]. Qed.

Lemma step_keeps_trans (r0 r1 r2 : Runner) :
  step_keeps r0 r1 -> step_keeps r1 r2 -> step_keeps r0 r2.
Proof.
  intros (Hd1 & _ & Hb1) (Hd2 & Hw2 & Hb2).
  split; [congruence|]. split; [exact Hw2|auto].
Qed.

(** X7: the only failure of stepping is the [TypeError] of a byte that is no
    opcode.  Either [n] steps return, count [n] cycles and keep the file and
    the well-formed arrays; or they throw a [TypeError], and then fewer than
    [n] steps have returned, counted one cycle each and kept the file and
    the arrays, and reached a state whose byte at the program counter has no
    function in the table. *)
Theorem steps_count_cycles (n : nat) (r : Runner) :
  well_formed (simulator r) = true ->
  (exists r',
     steps n r = Normal r'
     /\ cycle (simulator r') = cycle (simulator r) + Z.of_nat n
     /\ step_keeps r r')
  \/ (exists (k : nat) (r_k : Runner),
        (k < n)%nat
        /\ steps k r = Normal r_k
        /\ cycle (simulator r_k) = cycle (simulator r) + Z.of_nat k
        /\ step_keeps r r_k
        /\ ops dispatch !! opcode_at_pc (simulator r_k) = None
        /\ steps n r = Throw TypeError).
Proof.
  revert r. induction n as [|n IH]; intros r Hwf.
  - left. exists r. cbn [steps]. split; [reflexivity|].
    split; [cbn; lia|apply step_keeps_refl, Hwf].
  - cbn [steps]. pose proof (step_total r Hwf) as Hs.
    destruct (ops dispatch !! opcode_at_pc (simulator r)) as [h|] eqn:Hh.
    + destruct Hs as (r1 & E1 & Hc1 & Hk1).
      rewrite E1, bind_Normal.
      destruct (IH r1 (proj1 (proj2 Hk1)))
        as [(r2 & E2 & Hc2 & Hk2)|(k & r_k & Hlt & Ek & Hck & Hkk & Hn & Et)].
      * left. exists r2. split; [exact E2|].
        split; [lia|exact (step_keeps_trans _ _ _ Hk1 Hk2)].
      * right. exists (S k), r_k. split; [lia|].
        split; [cbn [steps]; rewrite E1, bind_Normal; exact Ek|].
        split; [lia|]. split; [exact (step_keeps_trans _ _ _ Hk1 Hkk)|].
        split; [exact Hn|exact Et].
    + right. exists O, r. split; [lia|]. split; [reflexivity|].
      split; [cbn; lia|]. split; [apply step_keeps_refl, Hwf|].
      split; [exact Hh|]. rewrite Hs. reflexivity.
Qed.

Lemma steps_count_cycles_witness :
  (exists r',
     steps 3 new_Runner = Normal r'
     /\ cycle (simulator r') = cycle (simulator new_Runner) + Z.of_nat 3
     /\ step_keeps new_Runner r')
  \/ (exists (k : nat) (r_k : Runner),
        (k < 3)%nat
        /\ steps k new_Runner = Normal r_k
        /\ cycle (simulator r_k) = cycle (simulator new_Runner) + Z.of_nat k
        /\ step_keeps new_Runner r_k
        /\ ops dispatch !! opcode_at_pc (simulator r_k) = None
        /\ steps 3 new_Runner = Throw TypeError).
Proof.
  apply (steps_count_cycles 3 new_Runner).
  vm_compute. reflexivity.
Defined.

Lemma not_RTS opcode :
  is_control_flow opcode = false ->
  codeToName dispatch !! opcode <> Some "RTS"%string.
Proof.
  intros Hc Hn. apply name_RTS in Hn. subst opcode. discriminate.
Qed.

(** X8: A step on an opcode that is not control flow runs its function on the
    bytes that follow the opcode, as many as the function declares, and so
    leaves the program counter just past the instruction; the addresses
    wrap from $FFFF to $0000. *)
Theorem step_advances_past_the_instruction (r : Runner) h :
  well_formed (simulator r) = true ->
  ops dispatch !! opcode_at_pc (simulator r) = Some h ->
  is_control_flow (opcode_at_pc (simulator r)) = false ->
  exists s0 r',
    step r = Normal r'
    /\ pc s0 = (pc (simulator r) + 1 + Z.of_nat (Fn_length h)) mod 2 ^ 16
    /\ mem s0 = mem (simulator r)
    /\ drop 2 (registers s0) = drop 2 (registers (simulator r))
    /\ exec (opcode_at_pc (simulator r))
         (bytes_from (simulator r) (pc (simulator r) + 1) (Fn_length h)) s0
       = Normal (simulator r')
    /\ pc (simulator r')
       = (pc (simulator r) + 1 + Z.of_nat (Fn_length h)) mod 2 ^ 16
    /\ inited r' = inited r /\ data r' = data r.
Proof.
  intros Hwf Hh Hc. set (s := simulator r) in *.
  rewrite (step_fetches r h Hh) by (left; apply not_RTS, Hc). fold s.
  destruct (incProgramCounter_spec s Hwf) as (Ep & Hwf' & Em & Ed & _).
  destruct (fetch_args_spec (Fn_length h) (incProgramCounter s) Hwf')
    as (Fa & Fp & Fw & Fm & Fd & _).
  set (s0 := snd (fetch_args (Fn_length h) (incProgramCounter s))) in *.
  assert (Hpc0 : pc s0 = (pc s + 1 + Z.of_nat (Fn_length h)) mod 2 ^ 16)
    by (rewrite Fp, Ep, Zplus_mod_idemp_l; reflexivity).
  rewrite Fa.
  rewrite (bytes_from_mod s (incProgramCounter s) (pc s + 1)
             (pc (incProgramCounter s)) _ Em)
    by (rewrite Ep; apply Z.mod_mod; lia).
  destruct (exec_pc_kept (opcode_at_pc s) h
              (bytes_from s (pc s + 1) (Fn_length h)) s0 Hh)
    as (s' & E & Hp); [unfold bytes_from; rewrite length_fmap, length_seq; lia
                      |exact Hc|].
  rewrite E, bind_Normal.
  exists s0. eexists. split; [reflexivity|]. cbn [simulator inited data].
  split; [exact Hpc0|]. split; [congruence|]. split; [congruence|].
  split; [exact E|]. split; [congruence|]. split; reflexivity.
Qed.

Lemma mem_inc_cycle s : mem (inc_cycle s) = mem s.
Proof. reflexivity. Qed.

Lemma registers_inc_cycle s : registers (inc_cycle s) = registers s.
Proof. reflexivity. Qed.

Lemma cycle_inc_cycle s : cycle (inc_cycle s) = cycle s + 1.
Proof. reflexivity. Qed.

Lemma cycle_set_pc v s : cycle (set_pc v s) = cycle s.
Proof. reflexivity. Qed.

Lemma step_advances_past_the_instruction_witness :
  let r := mkRunner (set 0xFF 0xFF 0 0xAD (set_pc 0xFFFF new_Simulator))
             false None in
  exists s0 r',
    step r = Normal r'
    /\ pc s0 = (pc (simulator r) + 1 + Z.of_nat 2) mod 2 ^ 16
    /\ mem s0 = mem (simulator r)
    /\ drop 2 (registers s0) = drop 2 (registers (simulator r))
    /\ exec (opcode_at_pc (simulator r))
         (bytes_from (simulator r) (pc (simulator r) + 1) 2) s0
       = Normal (simulator r')
    /\ pc (simulator r') = (pc (simulator r) + 1 + Z.of_nat 2) mod 2 ^ 16
    /\ inited r' = inited r /\ data r' = data r.
Proof.
  intros r.
  apply (step_advances_past_the_instruction r (Fn2 (Mode.absolute Op.LDA))).
  - vm_compute. reflexivity.
  - reflexivity.
  - vm_compute. reflexivity.
Defined.

(** X9: the first RTS met after a file has been loaded is not executed: the step
    jumps to the play address of the file, marks the runner as inited, and
    leaves the stack pointer and memory alone. *)
Theorem first_RTS_after_a_load_jumps_to_play (r : Runner) (d : list Z) :
  well_formed (simulator r) = true ->
  data r = Some d -> inited r = false ->
  opcode_at_pc (simulator r) = 0x60 ->
  0 <= byte_at d 12 < 256 -> 0 <= byte_at d 13 < 256 ->
  exists r',
    step r = Normal r'
    /\ inited r' = true /\ data r' = Some d
    /\ pc (simulator r') = byte_at d 13 * 256 + byte_at d 12
    /\ sp (simulator r') = sp (simulator r)
    /\ mem (simulator r') = mem (simulator r)
    /\ cycle (simulator r') = cycle (simulator r) + 1.
Proof.
  intros Hwf Hd Hi Hop Hlo Hhi.
  assert (Hh : ops dispatch !! opcode_at_pc (simulator r)
               = Some (handler_of Op.RTS)) by (rewrite Hop; reflexivity).
  assert (Hn : codeToName dispatch !! opcode_at_pc (simulator r)
               = Some "RTS"%string) by (rewrite Hop; reflexivity).
  rewrite (step_replaces_RTS r _ d Hh Hd Hi Hn).
  eexists. split; [reflexivity|]. cbn [simulator inited data].
  split; [reflexivity|]. split; [reflexivity|].
  destruct (incProgramCounter_spec (simulator r) Hwf)
    as (_ & Hwf1 & Hm1 & Hd1 & Hc1).
  assert (Hwf2 : well_formed (inc_cycle (incProgramCounter (simulator r))) = true)
    by (apply (kept_inc_cycle _ _ Kept_well_formed), Hwf1).
  rewrite bor_shl_bytes by assumption.
  destruct (set_pc_word (byte_at d 13 * 256 + byte_at d 12) _ Hwf2)
    as (Ep & _ & _ & _ & _ & Es & Em); [clear - Hlo Hhi; lia|].
  rewrite Ep, Es, Em.
  split; [apply Z.mod_small; clear - Hlo Hhi; lia|].
  split; [|split; [rewrite mem_inc_cycle; exact Hm1|]].
  - unfold sp, reg. rewrite registers_inc_cycle.
    rewrite <- (lookup_drop _ 2 4), Hd1, lookup_drop. reflexivity.
  - rewrite cycle_set_pc, cycle_inc_cycle, Hc1. reflexivity.
Qed.

Lemma first_RTS_after_a_load_jumps_to_play_witness :
  let d := nsf_file 0x01 0x00 0x00 0x80 [0x60] in
  let r := mkRunner (set 0x00 0x80 0 0x60 (set_pc 0x8000 new_Simulator))
             false (Some d) in
  exists r',
    step r = Normal r'
    /\ inited r' = true /\ data r' = Some d
    /\ pc (simulator r') = byte_at d 13 * 256 + byte_at d 12
    /\ sp (simulator r') = sp (simulator r)
    /\ mem (simulator r') = mem (simulator r)
    /\ cycle (simulator r') = cycle (simulator r) + 1.
Proof.
  intros d r.
  apply (first_RTS_after_a_load_jumps_to_play r d).
  - vm_compute. reflexivity.
  - reflexivity.
  - reflexivity.
  - vm_compute. reflexivity.
  - replace (byte_at d 12) with 0x03 by (vm_compute; reflexivity). lia.
  - replace (byte_at d 13) with 0x80 by (vm_compute; reflexivity). lia.
Defined.

(** ** The stack *)

Lemma pushStackValue_concrete c m r0 r1 r2 r3 r4 r5 r6 v :
  0 <= r6 < 256 ->
  pushStackValue v (mkSimulator c m [r0; r1; r2; r3; r4; r5; r6])
  = mkSimulator c (<[Z.to_nat (256 + r6) := ToUint8 v]> m)
      [r0; r1; r2; r3; r4; r5; ToUint8 (r6 - 1)].
Proof.
  intros H6.
  unfold pushStackValue, set_sp, sp, set_reg, reg, set_mem, Uint8Array.store.
  simpl. rewrite (bor_stack_page r6 H6).
  destruct (Z.leb_spec 0 (256 + r6)); [reflexivity|lia].
Qed.

Lemma popStackValue_concrete c m r0 r1 r2 r3 r4 r5 r6 :
  0 <= r6 < 256 ->
  popStackValue (mkSimulator c m [r0; r1; r2; r3; r4; r5; r6])
  = (default 0 (m !! Z.to_nat (256 + ToUint8 (r6 + 1))),
     mkSimulator c m [r0; r1; r2; r3; r4; r5; ToUint8 (r6 + 1)]).
Proof.
  intros H6.
  unfold popStackValue, set_sp, sp, set_reg, reg, get, Uint8Array.store,
    Uint8Array.at_index.
  simpl. rewrite (address_stack_page _ (ToUint8_range (r6 + 1))).
  destruct (Z.leb_spec 0 (256 + ToUint8 (r6 + 1))); [reflexivity|].
  pose proof (ToUint8_range (r6 + 1)). lia.
Qed.

Lemma ToUint8_pred_ne b : 0 <= b < 256 -> ToUint8 (b - 1) <> b.
Proof.
  intros H. unfold ToUint8. change (2 ^ 8) with 256.
  Z.to_euclidean_division_equations. lia.
Qed.

Lemma ToUint8_pred_pred b : ToUint8 (ToUint8 (b - 1) - 1) = ToUint8 (b - 2).
Proof.
  unfold ToUint8. change (2 ^ 8) with 256.
  rewrite Zminus_mod_idemp_l. f_equal. lia.
Qed.

Lemma get_stack_concrete b c m rs :
  0 <= b < 256 ->
  get b 0x01 0 (mkSimulator c m rs) = default 0 (m !! Z.to_nat (256 + b)).
Proof.
  intros Hb. unfold get, Uint8Array.at_index. cbn [mem].
  rewrite (address_stack_page b Hb).
  destruct (Z.leb_spec 0 (256 + b)); [reflexivity|lia].
Qed.

(** X10: A push stores the byte, reduced modulo 256, in page 1 at the stack
    pointer and then lowers the stack pointer by one modulo 256, so that at
    0 it wraps to $FF inside the page; it changes nothing else.  A pop after
    the push returns the byte and puts the stack pointer back: the state is
    the one before the push with the byte stored.  This holds for every
    value of the stack pointer. *)
Theorem pop_returns_the_pushed_byte (v : Z) (s : Simulator) :
  well_formed s = true ->
  address (sp s) 0x01 0 = 0x0100 + sp s
  /\ pushStackValue v s = set_sp (sp s - 1) (set (sp s) 0x01 0 v s)
  /\ sp (pushStackValue v s) = ToUint8 (sp s - 1)
  /\ get (sp s) 0x01 0 (pushStackValue v s) = ToUint8 v
  /\ (forall j : nat, j <> Z.to_nat (0x0100 + sp s) ->
        mem (pushStackValue v s) !! j = mem s !! j)
  /\ take 6 (registers (pushStackValue v s)) = take 6 (registers s)
  /\ cycle (pushStackValue v s) = cycle s
  /\ popStackValue (pushStackValue v s) = (ToUint8 v, set (sp s) 0x01 0 v s)
  /\ sp (set (sp s) 0x01 0 v s) = sp s.
Proof.
  intros Hwf.
  destruct (well_formed_inv s Hwf)
    as (c & m & r0 & r1 & r2 & r3 & r4 & r5 & r6 & ->
        & Hm & H0 & H1 & H2 & H3 & H4 & H5 & H6).
  change (2 ^ 16) with 65536 in Hm.
  assert (Hsp : sp (mkSimulator c m [r0; r1; r2; r3; r4; r5; r6]) = r6)
    by reflexivity.
  assert (Hset : set r6 0x01 0 v (mkSimulator c m [r0; r1; r2; r3; r4; r5; r6])
                 = mkSimulator c (<[Z.to_nat (256 + r6) := ToUint8 v]> m)
                     [r0; r1; r2; r3; r4; r5; r6]).
  { unfold set, set_mem, Uint8Array.store. cbn [mem cycle registers].
    rewrite (address_stack_page r6 H6).
    destruct (Z.leb_spec 0 (256 + r6)); [reflexivity|lia]. }
  rewrite Hsp, (address_stack_page r6 H6), Hset.
  rewrite pushStackValue_concrete by exact H6.
  split; [reflexivity|]. split; [reflexivity|]. split; [reflexivity|].
  split; [|split; [|split; [reflexivity|split; [reflexivity|]]]];
    [| |split; [|reflexivity]].
  - rewrite (get_stack_concrete r6) by exact H6.
    rewrite list_lookup_insert_eq by lia. reflexivity.
  - intros j Hj. cbn [mem]. apply list_lookup_insert_ne. auto.
  - rewrite popStackValue_concrete by apply ToUint8_range.
    rewrite (ToUint8_pred_succ r6 H6).
    rewrite list_lookup_insert_eq by lia. reflexivity.
Qed.

Lemma pop_returns_the_pushed_byte_witness :
  let s := set_sp 0x00 new_Simulator in
  address (sp s) 0x01 0 = 0x0100 + sp s
  /\ pushStackValue 0x1234 s = set_sp (sp s - 1) (set (sp s) 0x01 0 0x1234 s)
  /\ sp (pushStackValue 0x1234 s) = ToUint8 (sp s - 1)
  /\ get (sp s) 0x01 0 (pushStackValue 0x1234 s) = ToUint8 0x1234
  /\ (forall j : nat, j <> Z.to_nat (0x0100 + sp s) ->
        mem (pushStackValue 0x1234 s) !! j = mem s !! j)
  /\ take 6 (registers (pushStackValue 0x1234 s)) = take 6 (registers s)
  /\ cycle (pushStackValue 0x1234 s) = cycle s
  /\ popStackValue (pushStackValue 0x1234 s)
     = (ToUint8 0x1234, set (sp s) 0x01 0 0x1234 s)
  /\ sp (set (sp s) 0x01 0 0x1234 s) = sp s.
Proof.
  intros s. apply (pop_returns_the_pushed_byte 0x1234 s).
  vm_compute. reflexivity.
Defined.

(** ** Subroutines and interrupts *)

Lemma inc_cycle_concrete c m rs :
  inc_cycle (mkSimulator c m rs) = mkSimulator (c + 1) m rs.
Proof. reflexivity. Qed.

Lemma set_pc_concrete v c m r0 r1 r2 r3 r4 r5 r6 :
  set_pc v (mkSimulator c m [r0; r1; r2; r3; r4; r5; r6])
  = mkSimulator c m
      [ToUint8 (band v 0xFF); ToUint8 (shr v 8); r2; r3; r4; r5; r6].
Proof. reflexivity. Qed.

Lemma set_sr_concrete v c m r0 r1 r2 r3 r4 r5 r6 :
  set_sr v (mkSimulator c m [r0; r1; r2; r3; r4; r5; r6])
  = mkSimulator c m [r0; r1; r2; r3; r4; ToUint8 v; r6].
Proof. reflexivity. Qed.

Lemma sr_concrete c m r0 r1 r2 r3 r4 r5 r6 :
  sr (mkSimulator c m [r0; r1; r2; r3; r4; r5; r6]) = r5.
Proof. reflexivity. Qed.

Lemma set_pc_bytes lo hi c m r0 r1 r2 r3 r4 r5 r6 :
  0 <= lo < 256 -> 0 <= hi < 256 ->
  set_pc (hi * 256 + lo) (mkSimulator c m [r0; r1; r2; r3; r4; r5; r6])
  = mkSimulator c m [lo; hi; r2; r3; r4; r5; r6].
Proof.
  intros Hlo Hhi. rewrite set_pc_concrete.
  rewrite band_255, shr_8 by lia.
  replace ((hi * 256 + lo) mod 256) with lo
    by (Z.to_euclidean_division_equations; lia).
  replace ((hi * 256 + lo) / 256) with hi
    by (Z.to_euclidean_division_equations; lia).
  rewrite !ToUint8_byte by assumption. reflexivity.
Qed.

Lemma pc_hi r0 r1 : 0 <= r0 < 256 -> 0 <= r1 < 256 -> shr (r1 * 256 + r0) 8 = r1.
Proof.
  intros H0 H1. rewrite shr_8 by lia.
  Z.to_euclidean_division_equations; lia.
Qed.

Lemma pc_lo r0 r1 :
  0 <= r0 < 256 -> 0 <= r1 < 256 -> band (r1 * 256 + r0) 0xFF = r0.
Proof.
  intros H0 H1. rewrite band_255 by lia.
  Z.to_euclidean_division_equations; lia.
Qed.

Lemma ToUint8_add_l a k : ToUint8 (ToUint8 a + k) = ToUint8 (a + k).
Proof. unfold ToUint8. apply Zplus_mod_idemp_l. Qed.

Lemma ToUint8_sub_l a k : ToUint8 (ToUint8 a - k) = ToUint8 (a - k).
Proof. unfold ToUint8. apply Zminus_mod_idemp_l. Qed.

Lemma exec_JSR ll hh s :
  exec 0x20 [ll; hh] s
  = Normal (let s := inc_cycle s in
            let s := pushStackValue (shr (pc s) 8) s in
            let s := pushStackValue (band (pc s) 0xFF) s in
            set_pc (bor (shl hh 8) ll) s).
Proof. reflexivity. Qed.

Lemma exec_RTS s :
  exec 0x60 [] s
  = Normal (run_operation
              (let '(lo, s) := popStackValue (inc_cycle s) in
               let '(hi, s) := popStackValue s in
               (None, set_pc (bor lo (shl hi 8)) s))).
Proof. reflexivity. Qed.

(** X11: JSR pushes the program counter it is called with, high byte first and
    unchanged, and jumps; the RTS that follows pops the two bytes and jumps
    to the address they make, adding nothing: all seven registers are as
    before the JSR, for every value of the stack pointer (the two pushes
    wrap inside page 1). *)
Theorem RTS_returns_to_the_caller (ll hh : Z) (s : Simulator) :
  well_formed s = true ->
  0 <= ll < 256 -> 0 <= hh < 256 ->
  exists s1 s2,
    exec 0x20 [ll; hh] s = Normal s1
    /\ pc s1 = hh * 256 + ll
    /\ sp s1 = ToUint8 (sp s - 2)
    /\ get (sp s) 0x01 0 s1 = pc s / 256
    /\ get (ToUint8 (sp s - 1)) 0x01 0 s1 = pc s mod 256
    /\ exec 0x60 [] s1 = Normal s2
    /\ pc s2 = pc s
    /\ registers s2 = registers s
    /\ mem s2 = mem s1
    /\ cycle s2 = cycle s + 2.
Proof.
  intros Hwf Hll Hhh.
  destruct (well_formed_inv s Hwf)
    as (c & m & r0 & r1 & r2 & r3 & r4 & r5 & r6 & ->
        & Hm & H0 & H1 & H2 & H3 & H4 & H5 & H6).
  change (2 ^ 16) with 65536 in Hm.
  assert (Hsp : sp (mkSimulator c m [r0; r1; r2; r3; r4; r5; r6]) = r6)
    by reflexivity.
  assert (Hpc : pc (mkSimulator c m [r0; r1; r2; r3; r4; r5; r6])
                = r1 * 256 + r0) by (apply pc_word; assumption).
  rewrite Hsp, Hpc.
  replace ((r1 * 256 + r0) / 256) with r1
    by (clear - H0; Z.to_euclidean_division_equations; lia).
  replace ((r1 * 256 + r0) mod 256) with r0
    by (clear - H0; Z.to_euclidean_division_equations; lia).
  rewrite exec_JSR. cbv zeta.
  rewrite inc_cycle_concrete, pc_word, pc_hi by assumption.
  rewrite pushStackValue_concrete by exact H6.
  rewrite pc_word, pc_lo by assumption.
  rewrite pushStackValue_concrete by apply ToUint8_range.
  rewrite bor_shl_bytes, set_pc_bytes by assumption.
  rewrite ToUint8_pred_pred.
  eexists. eexists. split; [reflexivity|].
  rewrite pc_word by assumption. split; [reflexivity|].
  split; [reflexivity|].
  split.
  { rewrite (get_stack_concrete r6) by exact H6.
    rewrite list_lookup_insert_ne
      by (pose proof (ToUint8_pred_ne r6 H6);
          pose proof (ToUint8_range (r6 - 1)); lia).
    rewrite list_lookup_insert_eq by lia.
    apply ToUint8_byte, H1. }
  split.
  { rewrite get_stack_concrete by apply ToUint8_range.
    rewrite list_lookup_insert_eq
      by (rewrite length_insert; pose proof (ToUint8_range (r6 - 1)); lia).
    apply ToUint8_byte, H0. }
  rewrite exec_RTS, inc_cycle_concrete.
  rewrite popStackValue_concrete by apply ToUint8_range.
  rewrite ToUint8_add_l. replace (r6 - 2 + 1) with (r6 - 1) by lia.
  rewrite list_lookup_insert_eq
    by (rewrite length_insert; pose proof (ToUint8_range (r6 - 1)); lia).
  rewrite popStackValue_concrete by apply ToUint8_range.
  rewrite (ToUint8_pred_succ r6 H6).
  rewrite list_lookup_insert_ne
    by (pose proof (ToUint8_pred_ne r6 H6);
        pose proof (ToUint8_range (r6 - 1)); lia).
  rewrite list_lookup_insert_eq by lia.
  cbn [default run_operation].
  rewrite !ToUint8_byte by assumption.
  rewrite bor_bytes_shl, set_pc_bytes by assumption.
  split; [reflexivity|]. split; [apply pc_word; assumption|].
  split; [reflexivity|]. split; [reflexivity|]. cbn [cycle]. lia.
Qed.

Lemma RTS_returns_to_the_caller_witness :
  let s := set_sp 0x00 (set_pc 0x8003 new_Simulator) in
  exists s1 s2,
    exec 0x20 [0x34; 0x12] s = Normal s1
    /\ pc s1 = 0x12 * 256 + 0x34
    /\ sp s1 = ToUint8 (sp s - 2)
    /\ get (sp s) 0x01 0 s1 = pc s / 256
    /\ get (ToUint8 (sp s - 1)) 0x01 0 s1 = pc s mod 256
    /\ exec 0x60 [] s1 = Normal s2
    /\ pc s2 = pc s
    /\ registers s2 = registers s
    /\ mem s2 = mem s1
    /\ cycle s2 = cycle s + 2.
Proof.
  intros s. apply (RTS_returns_to_the_caller 0x34 0x12 s).
  - vm_compute. reflexivity.
  - lia.
  - lia.
Defined.

Lemma exec_BRK s :
  exec 0x00 [] s
  = Normal (let s := inc_cycle s in
            let s := set_pc (pc s + 2) s in
            let s := pushStackValue (shr (pc s) 8) s in
            let s := pushStackValue (band (pc s) 0xFF) s in
            let s := set_sr (bor (sr s) 0x04) s in
            let s := pushStackValue (sr s) s in
            set_pc (bor (get 0xFFFE 0 0 s) (shl (get 0xFFFF 0 0 s) 8)) s).
Proof. reflexivity. Qed.

Lemma exec_RTI s :
  exec 0x40 [] s
  = Normal (run_operation
              (let '(v, s) := popStackValue (inc_cycle s) in
               let s := set_sr v s in
               let '(lo, s) := popStackValue s in
               let '(hi, s) := popStackValue s in
               (None, set_pc (bor lo (shl hi 8)) s))).
Proof. reflexivity. Qed.

Lemma lookup_byte (m : list Z) i :
  forallb is_byte m = true -> 0 <= default 0 (m !! i) < 256.
Proof.
  intros H. destruct (m !! i) as [b|] eqn:E; cbn [default]; [|lia].
  apply Forall_is_byte in H. rewrite Forall_forall in H.
  apply H. eapply list_elem_of_lookup_2, E.
Qed.

Lemma bor_4_byte b : 0 <= b < 256 -> ToUint8 (bor b 0x04) = bor b 0x04.
Proof.
  intros H. apply Z.eqb_eq.
  apply (all_bytes (fun b => ToUint8 (bor b 0x04) =? bor b 0x04)); [|exact H].
  vm_compute. reflexivity.
Qed.

Lemma interrupt_bor_4 b : 0 <= b < 256 -> truthy (band (bor b 0x04) 0x04) = true.
Proof.
  intros H.
  apply (all_bytes (fun b => truthy (band (bor b 0x04) 0x04))); [|exact H].
  vm_compute. reflexivity.
Qed.

Lemma get_concrete_FFFE c m rs :
  get 0xFFFE 0 0 (mkSimulator c m rs) = default 0 (m !! Z.to_nat 0xFFFE).
Proof. reflexivity. Qed.

Lemma get_concrete_FFFF c m rs :
  get 0xFFFF 0 0 (mkSimulator c m rs) = default 0 (m !! Z.to_nat 0xFFFF).
Proof. reflexivity. Qed.

Lemma ToUint8_pred2_ne b : 0 <= b < 256 -> ToUint8 (b - 2) <> b.
Proof.
  intros H. unfold ToUint8. change (2 ^ 8) with 256.
  Z.to_euclidean_division_equations. lia.
Qed.

Lemma ToUint8_pred2_pred_ne b : ToUint8 (b - 2) <> ToUint8 (b - 1).
Proof.
  unfold ToUint8. change (2 ^ 8) with 256.
  Z.to_euclidean_division_equations. lia.
Qed.

(** What [set #pc] stores for a sum of the program counter: the two bytes of
    the sum reduced modulo 2^16. *)
Lemma set_pc_wraps v c m r0 r1 r2 r3 r4 r5 r6 :
  - 2 ^ 31 <= v < 2 ^ 31 ->
  exists p0 p1,
    0 <= p0 < 256 /\ 0 <= p1 < 256 /\ p1 * 256 + p0 = v mod 2 ^ 16
    /\ set_pc v (mkSimulator c m [r0; r1; r2; r3; r4; r5; r6])
       = mkSimulator c m [p0; p1; r2; r3; r4; r5; r6].
Proof.
  intros Hv. rewrite set_pc_concrete.
  exists (ToUint8 (band v 0xFF)), (ToUint8 (shr v 8)).
  split; [apply ToUint8_range|]. split; [apply ToUint8_range|].
  split; [|reflexivity].
  rewrite band_255, shr_8 by exact Hv.
  unfold ToUint8. change (2 ^ 8) with 256. change (2 ^ 16) with 65536.
  Z.to_euclidean_division_equations; lia.
Qed.

(** X12: BRK pushes the program counter plus 2 and the status register with the
    interrupt flag set, and jumps to the vector at $FFFE; the RTI that
    follows pops the three bytes back, so execution resumes two bytes past
    the BRK with the interrupt flag still set and the stack pointer where it
    was. *)
Theorem RTI_returns_from_BRK (s : Simulator) :
  well_formed s = true -> memory_bytes s = true ->
  exists s1 s2,
    exec 0x00 [] s = Normal s1
    /\ pc s1 = get 0xFFFF 0 0 s * 256 + get 0xFFFE 0 0 s
    /\ sp s1 = ToUint8 (sp s - 3)
    /\ truthy (interrupt s1) = true
    /\ exec 0x40 [] s1 = Normal s2
    /\ pc s2 = (pc s + 2) mod 2 ^ 16
    /\ sr s2 = bor (sr s) 0x04
    /\ drop 6 (registers s2) = drop 6 (registers s)
    /\ take 3 (drop 2 (registers s2)) = take 3 (drop 2 (registers s)).
Proof.
  intros Hwf Hmb.
  destruct (well_formed_inv s Hwf)
    as (c & m & r0 & r1 & r2 & r3 & r4 & r5 & r6 & ->
        & Hm & H0 & H1 & H2 & H3 & H4 & H5 & H6).
  change (2 ^ 16) with 65536 in Hm.
  unfold memory_bytes in Hmb. cbn [mem] in Hmb.
  pose proof (lookup_byte m (Z.to_nat 0xFFFE) Hmb) as Hlo.
  pose proof (lookup_byte m (Z.to_nat 0xFFFF) Hmb) as Hhi.
  rewrite exec_BRK. cbv zeta.
  rewrite inc_cycle_concrete, pc_word by assumption.
  destruct (set_pc_wraps (r1 * 256 + r0 + 2) (c + 1) m r0 r1 r2 r3 r4 r5 r6)
    as (p0 & p1 & Hp0 & Hp1 & Hp & ->); [lia|].
  rewrite pc_word, pc_hi by assumption.
  rewrite pushStackValue_concrete by exact H6.
  rewrite pc_word, pc_lo by assumption.
  rewrite pushStackValue_concrete by apply ToUint8_range.
  rewrite ToUint8_pred_pred.
  rewrite !sr_concrete, !set_sr_concrete, bor_4_byte by exact H5.
  rewrite !sr_concrete.
  rewrite !pushStackValue_concrete by apply ToUint8_range.
  rewrite get_concrete_FFFE, get_concrete_FFFF.
  assert (Hlen : forall a b c' x y z,
            length (<[a:=x]> (<[b:=y]> (<[c':=z]> m))) = length m)
    by (intros; rewrite !length_insert; reflexivity).
  pose proof (ToUint8_range (r6 - 1)) as Hr1.
  pose proof (ToUint8_range (r6 - 2)) as Hr2.
  pose proof (ToUint8_pred_ne r6 H6) as Hn1.
  pose proof (ToUint8_pred2_ne r6 H6) as Hn2.
  pose proof (ToUint8_pred2_pred_ne r6) as Hn3.
  rewrite !list_lookup_insert_ne by lia.
  rewrite bor_bytes_shl, set_pc_bytes by assumption.
  rewrite ToUint8_sub_l. replace (r6 - 2 - 1) with (r6 - 3) by lia.
  rewrite !(ToUint8_byte p0), !(ToUint8_byte p1) by assumption.
  rewrite (ToUint8_byte (bor r5 4))
    by (rewrite <- bor_4_byte by exact H5; apply ToUint8_range).
  eexists. eexists. split; [reflexivity|].
  rewrite pc_word by assumption. split; [reflexivity|].
  split; [reflexivity|].
  split; [apply (interrupt_bor_4 r5 H5)|].
  rewrite exec_RTI, inc_cycle_concrete.
  rewrite popStackValue_concrete by apply ToUint8_range.
  rewrite ToUint8_add_l. replace (r6 - 3 + 1) with (r6 - 2) by lia.
  rewrite list_lookup_insert_eq by (rewrite !length_insert; lia).
  cbn [default]. cbv zeta. rewrite set_sr_concrete.
  rewrite popStackValue_concrete by apply ToUint8_range.
  rewrite ToUint8_add_l. replace (r6 - 2 + 1) with (r6 - 1) by lia.
  rewrite list_lookup_insert_ne by lia.
  rewrite list_lookup_insert_eq by (rewrite !length_insert; lia).
  rewrite popStackValue_concrete by apply ToUint8_range.
  rewrite (ToUint8_pred_succ r6 H6).
  rewrite !list_lookup_insert_ne by lia.
  rewrite list_lookup_insert_eq by lia.
  cbn [default run_operation].
  rewrite bor_bytes_shl, set_pc_bytes by assumption.
  unfold id. rewrite bor_4_byte by exact H5.
  split; [reflexivity|]. rewrite !pc_word by assumption.
  split; [exact Hp|]. split; [reflexivity|]. split; reflexivity.
Qed.

Lemma RTI_returns_from_BRK_witness :
  let s := set_sp 0x01 (set_pc 0xFFFF new_Simulator) in
  exists s1 s2,
    exec 0x00 [] s = Normal s1
    /\ pc s1 = get 0xFFFF 0 0 s * 256 + get 0xFFFE 0 0 s
    /\ sp s1 = ToUint8 (sp s - 3)
    /\ truthy (interrupt s1) = true
    /\ exec 0x40 [] s1 = Normal s2
    /\ pc s2 = (pc s + 2) mod 2 ^ 16
    /\ sr s2 = bor (sr s) 0x04
    /\ drop 6 (registers s2) = drop 6 (registers s)
    /\ take 3 (drop 2 (registers s2)) = take 3 (drop 2 (registers s)).
Proof.
  intros s. apply (RTI_returns_from_BRK s).
  - vm_compute. reflexivity.
  - vm_compute. reflexivity.
Defined.

(** ** The status register *)

Lemma set_flag_concrete on off val c m r0 r1 r2 r3 r4 r5 r6 :
  set_flag on off val (mkSimulator c m [r0; r1; r2; r3; r4; r5; r6])
  = mkSimulator c m
      [r0; r1; r2; r3; r4; flag_update on off (truthy val) r5; r6].
Proof. unfold set_flag, flag_update. destruct (truthy val); reflexivity. Qed.

Lemma truthy_Number b : truthy (Number b) = b.
Proof. destruct b; reflexivity. Qed.

Lemma truthy_bit7 (v : Z) : 0 <= v < 256 -> truthy (band v 0x80) = (128 <=? v).
Proof.
  intros H. apply Bool.eqb_prop.
  apply (all_bytes (fun v => Bool.eqb (truthy (band v 0x80)) (128 <=? v)));
    [|exact H].
  vm_compute. reflexivity.
Qed.

Lemma flag_update_range on off b r : 0 <= flag_update on off b r < 256.
Proof. apply ToUint8_range. Qed.

(** The updates of N and then of Z by [#afterOperationActions]. *)
Lemma NZ_update (r : Z) (bn bz : bool) :
  0 <= r < 256 ->
  truthy (band (flag_update 0x02 0xFD bz (flag_update 0x80 0x7F bn r)) 0x02) = bz
  /\ truthy (band (flag_update 0x02 0xFD bz (flag_update 0x80 0x7F bn r)) 0x80) = bn
  /\ band (flag_update 0x02 0xFD bz (flag_update 0x80 0x7F bn r)) 0x7D
     = band r 0x7D.
Proof.
  intros H.
  assert (Hall : forall bn bz,
    all_below 256 (fun r =>
      Bool.eqb (truthy (band (flag_update 0x02 0xFD bz
                                (flag_update 0x80 0x7F bn r)) 0x02)) bz
      && Bool.eqb (truthy (band (flag_update 0x02 0xFD bz
                                   (flag_update 0x80 0x7F bn r)) 0x80)) bn
      && (band (flag_update 0x02 0xFD bz (flag_update 0x80 0x7F bn r)) 0x7D
          =? band r 0x7D)) = true)
    by (intros [] []; vm_compute; reflexivity).
  pose proof (all_bytes _ (Hall bn bz) r H) as E. cbv beta in E.
  apply andb_true_iff in E as [E E3]. apply andb_true_iff in E as [E1 E2].
  apply Bool.eqb_prop in E1, E2. apply Z.eqb_eq in E3. auto.
Qed.

Lemma flags_NZ_of_byte (r v : Z) :
  0 <= r < 256 -> 0 <= v < 256 ->
  flags_NZ
    (flag_update 0x02 0xFD (truthy (Number (v =? 0)))
       (flag_update 0x80 0x7F (truthy (band v 0x80)) r))
    r v.
Proof.
  intros Hr Hv. rewrite truthy_Number, truthy_bit7 by exact Hv.
  split; [apply flag_update_range|].
  exact (NZ_update r (128 <=? v) (v =? 0) Hr).
Qed.

(** ** Register writes on a register file given by its seven bytes *)

Lemma set_ac_concrete v c m r0 r1 r2 r3 r4 r5 r6 :
  set_ac v (mkSimulator c m [r0; r1; r2; r3; r4; r5; r6])
  = mkSimulator c m [r0; r1; ToUint8 v; r3; r4; r5; r6].
Proof. reflexivity. Qed.

Lemma set_x_concrete v c m r0 r1 r2 r3 r4 r5 r6 :
  set_x v (mkSimulator c m [r0; r1; r2; r3; r4; r5; r6])
  = mkSimulator c m [r0; r1; r2; ToUint8 v; r4; r5; r6].
Proof. reflexivity. Qed.

Lemma set_y_concrete v c m r0 r1 r2 r3 r4 r5 r6 :
  set_y v (mkSimulator c m [r0; r1; r2; r3; r4; r5; r6])
  = mkSimulator c m [r0; r1; r2; r3; ToUint8 v; r5; r6].
Proof. reflexivity. Qed.

Lemma ac_concrete c m r0 r1 r2 r3 r4 r5 r6 :
  ac (mkSimulator c m [r0; r1; r2; r3; r4; r5; r6]) = r2.
Proof. reflexivity. Qed.

Lemma x_concrete c m r0 r1 r2 r3 r4 r5 r6 :
  x (mkSimulator c m [r0; r1; r2; r3; r4; r5; r6]) = r3.
Proof. reflexivity. Qed.

Lemma y_concrete c m r0 r1 r2 r3 r4 r5 r6 :
  y (mkSimulator c m [r0; r1; r2; r3; r4; r5; r6]) = r4.
Proof. reflexivity. Qed.

Lemma sp_concrete c m r0 r1 r2 r3 r4 r5 r6 :
  sp (mkSimulator c m [r0; r1; r2; r3; r4; r5; r6]) = r6.
Proof. reflexivity. Qed.

Ltac concrete_registers :=
  repeat first
    [ rewrite inc_cycle_concrete | rewrite set_flag_concrete
    | rewrite set_ac_concrete | rewrite set_x_concrete
    | rewrite set_y_concrete | rewrite set_sr_concrete
    | rewrite ac_concrete | rewrite x_concrete | rewrite y_concrete
    | rewrite sr_concrete | rewrite sp_concrete ].

Ltac concrete :=
  cbn [run_operation fn0]; cbv zeta; concrete_registers;
  cbn [run_operation];
  unfold afterOperationActions, set_negative, set_zero, set_carry,
    set_overflow, set_decimal, set_interrupt;
  cbn [isNegative isZero isCarry isOverflow isSetter after before byte result
       default from_option];
  cbv zeta; concrete_registers; unfold id.

(** ** Loads *)

Lemma exec_LDY_immediate v s :
  exec 0xA0 [v] s = Normal (Mode.immediate Op.LDY v s).
Proof. reflexivity. Qed.

(** X13: an immediate load puts the operand in its register and sets Z and N from
    it; it changes nothing else. *)
Theorem load_sets_register_and_flags opcode (i : nat) (v : Z) (s : Simulator) :
  (opcode, i) ∈ loads ->
  well_formed s = true ->
  0 <= v < 256 ->
  exists s' f,
    exec opcode [v] s = Normal s'
    /\ registers s' = <[5%nat := f]> (<[i := v]> (registers s))
    /\ flags_NZ f (sr s) v
    /\ mem s' = mem s.
Proof.
  intros Hin Hwf Hv.
  destruct (well_formed_inv s Hwf)
    as (c & m & r0 & r1 & r2 & r3 & r4 & r5 & r6 & ->
        & Hm & H0 & H1 & H2 & H3 & H4 & H5 & H6).
  rewrite sr_concrete.
  pose proof (flags_NZ_of_byte r5 v H5 Hv) as Hf.
  unfold loads in Hin.
  repeat (apply elem_of_cons in Hin as [Hin|Hin]);
    [..|apply elem_of_nil in Hin; destruct Hin];
    injection Hin as -> ->.
  - rewrite exec_LDA_immediate. unfold Mode.immediate, Op.LDA. concrete.
    rewrite (ToUint8_byte v Hv).
    eexists. eexists. split; [reflexivity|]. split; [reflexivity|].
    split; [exact Hf|reflexivity].
  - rewrite exec_LDX_immediate. unfold Mode.immediate, Op.LDX. concrete.
    rewrite (ToUint8_byte v Hv).
    eexists. eexists. split; [reflexivity|]. split; [reflexivity|].
    split; [exact Hf|reflexivity].
  - rewrite exec_LDY_immediate. unfold Mode.immediate, Op.LDY. concrete.
    rewrite (ToUint8_byte v Hv).
    eexists. eexists. split; [reflexivity|]. split; [reflexivity|].
    split; [exact Hf|reflexivity].
Qed.

Lemma load_sets_register_and_flags_witness :
  exists s' f,
    exec 0xA2 [0x80] new_Simulator = Normal s'
    /\ registers s' = <[5%nat := f]> (<[3%nat := 0x80]> (registers new_Simulator))
    /\ flags_NZ f (sr new_Simulator) 0x80
    /\ mem s' = mem new_Simulator.
Proof.
  apply (load_sets_register_and_flags 0xA2 3 0x80 new_Simulator).
  - unfold loads. repeat constructor.
  - vm_compute. reflexivity.
  - lia.
Defined.

(** ** Transfers *)

Lemma exec_TAX s : exec 0xAA [] s = Normal (run_operation (fn0 Op.TAX (inc_cycle s))).
Proof. reflexivity. Qed.
Lemma exec_TAY s : exec 0xA8 [] s = Normal (run_operation (fn0 Op.TAY (inc_cycle s))).
Proof. reflexivity. Qed.
Lemma exec_TSX s : exec 0xBA [] s = Normal (run_operation (fn0 Op.TSX (inc_cycle s))).
Proof. reflexivity. Qed.
Lemma exec_TXA s : exec 0x8A [] s = Normal (run_operation (fn0 Op.TXA (inc_cycle s))).
Proof. reflexivity. Qed.
Lemma exec_TYA s : exec 0x98 [] s = Normal (run_operation (fn0 Op.TYA (inc_cycle s))).
Proof. reflexivity. Qed.

Lemma flags_NZ_of_nothing (r : Z) :
  0 <= r < 256 ->
  flags_NZ
    (flag_update 0x02 0xFD (truthy (Number (0 =? 0)))
       (flag_update 0x80 0x7F (truthy (band 0 0x80)) r))
    r 0.
Proof. intros Hr. apply flags_NZ_of_byte; [exact Hr|lia]. Qed.

(** X14: TAX, TAY, TSX, TXA and TYA copy the source register to the destination;
    their product has no [after] field, so the flags are set as for the
    byte 0 whatever was copied: Z is set and N is cleared. *)
Theorem transfer_copies_and_flags_as_for_zero
    opcode (src dst : nat) (s : Simulator) :
  (opcode, src, dst) ∈ transfers ->
  well_formed s = true ->
  exists s' f,
    exec opcode [] s = Normal s'
    /\ registers s' = <[5%nat := f]> (<[dst := reg src s]> (registers s))
    /\ flags_NZ f (sr s) 0
    /\ mem s' = mem s.
Proof.
  intros Hin Hwf.
  destruct (well_formed_inv s Hwf)
    as (c & m & r0 & r1 & r2 & r3 & r4 & r5 & r6 & ->
        & Hm & H0 & H1 & H2 & H3 & H4 & H5 & H6).
  rewrite sr_concrete.
  pose proof (flags_NZ_of_nothing r5 H5) as Hf.
  unfold transfers in Hin.
  repeat (apply elem_of_cons in Hin as [Hin|Hin]);
    [..|apply elem_of_nil in Hin; destruct Hin];
    injection Hin as -> -> ->.
  - rewrite exec_TAX. unfold Op.TAX. concrete. rewrite (ToUint8_byte r2 H2).
    eexists. eexists. split; [reflexivity|]. split; [reflexivity|].
    split; [exact Hf|reflexivity].
  - rewrite exec_TAY. unfold Op.TAY. concrete. rewrite (ToUint8_byte r2 H2).
    eexists. eexists. split; [reflexivity|]. split; [reflexivity|].
    split; [exact Hf|reflexivity].
  - rewrite exec_TSX. unfold Op.TSX. concrete. rewrite (ToUint8_byte r6 H6).
    eexists. eexists. split; [reflexivity|]. split; [reflexivity|].
    split; [exact Hf|reflexivity].
  - rewrite exec_TXA. unfold Op.TXA. concrete. rewrite (ToUint8_byte r3 H3).
    eexists. eexists. split; [reflexivity|]. split; [reflexivity|].
    split; [exact Hf|reflexivity].
  - rewrite exec_TYA. unfold Op.TYA. concrete. rewrite (ToUint8_byte r4 H4).
    eexists. eexists. split; [reflexivity|]. split; [reflexivity|].
    split; [exact Hf|reflexivity].
Qed.

Lemma transfer_copies_and_flags_as_for_zero_witness :
  let s := set_ac 0x80 new_Simulator in
  exists s' f,
    exec 0xAA [] s = Normal s'
    /\ registers s' = <[5%nat := f]> (<[3%nat := reg 2 s]> (registers s))
    /\ flags_NZ f (sr s) 0
    /\ mem s' = mem s.
Proof.
  intros s. apply (transfer_copies_and_flags_as_for_zero 0xAA 2 3 s).
  - unfold transfers. repeat constructor.
  - vm_compute. reflexivity.
Defined.

(** ** Increments and decrements of X and Y *)

Lemma exec_INX s : exec 0xE8 [] s = Normal (run_operation (fn0 Op.INX (inc_cycle s))).
Proof. reflexivity. Qed.
Lemma exec_INY s : exec 0xC8 [] s = Normal (run_operation (fn0 Op.INY (inc_cycle s))).
Proof. reflexivity. Qed.
Lemma exec_DEX s : exec 0xCA [] s = Normal (run_operation (fn0 Op.DEX (inc_cycle s))).
Proof. reflexivity. Qed.
Lemma exec_DEY s : exec 0x88 [] s = Normal (run_operation (fn0 Op.DEY (inc_cycle s))).
Proof. reflexivity. Qed.

(** X15: INX, INY, DEX and DEY add 1 or -1 to their register modulo 256 and set Z
    and N from the new value of the register. *)
Theorem stepper_wraps_and_sets_flags opcode (i : nat) (d : Z) (s : Simulator) :
  (opcode, i, d) ∈ steppers ->
  well_formed s = true ->
  exists s' f,
    exec opcode [] s = Normal s'
    /\ registers s'
       = <[5%nat := f]> (<[i := (reg i s + d) mod 256]> (registers s))
    /\ flags_NZ f (sr s) ((reg i s + d) mod 256)
    /\ mem s' = mem s.
Proof.
  intros Hin Hwf.
  destruct (well_formed_inv s Hwf)
    as (c & m & r0 & r1 & r2 & r3 & r4 & r5 & r6 & ->
        & Hm & H0 & H1 & H2 & H3 & H4 & H5 & H6).
  rewrite sr_concrete.
  assert (Hf : forall v, flags_NZ
            (flag_update 0x02 0xFD (truthy (Number (ToUint8 v =? 0)))
               (flag_update 0x80 0x7F (truthy (band (ToUint8 v) 0x80)) r5))
            r5 (ToUint8 v))
    by (intros v; apply flags_NZ_of_byte; [exact H5|apply ToUint8_range]).
  unfold steppers in Hin.
  repeat (apply elem_of_cons in Hin as [Hin|Hin]);
    [..|apply elem_of_nil in Hin; destruct Hin];
    injection Hin as -> -> ->.
  - rewrite exec_INX. unfold Op.INX. concrete.
    eexists. eexists. split; [reflexivity|]. split; [reflexivity|].
    split; [apply Hf|reflexivity].
  - rewrite exec_INY. unfold Op.INY. concrete.
    eexists. eexists. split; [reflexivity|]. split; [reflexivity|].
    split; [apply Hf|reflexivity].
  - rewrite exec_DEX. unfold Op.DEX. concrete.
    eexists. eexists. split; [reflexivity|]. split; [reflexivity|].
    split; [apply Hf|reflexivity].
  - rewrite exec_DEY. unfold Op.DEY. concrete.
    eexists. eexists. split; [reflexivity|]. split; [reflexivity|].
    split; [apply Hf|reflexivity].
Qed.

Lemma stepper_wraps_and_sets_flags_witness :
  let s := set_x 0xFF new_Simulator in
  exists s' f,
    exec 0xE8 [] s = Normal s'
    /\ registers s'
       = <[5%nat := f]> (<[3%nat := (reg 3 s + 1) mod 256]> (registers s))
    /\ flags_NZ f (sr s) ((reg 3 s + 1) mod 256)
    /\ mem s' = mem s.
Proof.
  intros s. apply (stepper_wraps_and_sets_flags 0xE8 3 1 s).
  - unfold steppers. repeat constructor.
  - vm_compute. reflexivity.
Defined.

(** ** Flag instructions *)

Lemma exec_CLC s : exec 0x18 [] s = Normal (run_operation (fn0 Op.CLC (inc_cycle s))).
Proof. reflexivity. Qed.
Lemma exec_SEC s : exec 0x38 [] s = Normal (run_operation (fn0 Op.SEC (inc_cycle s))).
Proof. reflexivity. Qed.
Lemma exec_CLD s : exec 0xD8 [] s = Normal (run_operation (fn0 Op.CLD (inc_cycle s))).
Proof. reflexivity. Qed.
Lemma exec_SED s : exec 0xF8 [] s = Normal (run_operation (fn0 Op.SED (inc_cycle s))).
Proof. reflexivity. Qed.
Lemma exec_CLI s : exec 0x58 [] s = Normal (run_operation (fn0 Op.CLI (inc_cycle s))).
Proof. reflexivity. Qed.
Lemma exec_SEI s : exec 0x78 [] s = Normal (run_operation (fn0 Op.SEI (inc_cycle s))).
Proof. reflexivity. Qed.
Lemma exec_CLV s : exec 0xB8 [] s = Normal (run_operation (fn0 Op.CLV (inc_cycle s))).
Proof. reflexivity. Qed.

(** On a byte, a flag setter sets or clears exactly the bit of its mask. *)
Lemma flag_update_bit (mask : Z) (b : bool) (r : Z) :
  mask ∈ [0x01; 0x02; 0x04; 0x08; 0x40; 0x80] ->
  0 <= r < 256 ->
  flag_update mask (255 - mask) b r = with_bit mask b r.
Proof.
  intros Hin Hr. apply Z.eqb_eq.
  assert (Hall : forall mask b,
    mask ∈ [0x01; 0x02; 0x04; 0x08; 0x40; 0x80] ->
    all_below 256 (fun r =>
      flag_update mask (255 - mask) b r =? with_bit mask b r) = true).
  { clear. intros mask b Hin.
    repeat (apply elem_of_cons in Hin as [->|Hin]);
      [..|apply elem_of_nil in Hin; destruct Hin];
      destruct b; vm_compute; reflexivity. }
  exact (all_bytes _ (Hall mask b Hin) r Hr).
Qed.

(** X16: CLC, SEC, CLD, SED, CLI, SEI and CLV set or clear the bit of their flag
    in the status register and change nothing else. *)
Theorem flag_instruction_changes_one_bit
    opcode (mask : Z) (v : bool) (s : Simulator) :
  (opcode, mask, v) ∈ flag_instructions ->
  well_formed s = true ->
  exists s',
    exec opcode [] s = Normal s'
    /\ registers s' = <[5%nat := with_bit mask v (sr s)]> (registers s)
    /\ mem s' = mem s.
Proof.
  intros Hin Hwf.
  destruct (well_formed_inv s Hwf)
    as (c & m & r0 & r1 & r2 & r3 & r4 & r5 & r6 & ->
        & Hm & H0 & H1 & H2 & H3 & H4 & H5 & H6).
  rewrite sr_concrete.
  assert (Hf : forall mask b,
            mask ∈ [0x01; 0x02; 0x04; 0x08; 0x40; 0x80] ->
            with_bit mask b r5 = flag_update mask (255 - mask) b r5)
    by (intros; symmetry; apply flag_update_bit; assumption).
  unfold flag_instructions in Hin.
  repeat (apply elem_of_cons in Hin as [Hin|Hin]);
    [..|apply elem_of_nil in Hin; destruct Hin];
    injection Hin as -> -> ->;
    rewrite Hf by (repeat constructor).
  - rewrite exec_CLC. unfold Op.CLC. concrete.
    eexists. split; [reflexivity|]. split; reflexivity.
  - rewrite exec_SEC. unfold Op.SEC. concrete.
    eexists. split; [reflexivity|]. split; reflexivity.
  - rewrite exec_CLD. unfold Op.CLD. concrete.
    eexists. split; [reflexivity|]. split; reflexivity.
  - rewrite exec_SED. unfold Op.SED. concrete.
    eexists. split; [reflexivity|]. split; reflexivity.
  - rewrite exec_CLI. unfold Op.CLI. concrete.
    eexists. split; [reflexivity|]. split; reflexivity.
  - rewrite exec_SEI. unfold Op.SEI. concrete.
    eexists. split; [reflexivity|]. split; reflexivity.
  - rewrite exec_CLV. unfold Op.CLV. concrete.
    eexists. split; [reflexivity|]. split; reflexivity.
Qed.

Lemma flag_instruction_changes_one_bit_witness :
  let s := set_sr 0xFF new_Simulator in
  exists s',
    exec 0xD8 [] s = Normal s'
    /\ registers s' = <[5%nat := with_bit 0x08 false (sr s)]> (registers s)
    /\ mem s' = mem s.
Proof.
  intros s. apply (flag_instruction_changes_one_bit 0xD8 0x08 false s).
  - unfold flag_instructions. repeat constructor.
  - vm_compute. reflexivity.
Defined.

(** ** Addition *)

Lemma exec_ADC_immediate v s :
  exec 0x69 [v] s = Normal (Mode.immediate Op.ADC v s).
Proof. reflexivity. Qed.

Lemma carry_concrete c m r0 r1 r2 r3 r4 r5 r6 :
  carry (mkSimulator c m [r0; r1; r2; r3; r4; r5; r6]) = band r5 0x01.
Proof. reflexivity. Qed.

Lemma band_1 (r : Z) : 0 <= r < 256 -> band r 0x01 = r mod 2.
Proof.
  intros H. apply Z.eqb_eq.
  apply (all_bytes (fun r => band r 0x01 =? r mod 2)); [|exact H].
  vm_compute. reflexivity.
Qed.

(** The four updates of [#afterOperationActions], in its order N, Z, C, V. *)
Lemma NZCV_update (r : Z) (bn bz bc bv : bool) :
  0 <= r < 256 ->
  let f := flag_update 0x40 0xBF bv
             (flag_update 0x01 0xFE bc
                (flag_update 0x02 0xFD bz (flag_update 0x80 0x7F bn r))) in
  truthy (band f 0x01) = bc /\ truthy (band f 0x02) = bz
  /\ truthy (band f 0x80) = bn /\ truthy (band f 0x40) = bv
  /\ band f 0x3C = band r 0x3C.
Proof.
  intros H. cbv zeta.
  assert (Hall : forall bn bz bc bv,
    all_below 256 (fun r =>
      let f := flag_update 0x40 0xBF bv
                 (flag_update 0x01 0xFE bc
                    (flag_update 0x02 0xFD bz (flag_update 0x80 0x7F bn r))) in
      Bool.eqb (truthy (band f 0x01)) bc && Bool.eqb (truthy (band f 0x02)) bz
      && Bool.eqb (truthy (band f 0x80)) bn
      && Bool.eqb (truthy (band f 0x40)) bv
      && (band f 0x3C =? band r 0x3C)) = true)
    by (intros [] [] [] []; vm_compute; reflexivity).
  pose proof (all_bytes _ (Hall bn bz bc bv) r H) as E. cbv beta zeta in E.
  apply andb_true_iff in E as [E E5]. apply andb_true_iff in E as [E E4].
  apply andb_true_iff in E as [E E3]. apply andb_true_iff in E as [E1 E2].
  apply Bool.eqb_prop in E1, E2, E3, E4. apply Z.eqb_eq in E5. auto.
Qed.

(** X17: ADC # adds the operand and the carry to the accumulator: the accumulator
    receives the sum modulo 256 and C the carry out of bit 7, so that
    A' + 256 C' = A + M + C; Z and N are set from the new accumulator; the
    flags I and D and bits 4 and 5 are left alone. *)
Theorem ADC_adds_with_carry (v : Z) (s : Simulator) :
  well_formed s = true ->
  0 <= v < 256 ->
  exists s' f,
    exec 0x69 [v] s = Normal s'
    /\ carry s = sr s mod 2
    /\ registers s'
       = <[5%nat := f]> (<[2%nat := (ac s + v + carry s) mod 256]> (registers s))
    /\ truthy (band f 0x01) = (255 <? ac s + v + carry s)
    /\ truthy (band f 0x02) = ((ac s + v + carry s) mod 256 =? 0)
    /\ truthy (band f 0x80) = (128 <=? (ac s + v + carry s) mod 256)
    /\ band f 0x3C = band (sr s) 0x3C
    /\ mem s' = mem s.
Proof.
  intros Hwf Hv.
  destruct (well_formed_inv s Hwf)
    as (c & m & r0 & r1 & r2 & r3 & r4 & r5 & r6 & ->
        & Hm & H0 & H1 & H2 & H3 & H4 & H5 & H6).
  rewrite sr_concrete, ac_concrete, carry_concrete.
  rewrite exec_ADC_immediate. unfold Mode.immediate, Op.ADC. concrete.
  rewrite carry_concrete.
  rewrite !truthy_Number, truthy_bit7 by apply ToUint8_range.
  match goal with
  | |- context [flag_update 64 191 ?bv (flag_update 1 254 ?bc
                  (flag_update 2 253 ?bz (flag_update 128 127 ?bn r5)))] =>
      destruct (NZCV_update r5 bn bz bc bv H5) as (E1 & E2 & E3 & _ & E5)
  end.
  eexists. eexists. split; [reflexivity|]. split; [apply band_1, H5|].
  split; [reflexivity|].
  split; [exact E1|]. split; [exact E2|]. split; [exact E3|].
  split; [exact E5|reflexivity].
Qed.

Lemma ADC_adds_with_carry_witness :
  let s := set_sr 0x01 (set_ac 0xFF new_Simulator) in
  exists s' f,
    exec 0x69 [0x01] s = Normal s'
    /\ carry s = sr s mod 2
    /\ registers s'
       = <[5%nat := f]> (<[2%nat := (ac s + 0x01 + carry s) mod 256]> (registers s))
    /\ truthy (band f 0x01) = (255 <? ac s + 0x01 + carry s)
    /\ truthy (band f 0x02) = ((ac s + 0x01 + carry s) mod 256 =? 0)
    /\ truthy (band f 0x80) = (128 <=? (ac s + 0x01 + carry s) mod 256)
    /\ band f 0x3C = band (sr s) 0x3C
    /\ mem s' = mem s.
Proof.
  intros s. apply (ADC_adds_with_carry 0x01 s).
  - vm_compute. reflexivity.
  - lia.
Defined.

(** ** Memory *)

Lemma at_index_store_other (a : list Z) i j v :
  i <> j -> Uint8Array.at_index (Uint8Array.store a i v) j = Uint8Array.at_index a j.
Proof.
  intros Hne. unfold Uint8Array.at_index, Uint8Array.store.
  destruct (Z.leb_spec 0 j); [|reflexivity].
  destruct (Z.leb_spec 0 i); [|reflexivity].
  apply list_lookup_insert_ne. lia.
Qed.

(** X18: A read after a write returns the byte written, reduced modulo 256, when
    it addresses the same cell, and what was there before otherwise: the
    write changes one cell of memory. *)
Theorem get_reads_what_set_stored
    (ll hh offset v ll' hh' offset' : Z) (s : Simulator) :
  well_formed s = true ->
  0 <= hh < 256 -> 0 <= ll + offset < 512 ->
  get ll' hh' offset' (set ll hh offset v s)
  = (if address ll' hh' offset' =? address ll hh offset
     then ToUint8 v else get ll' hh' offset' s)
  /\ registers (set ll hh offset v s) = registers s
  /\ length (mem (set ll hh offset v s)) = length (mem s).
Proof.
  intros Hwf Hhh Hlo.
  pose proof (address_in_memory ll hh offset Hhh Hlo) as Ha.
  assert (Hm : Z.of_nat (length (mem s)) = 2 ^ 16).
  { unfold well_formed in Hwf. rewrite !andb_true_iff, Z.eqb_eq in Hwf. tauto. }
  unfold get, set, set_mem. cbn [mem registers].
  split; [|split; [reflexivity|apply length_store]].
  destruct (Z.eqb_spec (address ll' hh' offset') (address ll hh offset))
    as [->|Hne].
  - rewrite at_index_store_same by lia. reflexivity.
  - rewrite at_index_store_other by congruence. reflexivity.
Qed.

Lemma get_reads_what_set_stored_witness :
  get 0x00 0x02 0x34 (set 0x34 0x02 0 0x1FF new_Simulator)
  = (if address 0x00 0x02 0x34 =? address 0x34 0x02 0
     then ToUint8 0x1FF else get 0x00 0x02 0x34 new_Simulator)
  /\ registers (set 0x34 0x02 0 0x1FF new_Simulator) = registers new_Simulator
  /\ length (mem (set 0x34 0x02 0 0x1FF new_Simulator))
     = length (mem new_Simulator).
Proof.
  apply (get_reads_what_set_stored 0x34 0x02 0 0x1FF 0x00 0x02 0x34
           new_Simulator).
  - vm_compute. reflexivity.
  - lia.
  - lia.
Defined.

Lemma fill_spec (start end_ v i : Z) (s : Simulator) :
  0 <= i < Z.of_nat (length (mem s)) ->
  Uint8Array.at_index (mem (fill start end_ v s)) i
  = (if (Uint8Array.relative (Z.of_nat (length (mem s))) start <=? i)
        && (i <? Uint8Array.relative (Z.of_nat (length (mem s))) end_)
     then Some (ToUint8 v) else Uint8Array.at_index (mem s) i)
  /\ registers (fill start end_ v s) = registers s
  /\ length (mem (fill start end_ v s)) = length (mem s).
Proof.
  intros Hi. split; [|split; [reflexivity|apply length_fill]].
  unfold fill, set_mem, Uint8Array.fill. cbn [mem]. cbv zeta.
  set (len := Z.of_nat (length (mem s))) in *.
  assert (Hk : 0 <= Uint8Array.relative len start <= len)
    by (unfold Uint8Array.relative; destruct (Z.ltb_spec start 0); lia).
  assert (Hf : 0 <= Uint8Array.relative len end_ <= len)
    by (unfold Uint8Array.relative; destruct (Z.ltb_spec end_ 0); lia).
  set (k := Uint8Array.relative len start) in *.
  set (final := Uint8Array.relative len end_) in *.
  unfold Uint8Array.at_index. destruct (Z.leb_spec 0 i) as [_|]; [|lia].
  assert (Htake : length (take (Z.to_nat k) (mem s)) = Z.to_nat k)
    by (rewrite length_take; lia).
  destruct (Z.leb_spec k i) as [Hki|Hki]; cbn [andb].
  - destruct (Z.ltb_spec i final) as [Hif|Hif].
    + rewrite lookup_app_r by lia.
      rewrite lookup_app_l by (rewrite length_replicate; lia).
      apply lookup_replicate_2. lia.
    + rewrite lookup_app_r by lia.
      rewrite lookup_app_r by (rewrite length_replicate; lia).
      rewrite lookup_drop, length_replicate, Htake. f_equal. lia.
  - rewrite lookup_app_l by lia. apply lookup_take_lt. lia.
Qed.

(** X19: [fill] stores the byte in the cells from [start] up to, not including,
    [end], and leaves the other cells alone; a negative bound counts from the
    end of memory and a bound past the end is clamped, as [relative] has
    it, and nothing is stored when the range is empty. *)
Theorem fill_stores_in_the_half_open_range
    (start end_ v i : Z) (s : Simulator) :
  0 <= i < Z.of_nat (length (mem s)) ->
  Uint8Array.at_index (mem (fill start end_ v s)) i
  = (if (Uint8Array.relative (Z.of_nat (length (mem s))) start <=? i)
        && (i <? Uint8Array.relative (Z.of_nat (length (mem s))) end_)
     then Some (ToUint8 v) else Uint8Array.at_index (mem s) i)
  /\ registers (fill start end_ v s) = registers s
  /\ length (mem (fill start end_ v s)) = length (mem s).
Proof. apply fill_spec. Qed.

Lemma fill_stores_in_the_half_open_range_witness :
  Uint8Array.at_index (mem (fill (-16) 0x20000 0x1FF new_Simulator)) 0xFFF0
  = (if (Uint8Array.relative (Z.of_nat (length (mem new_Simulator))) (-16)
         <=? 0xFFF0)
        && (0xFFF0 <? Uint8Array.relative
                        (Z.of_nat (length (mem new_Simulator))) 0x20000)
     then Some (ToUint8 0x1FF)
     else Uint8Array.at_index (mem new_Simulator) 0xFFF0)
  /\ registers (fill (-16) 0x20000 0x1FF new_Simulator)
     = registers new_Simulator
  /\ length (mem (fill (-16) 0x20000 0x1FF new_Simulator))
     = length (mem new_Simulator).
Proof.
  apply (fill_stores_in_the_half_open_range (-16) 0x20000 0x1FF 0xFFF0
           new_Simulator).
  vm_compute. split; [discriminate|reflexivity].
Defined.

(** ** The load of a file *)

Lemma fill_plain (start end_ v i : Z) (s : Simulator) :
  Z.of_nat (length (mem s)) = 0x10000 ->
  0 <= start <= 0x10000 -> 0 <= end_ <= 0x10000 ->
  0 <= i < 0x10000 ->
  Uint8Array.at_index (mem (fill start end_ v s)) i
  = (if (start <=? i) && (i <? end_)
     then Some (ToUint8 v) else Uint8Array.at_index (mem s) i).
Proof.
  intros Hm Hs He Hi.
  destruct (fill_spec start end_ v i s) as (E & _); [lia|].
  rewrite E, Hm. unfold Uint8Array.relative.
  destruct (Z.ltb_spec start 0); [lia|]. destruct (Z.ltb_spec end_ 0); [lia|].
  rewrite !Z.min_l by lia. reflexivity.
Qed.

Lemma length_mem_fill start end_ v s :
  length (mem (fill start end_ v s)) = length (mem s).
Proof. unfold fill, set_mem. cbn [mem]. apply length_fill. Qed.

Lemma cycle_set_flag on off v s : cycle (set_flag on off v s) = cycle s.
Proof. unfold set_flag. destruct (truthy v); reflexivity. Qed.

Lemma cycle_afterOperationActions p s :
  cycle (afterOperationActions p s) = cycle s.
Proof.
  unfold afterOperationActions, set_negative, set_zero, set_carry, set_overflow.
  destruct (isNegative p), (isZero p), (isCarry p), (isOverflow p);
    rewrite ?cycle_set_flag; reflexivity.
Qed.

Lemma pc_set_mem m s : pc (set_mem m s) = pc s.
Proof. unfold pc. rewrite !reg_set_mem. reflexivity. Qed.

Lemma well_formed_set_mem m s :
  length m = length (mem s) -> well_formed (set_mem m s) = well_formed s.
Proof. intros H. unfold well_formed, set_mem. cbn [mem registers]. rewrite H. reflexivity. Qed.

Lemma well_formed_fill start end_ v s :
  well_formed (fill start end_ v s) = well_formed s.
Proof. unfold fill. apply well_formed_set_mem, length_fill. Qed.

(** X20: when the body of the file fits in memory above its load address, [run]
    returns: it keeps the file, leaves the program counter at the init
    address, counts three cycles (two loads and a jump), stores the body at
    consecutive addresses from the load address, and outside the body leaves
    $40 at $4017, $0F at $4015, zeros in $0000-$07FF, $4000-$4013 and
    $6000-$7FFF, and every other cell as it was. *)
Theorem run_loads_the_file (d : list Z) (r : Runner) :
  well_formed (simulator r) = true ->
  0 <= byte_at d 8 < 256 -> 0 <= byte_at d 9 < 256 ->
  0 <= byte_at d 10 < 256 -> 0 <= byte_at d 11 < 256 ->
  byte_at d 9 * 256 + byte_at d 8 + Z.of_nat (length (drop (Z.to_nat 0x80) d))
    <= 0x10000 ->
  exists r',
    run d r = Normal r'
    /\ data r' = Some d /\ inited r' = inited r
    /\ pc (simulator r') = byte_at d 11 * 256 + byte_at d 10
    /\ cycle (simulator r') = cycle (simulator r) + 3
    /\ (forall k b, drop (Z.to_nat 0x80) d !! k = Some b ->
          Uint8Array.at_index (mem (simulator r'))
            (byte_at d 9 * 256 + byte_at d 8 + Z.of_nat k)
          = Some (ToUint8 b))
    /\ (forall j, 0 <= j < 0x10000 ->
          j < byte_at d 9 * 256 + byte_at d 8
          \/ byte_at d 9 * 256 + byte_at d 8
             + Z.of_nat (length (drop (Z.to_nat 0x80) d)) <= j ->
          Uint8Array.at_index (mem (simulator r')) j
          = cell_after_load (mem (simulator r)) j).
Proof.
  intros Hwf H8 H9 H10 H11 Hfit.
  assert (Hm : Z.of_nat (length (mem (simulator r))) = 0x10000).
  { unfold well_formed in Hwf. rewrite !andb_true_iff, Z.eqb_eq in Hwf. tauto. }
  unfold run. rewrite exec_LDA_immediate, bind_Normal.
  rewrite exec_LDX_immediate, bind_Normal. cbv zeta.
  set (s2 := Mode.immediate Op.LDX _ (Mode.immediate Op.LDA _ (simulator r))).
  assert (Hm2 : mem s2 = mem (simulator r))
    by (unfold s2; rewrite mem_immediate_LDX, mem_immediate_LDA; reflexivity).
  assert (Hc2 : cycle s2 = cycle (simulator r) + 2).
  { unfold s2, Mode.immediate, Op.LDX, Op.LDA. cbv zeta.
    rewrite !cycle_afterOperationActions.
    unfold set_x, set_ac, set_reg, inc_cycle. cbn [cycle].
    rewrite !cycle_afterOperationActions. cbn [cycle]. lia. }
  set (s3 := fill 0x4000 0x4014 0 (fill 0x6000 0x8000 0 (fill 0x0000 0x0800 0 s2))).
  assert (Hl3 : Z.of_nat (length (mem s3)) = 0x10000)
    by (unfold s3; rewrite !length_mem_fill, Hm2; exact Hm).
  assert (Hc3 : cycle s3 = cycle (simulator r) + 2) by exact Hc2.
  assert (H3 : forall j, 0 <= j < 0x10000 ->
            Uint8Array.at_index (mem s3) j
            = if (0x4000 <=? j) && (j <? 0x4014) then Some 0
              else if (0x6000 <=? j) && (j <? 0x8000) then Some 0
              else if (0x0000 <=? j) && (j <? 0x0800) then Some 0
              else Uint8Array.at_index (mem (simulator r)) j).
  { intros j Hj. unfold s3.
    rewrite fill_plain by (rewrite ?length_mem_fill, ?Hm2; lia || exact Hm).
    rewrite fill_plain by (rewrite ?length_mem_fill, ?Hm2; lia || exact Hm).
    rewrite fill_plain by (rewrite ?length_mem_fill, ?Hm2; lia || exact Hm).
    rewrite Hm2. reflexivity. }
  destruct (set_from_fits (mem s3) [0x0F] 0x4015) as (m4 & Hset & Hl4 & Hin4 & Hout4);
    [lia | cbn [length]; lia |].
  assert (Hw : write [0x0F] 0x4015 s3 = Normal (set_mem m4 s3))
    by (unfold write; rewrite Hset; reflexivity).
  rewrite Hw, bind_Normal, exec_JMP, bind_Normal.
  rewrite bor_bytes_shl, bor_shl_bytes by assumption.
  (* the state before the copy of the body *)
  assert (Hwf2 : well_formed s2 = true).
  { destruct (exec_frame 0xA9 _ [byte_at d 7 + 15 - 1] (simulator r)
                (fun s => well_formed s = true) (cycle (simulator r))
                dispatch_LDA_immediate)
      as (s1 & E1 & _ & Hwf1);
      [cbn; lia | apply Kept_weaken, Kept_well_formed | |].
    { split; [reflexivity|exact Hwf]. }
    rewrite exec_LDA_immediate in E1. injection E1 as <-.
    destruct (exec_frame 0xA2 _
                [if truthy (band (byte_at d 122) 128) then 1 else 0]
                (Mode.immediate Op.LDA (byte_at d 7 + 15 - 1) (simulator r))
                (fun s => well_formed s = true)
                (cycle (Mode.immediate Op.LDA (byte_at d 7 + 15 - 1)
                          (simulator r)))
                dispatch_LDX_immediate)
      as (s2' & E2 & _ & Hwf2);
      [cbn; lia | apply Kept_weaken, Kept_well_formed | |].
    { split; [reflexivity|exact Hwf1]. }
    rewrite exec_LDX_immediate in E2. injection E2 as <-. exact Hwf2. }
  assert (Hwf3 : well_formed s3 = true).
  { unfold s3. rewrite !well_formed_fill. exact Hwf2. }
  set (s5 := inc_cycle (set 23 64 0 64 (set_mem m4 s3))).
  assert (Hwf5 : well_formed s5 = true).
  { unfold s5. apply (kept_inc_cycle _ _ Kept_well_formed).
    unfold set. apply (kept_store _ _ Kept_well_formed).
    rewrite well_formed_set_mem by exact Hl4. exact Hwf3. }
  assert (Hm5 : mem s5 = Uint8Array.store m4 0x4017 0x40) by reflexivity.
  assert (Hc5 : cycle s5 = cycle (simulator r) + 3).
  { unfold s5. rewrite cycle_inc_cycle. unfold set, set_mem. cbn [cycle].
    rewrite Hc3. lia. }
  destruct (set_pc_word (byte_at d 11 * 256 + byte_at d 10) s5 Hwf5)
    as (Ep & _ & _ & _ & _ & _ & Em); [clear - H10 H11; lia|].
  set (s6 := set_pc (byte_at d 11 * 256 + byte_at d 10) s5) in *.
  assert (Hl6 : Z.of_nat (length (mem s6)) = 0x10000)
    by (rewrite Em, Hm5, length_store, Hl4; exact Hl3).
  destruct (set_from_fits (mem s6) (drop (Z.to_nat 0x80) d)
              (byte_at d 9 * 256 + byte_at d 8))
    as (m7 & Hset7 & Hl7 & Hin7 & Hout7); [clear - H8 H9; lia | lia |].
  unfold write. rewrite Hset7, bind_Normal.
  eexists. split; [reflexivity|]. cbn [simulator data inited].
  split; [reflexivity|]. split; [reflexivity|].
  split.
  { rewrite pc_set_mem, Ep.
    apply Z.mod_small. clear - H10 H11. lia. }
  split.
  { unfold set_mem. cbn [cycle]. unfold s6. rewrite cycle_set_pc. exact Hc5. }
  split.
  { intros k b Hk. unfold set_mem. cbn [mem]. apply Hin7, Hk. }
  intros j Hj Hout. unfold set_mem. cbn [mem].
  rewrite Hout7 by exact Hout. rewrite Em, Hm5.
  unfold cell_after_load.
  destruct (Z.eqb_spec j 0x4017) as [->|Hn17].
  { rewrite at_index_store_same by lia. reflexivity. }
  rewrite at_index_store_other by congruence.
  destruct (Z.eqb_spec j 0x4015) as [->|Hn15].
  { apply (Hin4 0%nat 0x0F). reflexivity. }
  rewrite Hout4 by (cbn [length]; lia).
  apply H3, Hj.
Qed.

Lemma run_loads_the_file_witness :
  let d := nsf_file 0x01 0x00 0xF0 0xFF [0xA9; 0x05; 0x60] in
  exists r',
    run d new_Runner = Normal r'
    /\ data r' = Some d /\ inited r' = inited new_Runner
    /\ pc (simulator r') = byte_at d 11 * 256 + byte_at d 10
    /\ cycle (simulator r') = cycle (simulator new_Runner) + 3
    /\ (forall k b, drop (Z.to_nat 0x80) d !! k = Some b ->
          Uint8Array.at_index (mem (simulator r'))
            (byte_at d 9 * 256 + byte_at d 8 + Z.of_nat k)
          = Some (ToUint8 b))
    /\ (forall j, 0 <= j < 0x10000 ->
          j < byte_at d 9 * 256 + byte_at d 8
          \/ byte_at d 9 * 256 + byte_at d 8
             + Z.of_nat (length (drop (Z.to_nat 0x80) d)) <= j ->
          Uint8Array.at_index (mem (simulator r')) j
          = cell_after_load (mem (simulator new_Runner)) j).
Proof.
  intros d. apply (run_loads_the_file d new_Runner).
  - vm_compute. reflexivity.
  - replace (byte_at d 8) with 0xF0 by (vm_compute; reflexivity). lia.
  - replace (byte_at d 9) with 0xFF by (vm_compute; reflexivity). lia.
  - replace (byte_at d 10) with 0x00 by (vm_compute; reflexivity). lia.
  - replace (byte_at d 11) with 0x80 by (vm_compute; reflexivity). lia.
  - replace (byte_at d 8) with 0xF0 by (vm_compute; reflexivity).
    replace (byte_at d 9) with 0xFF by (vm_compute; reflexivity).
    replace (length (drop (Z.to_nat 0x80) d)) with 3%nat
      by (vm_compute; reflexivity).
    lia.
Defined.

(** ** Stores *)

Lemma set_concrete ll hh offset v c m rs :
  0 <= address ll hh offset ->
  set ll hh offset v (mkSimulator c m rs)
  = mkSimulator c (<[Z.to_nat (address ll hh offset) := ToUint8 v]> m) rs.
Proof.
  intros H. unfold set, set_mem, Uint8Array.store. cbn [mem cycle registers].
  destruct (Z.leb_spec 0 (address ll hh offset)); [reflexivity|lia].
Qed.

Lemma address_absolute ll hh :
  0 <= ll < 256 -> 0 <= hh < 256 -> address ll hh 0 = hh * 256 + ll.
Proof.
  intros Hll Hhh. unfold address. rewrite Z.add_0_r.
  apply bor_shl_bytes; assumption.
Qed.

Lemma address_zero_page ll : 0 <= ll < 256 -> address ll 0 0 = ll.
Proof. intros H. rewrite address_zeropage by lia. lia. Qed.

Lemma afterOperationActions_none r b a y s :
  afterOperationActions
    {| result := r; isOverflow := false; isZero := false; isNegative := false;
       isCarry := false; isSetter := true;
       before := b; after := a; byte := y |} s = s.
Proof. reflexivity. Qed.

Lemma exec_STA_zeropage ll s : exec 0x85 [ll] s = Normal (Mode.zeropage Op.STA ll s).
Proof. reflexivity. Qed.
Lemma exec_STX_zeropage ll s : exec 0x86 [ll] s = Normal (Mode.zeropage Op.STX ll s).
Proof. reflexivity. Qed.
Lemma exec_STY_zeropage ll s : exec 0x84 [ll] s = Normal (Mode.zeropage Op.STY ll s).
Proof. reflexivity. Qed.
Lemma exec_STA_absolute ll hh s :
  exec 0x8D [ll; hh] s = Normal (Mode.absolute Op.STA ll hh s).
Proof. reflexivity. Qed.
Lemma exec_STX_absolute ll hh s :
  exec 0x8E [ll; hh] s = Normal (Mode.absolute Op.STX ll hh s).
Proof. reflexivity. Qed.
Lemma exec_STY_absolute ll hh s :
  exec 0x8C [ll; hh] s = Normal (Mode.absolute Op.STY ll hh s).
Proof. reflexivity. Qed.

Ltac store_case :=
  unfold Mode.zeropage, Mode.absolute, Mode.finish, Op.STA, Op.STX, Op.STY;
  cbv zeta; cbn [isSetter result];
  rewrite afterOperationActions_none, inc_cycle_concrete;
  rewrite ?ac_concrete, ?x_concrete, ?y_concrete.

(** X21: STA, STX and STY with a zero-page or an absolute address store their
    register in the cell addressed and change nothing else: no register, no
    flag, no other cell. *)
Theorem store_writes_the_register
    opcode (i : nat) (absolute : bool) (ll hh : Z) (s : Simulator) :
  (opcode, i, absolute) ∈ stores ->
  well_formed s = true ->
  0 <= ll < 256 -> 0 <= hh < 256 ->
  exists s',
    exec opcode (store_operands absolute ll hh) s = Normal s'
    /\ registers s' = registers s
    /\ mem s' = <[Z.to_nat (store_address absolute ll hh) := reg i s]> (mem s).
Proof.
  intros Hin Hwf Hll Hhh.
  destruct (well_formed_inv s Hwf)
    as (c & m & r0 & r1 & r2 & r3 & r4 & r5 & r6 & ->
        & Hm & H0 & H1 & H2 & H3 & H4 & H5 & H6).
  pose proof (address_zero_page ll Hll) as Ez.
  pose proof (address_absolute ll hh Hll Hhh) as Ea.
  unfold stores in Hin.
  repeat (apply elem_of_cons in Hin as [Hin|Hin]);
    [..|apply elem_of_nil in Hin; destruct Hin];
    injection Hin as -> -> ->; cbn [store_operands store_address].
  - rewrite exec_STA_zeropage. store_case.
    rewrite set_concrete, Ez, (ToUint8_byte r2) by lia.
    eexists. split; [reflexivity|]. split; reflexivity.
  - rewrite exec_STX_zeropage. store_case.
    rewrite set_concrete, Ez, (ToUint8_byte r3) by lia.
    eexists. split; [reflexivity|]. split; reflexivity.
  - rewrite exec_STY_zeropage. store_case.
    rewrite set_concrete, Ez, (ToUint8_byte r4) by lia.
    eexists. split; [reflexivity|]. split; reflexivity.
  - rewrite exec_STA_absolute. store_case.
    rewrite set_concrete, Ea, (ToUint8_byte r2) by lia.
    eexists. split; [reflexivity|]. split; reflexivity.
  - rewrite exec_STX_absolute. store_case.
    rewrite set_concrete, Ea, (ToUint8_byte r3) by lia.
    eexists. split; [reflexivity|]. split; reflexivity.
  - rewrite exec_STY_absolute. store_case.
    rewrite set_concrete, Ea, (ToUint8_byte r4) by lia.
    eexists. split; [reflexivity|]. split; reflexivity.
Qed.

Lemma store_writes_the_register_witness :
  let s := set_x 0x42 new_Simulator in
  exists s',
    exec 0x8E (store_operands true 0x34 0x12) s = Normal s'
    /\ registers s' = registers s
    /\ mem s' = <[Z.to_nat (store_address true 0x34 0x12) := reg 3 s]> (mem s).
Proof.
  intros s. apply (store_writes_the_register 0x8E 3 true 0x34 0x12 s).
  - unfold stores. repeat constructor.
  - vm_compute. reflexivity.
  - lia.
  - lia.
Defined.

(** ** Shifts and rotations of the accumulator *)

Lemma exec_ASL_A s : exec 0x0A [] s = Normal (Mode.accumulator Op.ASL s).
Proof. reflexivity. Qed.
Lemma exec_LSR_A s : exec 0x4A [] s = Normal (Mode.accumulator Op.LSR s).
Proof. reflexivity. Qed.
Lemma exec_ROL_A s : exec 0x2A [] s = Normal (Mode.accumulator Op.ROL s).
Proof. reflexivity. Qed.
Lemma exec_ROR_A s : exec 0x6A [] s = Normal (Mode.accumulator Op.ROR s).
Proof. reflexivity. Qed.

Lemma NZC_update (r : Z) (bn bz bc : bool) :
  0 <= r < 256 ->
  let f := flag_update 0x01 0xFE bc
             (flag_update 0x02 0xFD bz (flag_update 0x80 0x7F bn r)) in
  truthy (band f 0x01) = bc /\ truthy (band f 0x02) = bz
  /\ truthy (band f 0x80) = bn /\ band f 0x7C = band r 0x7C.
Proof.
  intros H. cbv zeta.
  assert (Hall : forall bn bz bc,
    all_below 256 (fun r =>
      let f := flag_update 0x01 0xFE bc
                 (flag_update 0x02 0xFD bz (flag_update 0x80 0x7F bn r)) in
      Bool.eqb (truthy (band f 0x01)) bc && Bool.eqb (truthy (band f 0x02)) bz
      && Bool.eqb (truthy (band f 0x80)) bn
      && (band f 0x7C =? band r 0x7C)) = true)
    by (intros [] [] []; vm_compute; reflexivity).
  pose proof (all_bytes _ (Hall bn bz bc) r H) as E. cbv beta zeta in E.
  apply andb_true_iff in E as [E E4].
  apply andb_true_iff in E as [E E3]. apply andb_true_iff in E as [E1 E2].
  apply Bool.eqb_prop in E1, E2, E3. apply Z.eqb_eq in E4. auto.
Qed.

Lemma CNZ_update (r : Z) (bn bz bc : bool) :
  0 <= r < 256 ->
  let f := flag_update 0x02 0xFD bz
             (flag_update 0x80 0x7F bn (flag_update 0x01 0xFE bc r)) in
  truthy (band f 0x01) = bc /\ truthy (band f 0x02) = bz
  /\ truthy (band f 0x80) = bn /\ band f 0x7C = band r 0x7C.
Proof.
  intros H. cbv zeta.
  assert (Hall : forall bn bz bc,
    all_below 256 (fun r =>
      let f := flag_update 0x02 0xFD bz
                 (flag_update 0x80 0x7F bn (flag_update 0x01 0xFE bc r)) in
      Bool.eqb (truthy (band f 0x01)) bc && Bool.eqb (truthy (band f 0x02)) bz
      && Bool.eqb (truthy (band f 0x80)) bn
      && (band f 0x7C =? band r 0x7C)) = true)
    by (intros [] [] []; vm_compute; reflexivity).
  pose proof (all_bytes _ (Hall bn bz bc) r H) as E. cbv beta zeta in E.
  apply andb_true_iff in E as [E E4].
  apply andb_true_iff in E as [E E3]. apply andb_true_iff in E as [E1 E2].
  apply Bool.eqb_prop in E1, E2, E3. apply Z.eqb_eq in E4. auto.
Qed.

Lemma shift_left_byte (a c : Z) :
  0 <= a < 256 -> c = 0 \/ c = 1 ->
  bor (shl a 1) c = 2 * a + c /\ shl a 1 = 2 * a.
Proof.
  intros Ha Hc.
  assert (Hall : forall c, c = 0 \/ c = 1 ->
    all_below 256 (fun a =>
      (bor (shl a 1) c =? 2 * a + c) && (shl a 1 =? 2 * a)) = true)
    by (intros ? [->| ->]; vm_compute; reflexivity).
  pose proof (all_bytes _ (Hall c Hc) a Ha) as E. cbv beta in E.
  apply andb_true_iff in E as [E1 E2]. apply Z.eqb_eq in E1, E2. auto.
Qed.

Lemma shift_right_byte (a c : Z) :
  0 <= a < 256 -> c = 0 \/ c = 1 ->
  bor (shr a 1) (shl c 7) = (a + 256 * c) / 2 /\ shr a 1 = a / 2
  /\ truthy (band a 1) = (a mod 2 =? 1).
Proof.
  intros Ha Hc.
  assert (Hall : forall c, c = 0 \/ c = 1 ->
    all_below 256 (fun a =>
      (bor (shr a 1) (shl c 7) =? (a + 256 * c) / 2) && (shr a 1 =? a / 2)
      && Bool.eqb (truthy (band a 1)) (a mod 2 =? 1)) = true)
    by (intros ? [->| ->]; vm_compute; reflexivity).
  pose proof (all_bytes _ (Hall c Hc) a Ha) as E. cbv beta in E.
  apply andb_true_iff in E as [E E3]. apply andb_true_iff in E as [E1 E2].
  apply Z.eqb_eq in E1, E2. apply Bool.eqb_prop in E3. auto.
Qed.

Lemma carry_bit (r : Z) : 0 <= r < 256 -> band r 0x01 = 0 \/ band r 0x01 = 1.
Proof.
  intros H. rewrite band_1 by exact H.
  Z.to_euclidean_division_equations. lia.
Qed.

Lemma ToUint8_mod z : ToUint8 z = z mod 256.
Proof. reflexivity. Qed.

Lemma mod_256_range z : 0 <= z mod 256 < 256.
Proof. apply Z.mod_pos_bound. lia. Qed.

Lemma half_range a c : 0 <= a < 256 -> c = 0 \/ c = 1 -> 0 <= (a + 256 * c) / 2 < 256.
Proof. intros Ha Hc. Z.to_euclidean_division_equations. lia. Qed.

(** X22: ASL, LSR, ROL and ROR on the accumulator shift it by one bit: to the
    left, bit 7 goes to the carry and the accumulator becomes
    (2 A + c) mod 256; to the right, bit 0 goes to the carry and the
    accumulator becomes (A + 256 c) / 2; the bit c shifted in is the carry
    for the rotations and 0 for the shifts.  Z and N are set from the new
    accumulator and nothing else changes. *)
Theorem accumulator_shift_moves_one_bit
    opcode (left rotate : bool) (s : Simulator) :
  (opcode, left, rotate) ∈ shifts ->
  well_formed s = true ->
  exists s' f,
    exec opcode [] s = Normal s'
    /\ registers s'
       = <[5%nat := f]>
           (<[2%nat := shifted left (ac s) (if rotate then carry s else 0)]>
              (registers s))
    /\ truthy (band f 0x01)
       = shifted_out left (ac s) (if rotate then carry s else 0)
    /\ truthy (band f 0x02)
       = (shifted left (ac s) (if rotate then carry s else 0) =? 0)
    /\ truthy (band f 0x80)
       = (128 <=? shifted left (ac s) (if rotate then carry s else 0))
    /\ band f 0x7C = band (sr s) 0x7C
    /\ mem s' = mem s.
Proof.
  intros Hin Hwf.
  destruct (well_formed_inv s Hwf)
    as (c & m & r0 & r1 & r2 & r3 & r4 & r5 & r6 & ->
        & Hm & H0 & H1 & H2 & H3 & H4 & H5 & H6).
  rewrite sr_concrete, ac_concrete, carry_concrete.
  pose proof (carry_bit r5 H5) as Hc.
  unfold shifts in Hin.
  repeat (apply elem_of_cons in Hin as [Hin|Hin]);
    [..|apply elem_of_nil in Hin; destruct Hin];
    injection Hin as -> -> ->; cbn [shifted shifted_out].
  - rewrite exec_ASL_A. unfold Mode.accumulator, Mode.finish, Op.ASL.
    cbv zeta. cbn [isSetter result]. concrete.
    destruct (shift_left_byte r2 0 H2 (or_introl eq_refl)) as (_ & E).
    rewrite E, Z.add_0_r, band_255, !truthy_Number, ToUint8_mod by lia.
    rewrite truthy_bit7 by apply mod_256_range.
    match goal with
    | |- context [flag_update 1 254 ?bc
                    (flag_update 2 253 ?bz (flag_update 128 127 ?bn r5))] =>
        destruct (NZC_update r5 bn bz bc H5) as (E1 & E2 & E3 & E4)
    end.
    eexists. eexists. split; [reflexivity|]. split; [reflexivity|].
    split; [exact E1|]. split; [exact E2|]. split; [exact E3|].
    split; [exact E4|reflexivity].
  - rewrite exec_LSR_A. unfold Mode.accumulator, Mode.finish, Op.LSR.
    cbv zeta. cbn [isSetter result]. concrete.
    destruct (shift_right_byte r2 0 H2 (or_introl eq_refl)) as (_ & E & Eo).
    rewrite !E, Z.mul_0_r, Z.add_0_r, !truthy_Number, Eo.
    rewrite truthy_bit7, ToUint8_byte
      by (clear - H2; Z.to_euclidean_division_equations; lia).
    match goal with
    | |- context [flag_update 2 253 ?bz
                    (flag_update 128 127 ?bn (flag_update 1 254 ?bc r5))] =>
        destruct (CNZ_update r5 bn bz bc H5) as (E1 & E2 & E3 & E4)
    end.
    eexists. eexists. split; [reflexivity|]. split; [reflexivity|].
    split; [exact E1|]. split; [exact E2|]. split; [exact E3|].
    split; [exact E4|reflexivity].
  - rewrite exec_ROL_A. unfold Mode.accumulator, Mode.finish, Op.ROL.
    cbv zeta. cbn [isSetter result]. concrete.
    destruct (shift_left_byte r2 (band r5 1) H2 Hc) as (E & _).
    rewrite !E, band_255, !truthy_Number, ToUint8_mod
      by (clear - H2 Hc; lia).
    rewrite truthy_bit7 by apply mod_256_range.
    match goal with
    | |- context [flag_update 1 254 ?bc
                    (flag_update 2 253 ?bz (flag_update 128 127 ?bn r5))] =>
        destruct (NZC_update r5 bn bz bc H5) as (E1 & E2 & E3 & E4)
    end.
    eexists. eexists. split; [reflexivity|]. split; [reflexivity|].
    split; [exact E1|]. split; [exact E2|]. split; [exact E3|].
    split; [exact E4|reflexivity].
  - rewrite exec_ROR_A. unfold Mode.accumulator, Mode.finish, Op.ROR.
    cbv zeta. cbn [isSetter result]. concrete.
    destruct (shift_right_byte r2 (band r5 1) H2 Hc) as (E & _ & Eo).
    pose proof (half_range r2 (band r5 1) H2 Hc) as Hh.
    rewrite !E, band_255, !truthy_Number, Eo by (clear - Hh; lia).
    rewrite (Z.mod_small _ 256) by exact Hh.
    rewrite truthy_bit7, ToUint8_byte by exact Hh.
    match goal with
    | |- context [flag_update 2 253 ?bz
                    (flag_update 128 127 ?bn (flag_update 1 254 ?bc r5))] =>
        destruct (CNZ_update r5 bn bz bc H5) as (E1 & E2 & E3 & E4)
    end.
    eexists. eexists. split; [reflexivity|]. split; [reflexivity|].
    split; [exact E1|]. split; [exact E2|]. split; [exact E3|].
    split; [exact E4|reflexivity].
Qed.

Lemma accumulator_shift_moves_one_bit_witness :
  let s := set_sr 0x01 (set_ac 0x81 new_Simulator) in
  exists s' f,
    exec 0x6A [] s = Normal s'
    /\ registers s'
       = <[5%nat := f]>
           (<[2%nat := shifted false (ac s) (if true then carry s else 0)]>
              (registers s))
    /\ truthy (band f 0x01)
       = shifted_out false (ac s) (if true then carry s else 0)
    /\ truthy (band f 0x02)
       = (shifted false (ac s) (if true then carry s else 0) =? 0)
    /\ truthy (band f 0x80)
       = (128 <=? shifted false (ac s) (if true then carry s else 0))
    /\ band f 0x7C = band (sr s) 0x7C
    /\ mem s' = mem s.
Proof.
  intros s. apply (accumulator_shift_moves_one_bit 0x6A false true s).
  - unfold shifts. repeat constructor.
  - vm_compute. reflexivity.
Defined.

(** ** Increments and decrements of a memory cell *)

Lemma exec_INC_zeropage ll s : exec 0xE6 [ll] s = Normal (Mode.zeropage Op.INC ll s).
Proof. reflexivity. Qed.
Lemma exec_DEC_zeropage ll s : exec 0xC6 [ll] s = Normal (Mode.zeropage Op.DEC ll s).
Proof. reflexivity. Qed.

Lemma get_concrete ll hh offset c m rs :
  0 <= address ll hh offset ->
  get ll hh offset (mkSimulator c m rs)
  = default 0 (m !! Z.to_nat (address ll hh offset)).
Proof.
  intros H. unfold get, Uint8Array.at_index. cbn [mem].
  destruct (Z.leb_spec 0 (address ll hh offset)); [reflexivity|lia].
Qed.

Lemma truthy_bit7_stepped (b d : Z) :
  0 <= b < 256 -> d = 1 \/ d = -1 ->
  truthy (band (b + d) 0x80) = (128 <=? (b + d) mod 256).
Proof.
  intros Hb Hd. apply Bool.eqb_prop.
  assert (Hall : forall d, d = 1 \/ d = -1 ->
    all_below 256 (fun b =>
      Bool.eqb (truthy (band (b + d) 0x80)) (128 <=? (b + d) mod 256)) = true)
    by (intros ? [->| ->]; vm_compute; reflexivity).
  exact (all_bytes _ (Hall d Hd) b Hb).
Qed.

(** X23: INC and DEC of a zero-page cell holding the byte M store (M + 1) mod 256,
    respectively (M - 1) mod 256, and set N from bit 7 of the byte stored; Z
    is set exactly when the result before reduction is 0: DEC sets it when
    the cell becomes 0, INC never sets it, also not when $FF wraps to $00.
    The registers other than SR and the other cells are unchanged. *)
Theorem cell_stepper_wraps_but_tests_the_unreduced_result
    opcode (d ll : Z) (s : Simulator) :
  (opcode, d) ∈ cell_steppers ->
  well_formed s = true -> memory_bytes s = true ->
  0 <= ll < 256 ->
  exists s' f,
    exec opcode [ll] s = Normal s'
    /\ mem s' = <[Z.to_nat ll := (get ll 0 0 s + d) mod 256]> (mem s)
    /\ registers s' = <[5%nat := f]> (registers s)
    /\ truthy (band f 0x02) = (get ll 0 0 s + d =? 0)
    /\ truthy (band f 0x80) = (128 <=? (get ll 0 0 s + d) mod 256)
    /\ band f 0x7D = band (sr s) 0x7D.
Proof.
  intros Hin Hwf Hmb Hll.
  destruct (well_formed_inv s Hwf)
    as (c & m & r0 & r1 & r2 & r3 & r4 & r5 & r6 & ->
        & Hm & H0 & H1 & H2 & H3 & H4 & H5 & H6).
  unfold memory_bytes in Hmb. cbn [mem] in Hmb.
  pose proof (address_zero_page ll Hll) as Ez.
  rewrite sr_concrete, get_concrete, Ez by lia.
  pose proof (lookup_byte m (Z.to_nat ll) Hmb) as Hb.
  set (M := default 0 (m !! Z.to_nat ll)) in *.
  unfold cell_steppers in Hin.
  repeat (apply elem_of_cons in Hin as [Hin|Hin]);
    [..|apply elem_of_nil in Hin; destruct Hin];
    injection Hin as -> ->.
  - rewrite exec_INC_zeropage. unfold Mode.zeropage, Mode.finish, Op.INC.
    cbv zeta. cbn [isSetter result]. rewrite inc_cycle_concrete.
    rewrite get_concrete, Ez by lia. fold M. concrete.
    rewrite set_concrete, Ez by lia.
    rewrite truthy_Number, (truthy_bit7_stepped M 1 Hb) by auto.
    destruct (NZ_update r5 (128 <=? (M + 1) mod 256) (M + 1 =? 0) H5)
      as (E1 & E2 & E3).
    eexists. eexists. split; [reflexivity|]. split; [reflexivity|].
    split; [reflexivity|]. split; [exact E1|]. split; [exact E2|exact E3].
  - rewrite exec_DEC_zeropage. unfold Mode.zeropage, Mode.finish, Op.DEC.
    cbv zeta. cbn [isSetter result]. rewrite inc_cycle_concrete.
    rewrite get_concrete, Ez by lia. fold M. concrete.
    rewrite set_concrete, Ez by lia.
    rewrite truthy_Number.
    change (M - 1) with (M + -1).
    rewrite (truthy_bit7_stepped M (-1) Hb) by auto.
    destruct (NZ_update r5 (128 <=? (M + -1) mod 256) (M + -1 =? 0) H5)
      as (E1 & E2 & E3).
    eexists. eexists. split; [reflexivity|]. split; [reflexivity|].
    split; [reflexivity|]. split; [exact E1|]. split; [exact E2|exact E3].
Qed.

Lemma cell_stepper_wraps_but_tests_the_unreduced_result_witness :
  let s := set 0x10 0 0 0xFF new_Simulator in
  exists s' f,
    exec 0xE6 [0x10] s = Normal s'
    /\ mem s' = <[Z.to_nat 0x10 := (get 0x10 0 0 s + 1) mod 256]> (mem s)
    /\ registers s' = <[5%nat := f]> (registers s)
    /\ truthy (band f 0x02) = (get 0x10 0 0 s + 1 =? 0)
    /\ truthy (band f 0x80) = (128 <=? (get 0x10 0 0 s + 1) mod 256)
    /\ band f 0x7D = band (sr s) 0x7D.
Proof.
  intros s.
  apply (cell_stepper_wraps_but_tests_the_unreduced_result 0xE6 1 0x10 s).
  - unfold cell_steppers. repeat constructor.
  - vm_compute. reflexivity.
  - vm_compute. reflexivity.
  - lia.
Defined.

(** ** A routine: the sum of two words *)

Lemma carry_after_CLC_and_load (r : Z) (bn bz : bool) :
  0 <= r < 256 ->
  band (flag_update 0x02 0xFD bz
          (flag_update 0x80 0x7F bn (flag_update 0x01 0xFE false r))) 0x01 = 0.
Proof.
  intros H. apply Z.eqb_eq.
  assert (Hall : forall bn bz,
    all_below 256 (fun r =>
      band (flag_update 0x02 0xFD bz
              (flag_update 0x80 0x7F bn (flag_update 0x01 0xFE false r))) 0x01
      =? 0) = true)
    by (intros [] []; vm_compute; reflexivity).
  exact (all_bytes _ (Hall bn bz) r H).
Qed.

Lemma carry_after_ADC_and_load (r : Z) (bn bz bc bv bn' bz' : bool) :
  0 <= r < 256 ->
  band (flag_update 0x02 0xFD bz'
          (flag_update 0x80 0x7F bn'
             (flag_update 0x40 0xBF bv
                (flag_update 0x01 0xFE bc
                   (flag_update 0x02 0xFD bz (flag_update 0x80 0x7F bn r))))))
       0x01
  = Number bc.
Proof.
  intros H. apply Z.eqb_eq.
  assert (Hall : forall bn bz bc bv bn' bz',
    all_below 256 (fun r =>
      band (flag_update 0x02 0xFD bz'
              (flag_update 0x80 0x7F bn'
                 (flag_update 0x40 0xBF bv
                    (flag_update 0x01 0xFE bc
                       (flag_update 0x02 0xFD bz
                          (flag_update 0x80 0x7F bn r)))))) 0x01
      =? Number bc) = true)
    by (intros [] [] [] [] [] []; vm_compute; reflexivity).
  exact (all_bytes _ (Hall bn bz bc bv bn' bz') r H).
Qed.

Lemma ToUint8_idemp z : ToUint8 (ToUint8 z) = ToUint8 z.
Proof. unfold ToUint8. apply Z.mod_mod. lia. Qed.

(** X24: the routine computes the sum of the two words: the cells z0 and z1 and
    the carry flag hold the 17 bits of a1:a0 + b1:b0.  The carry of the low
    bytes survives the store and the load between the two additions. *)
Theorem add_words_computes_the_sum (a0 a1 b0 b1 z0 z1 : Z) (s : Simulator) :
  well_formed s = true ->
  0 <= a0 < 256 -> 0 <= a1 < 256 -> 0 <= b0 < 256 -> 0 <= b1 < 256 ->
  0 <= z0 < 256 -> 0 <= z1 < 256 -> z0 <> z1 ->
  exists s',
    exec_all (add_words a0 a1 b0 b1 z0 z1) s = Normal s'
    /\ get z0 0 0 s' + 256 * get z1 0 0 s'
       + 65536 * Number (truthy (carry s'))
       = (a0 + 256 * a1) + (b0 + 256 * b1).
Proof.
  intros Hwf Ha0 Ha1 Hb0 Hb1 Hz0 Hz1 Hz.
  destruct (well_formed_inv s Hwf)
    as (c & m & r0 & r1 & r2 & r3 & r4 & r5 & r6 & ->
        & Hm & H0 & H1 & H2 & H3 & H4 & H5 & H6).
  change (2 ^ 16) with 65536 in Hm.
  pose proof (address_zero_page z0 Hz0) as Ez0.
  pose proof (address_zero_page z1 Hz1) as Ez1.
  unfold add_words. cbn [exec_all].
  (* CLC; LDA #a0 *)
  rewrite exec_CLC. unfold Op.CLC. concrete. rewrite bind_Normal.
  change (truthy 0) with false.
  rewrite exec_LDA_immediate. unfold Mode.immediate, Op.LDA. concrete.
  rewrite bind_Normal, (ToUint8_byte a0) by exact Ha0.
  match goal with
  | |- context [flag_update 2 253 ?bz
                  (flag_update 128 127 ?bn (flag_update 1 254 false r5))] =>
      pose proof (carry_after_CLC_and_load r5 bn bz H5) as Hc2;
      pose proof (flag_update_range 2 253 bz
                    (flag_update 128 127 bn (flag_update 1 254 false r5)))
        as Hf2;
      set (f2 := flag_update 2 253 bz
                   (flag_update 128 127 bn (flag_update 1 254 false r5))) in *;
      clearbody f2
  end.
  (* ADC #b0; STA z0 *)
  rewrite exec_ADC_immediate. unfold Mode.immediate, Op.ADC. concrete.
  rewrite carry_concrete, bind_Normal, Hc2, Z.add_0_r, !truthy_Number.
  match goal with
  | |- context [flag_update 64 191 ?bv
                  (flag_update 1 254 ?bc
                     (flag_update 2 253 ?bz (flag_update 128 127 ?bn f2)))] =>
      set (bv3 := bv); set (bz3 := bz); set (bn3 := bn);
      clearbody bv3 bz3 bn3
  end.
  rewrite exec_STA_zeropage. store_case.
  rewrite set_concrete, Ez0, bind_Normal by lia.
  (* LDA #a1 *)
  rewrite exec_LDA_immediate. unfold Mode.immediate, Op.LDA. concrete.
  rewrite bind_Normal, (ToUint8_byte a1) by exact Ha1.
  match goal with
  | |- context [flag_update 2 253 ?bz
                  (flag_update 128 127 ?bn (flag_update 64 191 bv3 _))] =>
      set (bz5 := bz); set (bn5 := bn); clearbody bz5 bn5
  end.
  (* ADC #b1; STA z1 *)
  rewrite exec_ADC_immediate. unfold Mode.immediate, Op.ADC. concrete.
  rewrite carry_concrete, bind_Normal.
  rewrite !carry_after_ADC_and_load by exact Hf2.
  rewrite !truthy_Number.
  match goal with
  | |- context [flag_update 64 191 ?bv
                  (flag_update 1 254 ?bc
                     (flag_update 2 253 ?bz
                        (flag_update 128 127 ?bn
                           (flag_update 2 253 bz5 ?f))))] =>
      destruct (NZCV_update (flag_update 2 253 bz5 f) bn bz bc bv
                  (flag_update_range _ _ _ _)) as (Ec & _);
      set (f6 := flag_update 64 191 bv
                   (flag_update 1 254 bc
                      (flag_update 2 253 bz
                         (flag_update 128 127 bn
                            (flag_update 2 253 bz5 f))))) in *;
      clearbody f6
  end.
  rewrite exec_STA_zeropage. store_case.
  rewrite set_concrete, Ez1 by lia.
  eexists. split; [reflexivity|].
  rewrite !get_concrete, Ez0, Ez1, carry_concrete, Ec by lia.
  rewrite list_lookup_insert_ne by lia.
  rewrite !list_lookup_insert_eq by (rewrite ?length_insert; lia).
  cbn [default from_option]. unfold id.
  rewrite !ToUint8_idemp.
  unfold ToUint8, Number. change (2 ^ 8) with 256.
  destruct (Z.ltb_spec 255 (a0 + b0));
    match goal with
    | |- context [255 <? ?x] => destruct (Z.ltb_spec 255 x)
    end;
    Z.to_euclidean_division_equations; lia.
Qed.

Lemma add_words_computes_the_sum_witness :
  exists s',
    exec_all (add_words 0xFF 0x12 0x01 0xED 0x10 0x11) new_Simulator = Normal s'
    /\ get 0x10 0 0 s' + 256 * get 0x11 0 0 s'
       + 65536 * Number (truthy (carry s'))
       = (0xFF + 256 * 0x12) + (0x01 + 256 * 0xED).
Proof.
  apply (add_words_computes_the_sum 0xFF 0x12 0x01 0xED 0x10 0x11
           new_Simulator); try lia.
  vm_compute. reflexivity.
Defined.

(** ** The opcodes of the table *)

Lemma is_Some_keys {A} (m : gmap Z A) (k : Z) :
  is_Some (m !! k) <-> In k (map_to_list m).*1.
Proof.
  rewrite <- list_elem_of_In, list_elem_of_fmap. split.
  - intros [v Hv]. exists (k, v). split; [reflexivity|].
    apply elem_of_map_to_list, Hv.
  - intros ([k' v] & -> & H). exists v. apply elem_of_map_to_list, H.
Qed.

(** X25: the constructor registers 151 opcodes, all of them bytes, and gives a
    name to exactly the opcodes it gives a function: [codeToName] and [ops]
    have the same keys. *)
Theorem table_names_every_opcode (opcode : Z) :
  size (ops dispatch) = 151%nat
  /\ (is_Some (ops dispatch !! opcode)
      <-> is_Some (codeToName dispatch !! opcode))
  /\ (is_Some (ops dispatch !! opcode) -> 0 <= opcode < 256).
Proof.
  assert (Hkeys : (map_to_list (ops dispatch)).*1
                  = (map_to_list (codeToName dispatch)).*1)
    by (apply (bool_decide_unpack _); vm_compute; exact I).
  assert (Hbytes : forallb (fun c => (0 <=? c) && (c <? 256))
                     (map_to_list (codeToName dispatch)).*1 = true)
    by (vm_compute; reflexivity).
  split; [vm_compute; reflexivity|]. split.
  - rewrite !is_Some_keys, Hkeys. reflexivity.
  - rewrite is_Some_keys, Hkeys. intros Hin.
    rewrite forallb_forall in Hbytes. specialize (Hbytes _ Hin).
    cbv beta in Hbytes. lia.
Qed.

(** ** The subscribers of the runner *)

Section Subscribers.
Context {C : Type}.
Import Subscribers.

Lemma Map_set_fresh (k : Z) (v : C) (m : list (Z * C)) :
  Forall (fun e => e.1 < k) m -> Map_set C k v m = m ++ [(k, v)].
Proof.
  induction 1 as [|[k' v'] rest Hk _ IH]; cbn [Map_set app].
  - reflexivity.
  - cbn [fst] in Hk. destruct (Z.eqb_spec k' k); [lia|]. rewrite IH. reflexivity.
Qed.

Lemma bounded_onChange cb (r : t C) :
  bounded C r ->
  bounded C (onChange C cb r).2
  /\ (onChange C cb r).1 = subId C r
  /\ subId C (onChange C cb r).2 = subId C r + 1
  /\ subs C (onChange C cb r).2 = subs C r ++ [(subId C r, cb)].
Proof.
  intros (H0 & Hb).
  assert (Hfresh : Forall (fun e : Z * C => e.1 < subId C r) (subs C r))
    by (eapply Forall_impl; [exact Hb|]; cbn; intros; lia).
  unfold onChange. cbv zeta. cbn [fst snd subId subs].
  rewrite (Map_set_fresh _ _ _ Hfresh).
  split; [|split; [apply Z.add_simpl_r|split; reflexivity]].
  split; [cbn; clear - H0; lia|]. cbn.
  apply Forall_app. split.
  - eapply Forall_impl; [exact Hb|]. cbn. intros. lia.
  - constructor; [cbn; lia|constructor].
Qed.

Lemma bounded_offChange id (r : t C) :
  bounded C r -> bounded C (offChange C id r).
Proof.
  intros (H0 & Hb). unfold offChange, Map_delete.
  split; [exact H0|]. cbn [subId subs].
  rewrite Forall_forall in *. intros e He. apply Hb.
  apply list_elem_of_filter in He as [_ He]. exact He.
Qed.

Lemma bounded_calls (calls : list (call C)) :
  let r := foldl (fun r c => do_call C c r) (new C) calls in
  bounded C r /\ subId C r = Z.of_nat (length (subscribed C calls)).
Proof.
  cbv zeta. induction calls as [|c calls IH] using rev_ind.
  - split; [|reflexivity]. split; [cbn; lia|constructor].
  - rewrite foldl_app. cbn [foldl]. destruct IH as [Hb Hn].
    unfold subscribed. rewrite omap_app, length_app. fold (subscribed C calls).
    destruct c as [cb|id]; cbn [do_call omap].
    + destruct (bounded_onChange cb _ Hb) as (Hb' & _ & Hs & _).
      split; [exact Hb'|]. rewrite Hs, Hn. cbn. lia.
    + split; [apply bounded_offChange, Hb|].
      cbn. rewrite Hn. lia.
Qed.

(** X26: after any sequence of [onChange] and [offChange] calls on a new runner,
    [onChange] returns the number of subscriptions made so far, an
    identifier that no subscriber holds, also when subscribers have left;
    the callback is added at the end of the map, so [notify] calls the
    callbacks in the order of their subscription. *)
Theorem onChange_gives_a_fresh_identifier (calls : list (call C)) (cb : C) :
  let r := foldl (fun r c => do_call C c r) (new C) calls in
  fst (onChange C cb r) = Z.of_nat (length (subscribed C calls))
  /\ ~ In (fst (onChange C cb r)) (fst <$> subs C r)
  /\ subs C (snd (onChange C cb r))
     = subs C r ++ [(fst (onChange C cb r), cb)]
  /\ notify C (snd (onChange C cb r)) = notify C r ++ [cb].
Proof.
  cbv zeta. destruct (bounded_calls calls) as [Hb Hn]. cbv zeta in Hb, Hn.
  destruct (bounded_onChange cb _ Hb) as (_ & E1 & _ & E2).
  rewrite E1. split; [exact Hn|]. split; [|split].
  - intros Hin. apply list_elem_of_In, list_elem_of_fmap in Hin
      as ([k v] & Hk & Hin).
    destruct Hb as [_ Hb]. rewrite Forall_forall in Hb.
    specialize (Hb _ Hin). cbn in Hk, Hb. lia.
  - exact E2.
  - unfold notify. rewrite E2, fmap_app. reflexivity.
Qed.

End Subscribers.
